(** * Mastodon OpenAPI generators and validator: a shallow embedding

    The repository consists of four Python scripts:
    - [validate_openapi.py]               (module [Validator]),
    - [generate_sample_openapi.py]        (module [Sample]),
    - [generate_comprehensive_openapi.py] (module [Comprehensive]),
    - [generate_openapi.py]               (module [Scraper]).

    The scripts manipulate the values that [json.load] and [yaml.safe_load]
    return (None, booleans, integers, floats, strings, lists and
    insertion-ordered dictionaries), print to standard output and may raise
    exceptions.  Module [Py] models these values and the operations of the
    language that the scripts use on them; the other modules translate the
    scripts function by function. *)

From Stdlib Require Import String Ascii List Bool Arith ZArith NArith Lia.
Import ListNotations.
Local Open Scope string_scope.
Local Open Scope list_scope.
Local Set Warnings "-register-all".

(** ** Python values, exceptions and effects *)

Module Py.

(** The value of a parsed document.  A dictionary is the list of its
    entries in insertion order; its keys are values, since YAML mappings
    may have keys that are not strings.  A float is kept as its IEEE-754
    bit pattern: no script computes with one. *)
Inductive value : Type :=
| VNone
| VBool (b : bool)
| VInt (z : Z)
| VFloat (bits : N)
| VStr (s : string)
| VList (items : list value)
| VDict (entries : list (value * value)).

(** The exception classes that the modelled operations raise.  All of them
    derive from [Exception]. *)
Inductive exn : Type :=
| TypeError
| AttributeError
| KeyError
| IndexError
| ValueError
| UnicodeDecodeError
| UnicodeEncodeError
| BinasciiError
| JSONDecodeError
| YAMLError
| OSError
| RequestException.

(** The classes named in the [except] clauses of the scripts. *)
Inductive exn_class : Type :=
| CException
| CYAMLError
| CJSONDecodeError.

Definition isinstance_exn (e : exn) (c : exn_class) : bool :=
  match c, e with
  | CException, _ => true
  | CYAMLError, YAMLError => true
  | CJSONDecodeError, JSONDecodeError => true
  | _, _ => false
  end.

Inductive result (A : Type) : Type :=
| Ok (a : A)
| Raise (e : exn).
Arguments Ok {A} a.
Arguments Raise {A} e.

(** What one call of [print] prints: the list of the pieces of its
    f-string, which are literal text (and interpolated strings), [str()] of
    a value, an integer, or the message of an exception.  The text of one
    call is one line when no piece holds a line break. *)
Inductive frag : Type :=
| FLit (s : string)
| FVal (v : value)
| FNat (n : nat)
| FExn (e : exn).

Definition line := list frag.

(** Standard output as a script sees it.  [print(f"...")] formats the
    pieces of the line and writes the text, and either step may raise:
    [str()] of an integer of more than 4300 digits raises ValueError, the
    stream raises UnicodeEncodeError on text that its encoding does not
    have and OSError when it cannot be written to.  A console tells, for
    each line, whether printing it succeeds or what it raises. *)
Definition console : Type := line -> result unit.

(** A computation returns or raises, and prints lines on the way. *)
Definition M (A : Type) : Type := (result A * list line)%type.

Definition ret {A} (a : A) : M A := (Ok a, []).
Definition raise {A} (e : exn) : M A := (Raise e, []).
Definition lift {A} (r : result A) : M A := (r, []).

(** [print(...)]: the line is printed, or the call raises and nothing is
    printed. *)
Definition print (stdout : console) (l : line) : M unit :=
  match stdout l with
  | Ok _ => (Ok tt, [l])
  | Raise e => (Raise e, [])
  end.

Definition bind {A B} (m : M A) (f : A -> M B) : M B :=
  match m with
  | (Ok a, out) => let (r, out') := f a in (r, out ++ out')
  | (Raise e, out) => (Raise e, out)
  end.

Notation "x <- c ;; k" := (bind c (fun x => k))
  (at level 61, c at next level, right associativity).
Notation "c ;;; k" := (bind c (fun _ => k))
  (at level 61, right associativity).

(** [try: body except C1 as e: h1 ... ]: the first clause whose class the
    exception is an instance of handles it; with no such clause the
    exception propagates. *)
Fixpoint select_handler {A} (hs : list (exn_class * (exn -> M A))) (e : exn)
  : option (M A) :=
  match hs with
  | [] => None
  | (c, h) :: hs' => if isinstance_exn e c then Some (h e) else select_handler hs' e
  end.

Definition try_except {A} (body : M A) (hs : list (exn_class * (exn -> M A))) : M A :=
  match body with
  | (Ok a, out) => (Ok a, out)
  | (Raise e, out) =>
      match select_handler hs e with
      | Some h => let (r, out') := h in (r, out ++ out')
      | None => (Raise e, out)
      end
  end.

(** A [for] loop whose body may raise. *)
Fixpoint foldM {A B} (f : A -> B -> M A) (xs : list B) (a : A) : M A :=
  match xs with
  | [] => ret a
  | x :: xs' => a' <- f a x ;; foldM f xs' a'
  end.

(** *** Strings *)

Definition lower_ascii (c : ascii) : ascii :=
  let n := nat_of_ascii c in
  if ((65 <=? n) && (n <=? 90))%nat then ascii_of_nat (n + 32) else c.

(** [str.lower], on ASCII letters. *)
Fixpoint lower (s : string) : string :=
  match s with
  | EmptyString => EmptyString
  | String c s' => String (lower_ascii c) (lower s')
  end.

Definition upper_ascii (c : ascii) : ascii :=
  let n := nat_of_ascii c in
  if ((97 <=? n) && (n <=? 122))%nat then ascii_of_nat (n - 32) else c.

(** [str.upper], on ASCII letters. *)
Fixpoint upper (s : string) : string :=
  match s with
  | EmptyString => EmptyString
  | String c s' => String (upper_ascii c) (upper s')
  end.

(** The ASCII characters that [str.strip] removes. *)
Definition is_space (c : ascii) : bool :=
  let n := nat_of_ascii c in
  ((9 <=? n) && (n <=? 13) || (28 <=? n) && (n <=? 32))%nat.

Fixpoint lstrip (s : string) : string :=
  match s with
  | EmptyString => EmptyString
  | String c s' => if is_space c then lstrip s' else s
  end.

Fixpoint rstrip (s : string) : string :=
  match s with
  | EmptyString => EmptyString
  | String c s' =>
      match rstrip s' with
      | EmptyString => if is_space c then EmptyString else String c EmptyString
      | r => String c r
      end
  end.

(** [str.strip], on ASCII white space. *)
Definition strip (s : string) : string := rstrip (lstrip s).

(** [str.startswith]. *)
Definition startswith (s p : string) : bool := String.prefix p s.

(** [sub in s] on strings. *)
Fixpoint contains (s sub : string) : bool :=
  String.prefix sub s ||
  match s with
  | EmptyString => false
  | String _ s' => contains s' sub
  end.

Fixpoint drop (n : nat) (s : string) : string :=
  match n, s with
  | O, _ => s
  | S n', String _ s' => drop n' s'
  | S _, EmptyString => EmptyString
  end.

(** [str.endswith]. *)
Definition endswith (s p : string) : bool :=
  (String.length p <=? String.length s)%nat &&
  String.eqb (drop (String.length s - String.length p) s) p.

(** [s.replace(old, new)] for a non-empty [old]: occurrences are replaced
    from the left and do not overlap.  [fuel] bounds the number of
    characters still to scan. *)
Fixpoint replace_fuel (fuel : nat) (s old new : string) : string :=
  match fuel with
  | O => s
  | S fuel' =>
      match s with
      | EmptyString => EmptyString
      | String c s' =>
          if String.prefix old s
          then new ++ replace_fuel fuel' (drop (String.length old) s) old new
          else String c (replace_fuel fuel' s' old new)
      end
  end.

Definition replace (s old new : string) : string :=
  replace_fuel (String.length s) s old new.

(** [s.split(sep)] and [s.split(sep, maxsplit)] for a non-empty [sep]:
    [maxsplit] is [None] when it is not given.  [cur] is the part being
    read and [fuel] bounds the number of characters still to scan. *)
Fixpoint split_fuel (fuel : nat) (maxsplit : option nat) (sep cur s : string)
  : list string :=
  match fuel with
  | O => [(cur ++ s)%string]
  | S fuel' =>
      match s with
      | EmptyString => [cur]
      | String c s' =>
          let may_split :=
            match maxsplit with Some O => false | _ => true end in
          if may_split && String.prefix sep s
          then cur :: split_fuel fuel' (option_map Nat.pred maxsplit) sep ""
                        (drop (String.length sep) s)
          else split_fuel fuel' maxsplit sep (cur ++ String c EmptyString)%string s'
      end
  end.

Definition split (s sep : string) (maxsplit : option nat) : list string :=
  split_fuel (String.length s) maxsplit sep "" s.

(** A byte that continues a UTF-8 sequence. *)
Definition is_continuation (c : ascii) : bool :=
  let n := nat_of_ascii c in ((128 <=? n) && (n <? 192))%nat.

(** The characters of a string: each lead byte with its continuation
    bytes. *)
Fixpoint chars_acc (cur : string) (s : string) : list string :=
  match s with
  | EmptyString => [cur]
  | String c s' =>
      if is_continuation c then chars_acc (cur ++ String c EmptyString) s'
      else cur :: chars_acc (String c EmptyString) s'
  end.

Definition chars (s : string) : list string :=
  match s with
  | EmptyString => []
  | String c s' => chars_acc (String c EmptyString) s'
  end.

(** *** Operations on values *)

Definition is_str (v : value) : bool :=
  match v with VStr _ => true | _ => false end.

Definition is_key (k : string) (v : value) : bool :=
  match v with VStr s => String.eqb s k | _ => false end.

(** [d.get(k)] on the entries of a dictionary, for a string key. *)
Fixpoint lookup (k : string) (d : list (value * value)) : option value :=
  match d with
  | [] => None
  | (k', v) :: d' => if is_key k k' then Some v else lookup k d'
  end.

(** [d[k] = v] on the entries of a dictionary: an existing key keeps its
    position, a new key goes last. *)
Fixpoint assign (k : string) (v : value) (d : list (value * value))
  : list (value * value) :=
  match d with
  | [] => [(VStr k, v)]
  | (k', v') :: d' =>
      if is_key k k' then (k', v) :: d' else (k', v') :: assign k v d'
  end.

(** [k in x] for a string [k]. *)
Definition py_in (k : string) (x : value) : result bool :=
  match x with
  | VDict d => Ok (match lookup k d with Some _ => true | None => false end)
  | VList l => Ok (existsb (is_key k) l)
  | VStr s => Ok (contains s k)
  | _ => Raise TypeError
  end.

(** [x[k]] for a string [k]. *)
Definition getitem (x : value) (k : string) : result value :=
  match x with
  | VDict d => match lookup k d with Some v => Ok v | None => Raise KeyError end
  | _ => Raise TypeError
  end.

(** [x[k] = v] for a string [k]. *)
Definition setitem (x : value) (k : string) (v : value) : result value :=
  match x with
  | VDict d => Ok (VDict (assign k v d))
  | _ => Raise TypeError
  end.

(** [x.get(k, default)]. *)
Definition get_default (x : value) (k : string) (default : value) : result value :=
  match x with
  | VDict d => Ok (match lookup k d with Some v => v | None => default end)
  | _ => Raise AttributeError
  end.

(** [x.startswith(p)]. *)
Definition py_startswith (x : value) (p : string) : result bool :=
  match x with
  | VStr s => Ok (startswith s p)
  | _ => Raise AttributeError
  end.

(** [x.endswith(p)]. *)
Definition py_endswith (x : value) (p : string) : result bool :=
  match x with
  | VStr s => Ok (endswith s p)
  | _ => Raise AttributeError
  end.

(** [len(x)]. *)
Definition py_len (x : value) : result nat :=
  match x with
  | VDict d => Ok (List.length d)
  | VList l => Ok (List.length l)
  | VStr s => Ok (List.length (chars s))
  | _ => Raise TypeError
  end.

(** [x.values()]. *)
Definition py_values (x : value) : result (list value) :=
  match x with
  | VDict d => Ok (map snd d)
  | _ => Raise AttributeError
  end.

(** The items that [for item in x] visits. *)
Definition py_iter (x : value) : result (list value) :=
  match x with
  | VDict d => Ok (map fst d)
  | VList l => Ok l
  | VStr s => Ok (map VStr (chars s))
  | _ => Raise TypeError
  end.

Definition is_dict (v : value) : bool :=
  match v with VDict _ => true | _ => false end.

Definition hashable (v : value) : bool :=
  match v with VList _ | VDict _ => false | _ => true end.

(** [x == s] for a string [s]. *)
Definition eq_str (x : value) (s : string) : bool := is_key s x.

(** The truth value of a value. *)
Definition py_truthy (v : value) : bool :=
  match v with
  | VNone => false
  | VBool b => b
  | VInt z => negb (Z.eqb z 0)
  | VFloat bits => negb (N.eqb bits 0 || N.eqb bits (2 ^ 63))
  | VStr s => negb (String.eqb s "")
  | VList l => match l with [] => false | _ => true end
  | VDict d => match d with [] => false | _ => true end
  end.

(** [x.m(...)] for a method [m] of strings: the string that it is called on. *)
Definition str_method (x : value) : result string :=
  match x with
  | VStr s => Ok s
  | _ => Raise AttributeError
  end.

(** The truth value of an [Optional[str]]. *)
Definition truthy (o : option string) : bool :=
  match o with
  | Some s => negb (String.eqb s "")
  | None => false
  end.

(** [x in l] for a list of strings. *)
Definition in_list (x : string) (l : list string) : bool :=
  existsb (String.eqb x) l.

(** The character [chr(34)]. *)
Definition dquote : string := String (ascii_of_nat 34) EmptyString.

(** The entries of a dictionary display [{k1: v1, ..., kn: vn}] with string
    keys that differ from one another. *)
Definition lit (l : list (string * value)) : list (value * value) :=
  map (fun kv => (VStr (fst kv), snd kv)) l.

Definition obj (l : list (string * value)) : value := VDict (lit l).

(** [x[k1]...[kn][k] = v]: the containers on the way are reached with
    [getitem] and are updated in place, so that each stays at its key. *)
Fixpoint setitem_at (x : value) (path : list string) (k : string) (v : value)
  : result value :=
  match path with
  | [] => setitem x k v
  | k1 :: path' =>
      match getitem x k1 with
      | Ok c =>
          match setitem_at c path' k v with
          | Ok c' => setitem x k1 c'
          | Raise e => Raise e
          end
      | Raise e => Raise e
      end
  end.

(** A [Dict[str, A]] of objects: the entries in insertion order. *)
Definition dict (A : Type) : Type := list (string * A).

Fixpoint dict_get {A} (k : string) (d : dict A) : option A :=
  match d with
  | [] => None
  | (k', a) :: d' => if String.eqb k' k then Some a else dict_get k d'
  end.

Fixpoint dict_set {A} (k : string) (a : A) (d : dict A) : dict A :=
  match d with
  | [] => [(k, a)]
  | (k', a') :: d' =>
      if String.eqb k' k then (k', a) :: d' else (k', a') :: dict_set k a d'
  end.

(** What may differ between two runs of a script: the seed of the string
    hash and the command line.  No script reads either. *)
Record process : Type := {
  hash_seed : N;
  argv : list string
}.

End Py.

(** ** The validator: [validate_openapi.py] *)

Module Validator.
Import Py.

(** What the validator sees of the file it is given: what
    [Path(file_path).exists()] yields (a boolean, or the OSError of a
    [stat] that fails for another reason than a missing file), [path.suffix],
    and what opening the file and running each loader on it yields (a
    value, or the exception the loader or [open] raises). *)
Record file : Type := {
  file_path : string;
  path_exists : result bool;
  path_suffix : string;
  yaml_safe_load : result value;
  json_load : result value
}.

Definition required_fields : list string := ["openapi"; "info"; "paths"].
Definition info_required : list string := ["title"; "version"].

Section WithConsole.
Variable stdout : console.

(** [for field in required_fields: if field not in spec: ... return False];
    [k] is the code after the loop. *)
Fixpoint check_required (fields : list string) (spec : value) (k : M bool) : M bool :=
  match fields with
  | [] => k
  | field :: rest =>
      present <- lift (py_in field spec) ;;
      if negb present
      then print stdout [FLit "❌ Missing required field: "; FLit field] ;;; ret false
      else check_required rest spec k
  end.

(** [for field in info_required: if field not in spec['info']: ... return False]. *)
Fixpoint check_info (fields : list string) (spec : value) (k : M bool) : M bool :=
  match fields with
  | [] => k
  | field :: rest =>
      info <- lift (getitem spec "info") ;;
      present <- lift (py_in field info) ;;
      if negb present
      then print stdout [FLit "❌ Missing required info field: "; FLit field] ;;; ret false
      else check_info rest spec k
  end.

(** [tags.update(x)]: [x] is iterated and its items are hashed.  The set is
    kept as the list of the items added. *)
Definition set_update (tags : list value) (x : value) : M (list value) :=
  items <- lift (py_iter x) ;;
  if forallb hashable items then ret (tags ++ items) else raise TypeError.

(** The body of the inner loop, for one [operation]. *)
Definition collect_operation (tags : list value) (operation : value) : M (list value) :=
  match operation with
  | VDict d =>
      match lookup "tags" d with
      | Some _ => t <- lift (getitem operation "tags") ;; set_update tags t
      | None => ret tags
      end
  | _ => ret tags
  end.

(** The body of the outer loop, for one [path_obj]. *)
Definition collect_path (tags : list value) (path_obj : value) : M (list value) :=
  operations <- lift (py_values path_obj) ;;
  foldM collect_operation operations tags.

Definition str_of (v : value) : string :=
  match v with VStr s => s | _ => "" end.

Fixpoint insert_sorted (s : string) (l : list string) : list string :=
  match l with
  | [] => [s]
  | x :: l' =>
      if String.eqb s x then l
      else if String.ltb s x then s :: l else x :: insert_sorted s l'
  end.

(** [', '.join(sorted(tags))] for the set of the items in [tags]: with an
    item that is not a string, [sorted] raises TypeError on a comparison
    of a string with it or, when no such comparison is made, [join] raises
    TypeError on it. *)
Definition join_sorted (tags : list value) : M string :=
  if forallb is_str tags
  then ret (String.concat ", " (fold_right insert_sorted [] (map str_of tags)))
  else raise TypeError.

(** The code from "Count components" to [return True]. *)
Definition report (spec : value) : M bool :=
  paths <- lift (get_default spec "paths" (VDict [])) ;;
  paths_count <- lift (py_len paths) ;;
  components <- lift (get_default spec "components" (VDict [])) ;;
  schemas <- lift (get_default components "schemas" (VDict [])) ;;
  schemas_count <- lift (py_len schemas) ;;
  print stdout [FLit "✅ OpenAPI specification is valid"] ;;;
  version <- lift (getitem spec "openapi") ;;
  print stdout [FLit "   Version: "; FVal version] ;;;
  info <- lift (getitem spec "info") ;;
  title <- lift (getitem info "title") ;;
  print stdout [FLit "   Title: "; FVal title] ;;;
  info' <- lift (getitem spec "info") ;;
  api_version <- lift (getitem info' "version") ;;
  print stdout [FLit "   API Version: "; FVal api_version] ;;;
  print stdout [FLit "   Paths: "; FNat paths_count] ;;;
  print stdout [FLit "   Schemas: "; FNat schemas_count] ;;;
  paths' <- lift (getitem spec "paths") ;;
  path_objs <- lift (py_values paths') ;;
  tags <- foldM collect_path path_objs [] ;;
  joined <- join_sorted tags ;;
  print stdout [FLit "   Tags: "; FLit joined] ;;;
  ret true.

(** "Check OpenAPI version" and what follows it. *)
Definition check_version (spec : value) (k : M bool) : M bool :=
  openapi <- lift (getitem spec "openapi") ;;
  is3 <- lift (py_startswith openapi "3.") ;;
  if negb is3
  then print stdout [FLit "❌ Unsupported OpenAPI version: "; FVal openapi] ;;; ret false
  else k.

(** The code from "Basic OpenAPI validation" to [return True]. *)
Definition validate_loaded (spec : value) : M bool :=
  check_required required_fields spec
    (check_version spec
       (check_info info_required spec
          (report spec))).

(** The [try] block. *)
Definition validate_body (f : file) : M bool :=
  let suffix := lower (path_suffix f) in
  if String.eqb suffix ".yaml" || String.eqb suffix ".yml"
  then spec <- lift (yaml_safe_load f) ;; validate_loaded spec
  else if String.eqb suffix ".json"
  then spec <- lift (json_load f) ;; validate_loaded spec
  else print stdout [FLit "❌ Unsupported file format: "; FLit (path_suffix f)] ;;; ret false.

Definition validate_openapi_spec (f : file) : M bool :=
  found <- lift (path_exists f) ;;
  if negb found
  then print stdout [FLit "❌ File not found: "; FLit (file_path f)] ;;; ret false
  else
    try_except (validate_body f)
      [ (CYAMLError, fun e => print stdout [FLit "❌ YAML parsing error: "; FExn e] ;;; ret false);
        (CJSONDecodeError, fun e => print stdout [FLit "❌ JSON parsing error: "; FExn e] ;;; ret false);
        (CException, fun e => print stdout [FLit "❌ Validation error: "; FExn e] ;;; ret false) ].

End WithConsole.

End Validator.

(** ** The dataclasses of the generators

    [generate_sample_openapi.py] and [generate_openapi.py] declare the same
    five dataclasses; [generate_comprehensive_openapi.py] adds the field
    [items_ref] to [PropertyInfo].  The constructors take the fields in the
    order of their declaration; the defaults of the source are written out
    at each use. *)

Module ParameterInfo.
Record t : Type := mk {
  name : string;
  type : string;
  description : string;
  required : bool;       (* = False *)
  location : string      (* = "query" *)
}.
End ParameterInfo.

Module ResponseInfo.
Record t : Type := mk {
  status_code : string;
  description : string;
  schema_ref : option string   (* = None *)
}.
End ResponseInfo.

Module EndpointInfo.
Record t : Type := mk {
  path : string;
  method : string;
  summary : string;
  description : string;
  parameters : list ParameterInfo.t;
  responses : list ResponseInfo.t;
  tags : list string
}.
End EndpointInfo.

Module EntityInfo.
Record t (P : Type) : Type := mk {
  name : string;
  description : string;
  properties : list P
}.
Arguments mk {P} _ _ _.
Arguments name {P} _.
Arguments description {P} _.
Arguments properties {P} _.
End EntityInfo.

(** The parts of [generate_openapi_spec] that the three generators share
    word for word. *)
Module Common.
Import Py.

(** The dictionary built for one parameter. *)
Definition param_schema (param : ParameterInfo.t) : value :=
  obj [ ("name", VStr (ParameterInfo.name param));
        ("in", VStr (ParameterInfo.location param));
        ("description", VStr (ParameterInfo.description param));
        ("required", VBool (ParameterInfo.required param));
        ("schema", obj [("type", VStr (ParameterInfo.type param))]) ].

(** The dictionary built for one response. *)
Definition resp_schema (response : ResponseInfo.t) : value :=
  let resp_schema := lit [("description", VStr (ResponseInfo.description response))] in
  let resp_schema :=
    match ResponseInfo.schema_ref response with
    | Some ref =>
        if truthy (ResponseInfo.schema_ref response)
        then assign "content"
               (obj [("application/json",
                      obj [("schema",
                            obj [("$ref", VStr ("#/components/schemas/" ++ ref))])])])
               resp_schema
        else resp_schema
    | None => resp_schema
    end in
  VDict resp_schema.

(** [for response in endpoint.responses: ... responses[response.status_code] = resp_schema]. *)
Definition responses_of (responses : list ResponseInfo.t) : list (value * value) :=
  fold_left
    (fun acc response => assign (ResponseInfo.status_code response) (resp_schema response) acc)
    responses [].

Definition servers : value :=
  VList
    [ obj [ ("url", VStr "https://{instance}");
            ("description", VStr "Mastodon instance");
            ("variables",
             obj [("instance",
                   obj [ ("default", VStr "mastodon.social");
                         ("description", VStr "The domain of your Mastodon instance") ])]) ] ].

Definition contact : value :=
  obj [("name", VStr "Mastodon Project"); ("url", VStr "https://joinmastodon.org")].

Definition license : value :=
  obj [ ("name", VStr "AGPL-3.0");
        ("url", VStr "https://github.com/mastodon/mastodon/blob/main/LICENSE") ].

(** [if openapi_path not in spec["paths"]: spec["paths"][openapi_path] = {}]. *)
Definition ensure_path (spec : value) (openapi_path : string) : M value :=
  paths <- lift (getitem spec "paths") ;;
  present <- lift (py_in openapi_path paths) ;;
  if negb present
  then lift (setitem_at spec ["paths"] openapi_path (VDict []))
  else ret spec.

(** [spec["components"]["schemas"][entity_name] = {...}], then
    [if required_props: spec["components"]["schemas"][entity_name]["required"] = required_props]. *)
Definition store_schema (spec : value) (entity_name : string) (description : value)
    (properties : list (value * value)) (required_props : list string) : M value :=
  spec <- lift (setitem_at spec ["components"; "schemas"] entity_name
                  (obj [ ("type", VStr "object");
                         ("description", description);
                         ("properties", VDict properties) ])) ;;
  match required_props with
  | [] => ret spec
  | _ :: _ =>
      lift (setitem_at spec ["components"; "schemas"; entity_name] "required"
              (VList (map VStr required_props)))
  end.

End Common.

(** The [PropertyInfo] of [generate_sample_openapi.py] and [generate_openapi.py]. *)
Module PropertyInfo.
Record t : Type := mk {
  name : string;
  type : string;
  description : string;
  required : bool;          (* = True *)
  nullable : bool;          (* = False *)
  format : option string    (* = None *)
}.
End PropertyInfo.

(** ** The sample generator: [generate_sample_openapi.py] *)

Module Sample.
Import Py Common.

Definition SAMPLE_ENTITIES : list string :=
  [ "Account";
    "Status";
    "CustomEmoji";
    "Field";
    "MediaAttachment";
    "Notification";
    "Poll";
    "Relationship";
    "Tag";
    "Application";
    "Context";
    "Conversation";
    "Error";
    "Instance";
    "List";
    "Marker";
    "Preferences";
    "PreviewCard";
    "Report";
    "Rule";
    "Token";
    "Translation" ].

Definition SAMPLE_ENDPOINTS : list (string * string * string * string * string) :=
  [ ("accounts", "GET", "/api/v1/accounts/:id", "Get account", "Retrieve information about an account");
    ("accounts", "POST", "/api/v1/accounts", "Create account", "Register a new account");
    ("accounts", "PATCH", "/api/v1/accounts/update_credentials", "Update account", "Update user credentials");
    ("statuses", "GET", "/api/v1/statuses/:id", "Get status", "Retrieve a status");
    ("statuses", "POST", "/api/v1/statuses", "Create status", "Publish a new status");
    ("statuses", "DELETE", "/api/v1/statuses/:id", "Delete status", "Delete a status");
    ("timelines", "GET", "/api/v1/timelines/home", "Home timeline", "Get home timeline");
    ("timelines", "GET", "/api/v1/timelines/public", "Public timeline", "Get public timeline");
    ("notifications", "GET", "/api/v1/notifications", "Get notifications", "Retrieve notifications");
    ("follow_requests", "GET", "/api/v1/follow_requests", "Get follow requests", "Retrieve follow requests");
    ("follow_requests", "POST", "/api/v1/follow_requests/:id/authorize", "Accept follow request", "Accept a follow request");
    ("follow_requests", "POST", "/api/v1/follow_requests/:id/reject", "Reject follow request", "Reject a follow request");
    ("media", "POST", "/api/v1/media", "Upload media", "Upload a media attachment");
    ("polls", "GET", "/api/v1/polls/:id", "Get poll", "Retrieve a poll");
    ("polls", "POST", "/api/v1/polls/:id/votes", "Vote in poll", "Vote in a poll");
    ("search", "GET", "/api/v2/search", "Search", "Search for content");
    ("instance", "GET", "/api/v1/instance", "Get instance", "Get instance information");
    ("apps", "POST", "/api/v1/apps", "Create app", "Create a new application");
    ("oauth", "POST", "/oauth/token", "Get token", "Obtain an access token");
    ("streaming", "GET", "/api/v1/streaming/user", "User stream", "Stream user events") ].

Definition account_properties : list PropertyInfo.t :=
  [ PropertyInfo.mk "id" "string" "The account id" true false None;
    PropertyInfo.mk "username" "string" "The username of the account, not including domain" true false None;
    PropertyInfo.mk "acct" "string" "The Webfinger account URI" true false None;
    PropertyInfo.mk "display_name" "string" "The profile's display name" true false None;
    PropertyInfo.mk "locked" "boolean" "Whether the account manually approves follow requests" true false None;
    PropertyInfo.mk "bot" "boolean" "Whether the account may perform automated actions" true false None;
    PropertyInfo.mk "discoverable" "boolean" "Whether the account has opted into discovery features" false true None;
    PropertyInfo.mk "group" "boolean" "Whether the account represents a Group actor" false false None;
    PropertyInfo.mk "created_at" "string" "When the account was created" true false (Some "date-time");
    PropertyInfo.mk "note" "string" "The profile's bio / description" true false None;
    PropertyInfo.mk "url" "string" "The location of the user's profile page" true false (Some "uri");
    PropertyInfo.mk "avatar" "string" "An image icon that is shown next to statuses and in the profile" true false (Some "uri");
    PropertyInfo.mk "avatar_static" "string" "A static version of the avatar" true false (Some "uri");
    PropertyInfo.mk "header" "string" "An image banner that is shown above the profile" true false (Some "uri");
    PropertyInfo.mk "header_static" "string" "A static version of the header" true false (Some "uri");
    PropertyInfo.mk "followers_count" "integer" "The reported followers of this profile" true false None;
    PropertyInfo.mk "following_count" "integer" "The reported follows of this profile" true false None;
    PropertyInfo.mk "statuses_count" "integer" "How many statuses are attached to this account" true false None;
    PropertyInfo.mk "last_status_at" "string" "When the most recent status was posted" true true (Some "date");
    PropertyInfo.mk "emojis" "array" "Custom emoji entities to be used when rendering the profile" true false None;
    PropertyInfo.mk "fields" "array" "Additional metadata attached to a profile as name-value pairs" true false None ].

Definition status_properties : list PropertyInfo.t :=
  [ PropertyInfo.mk "id" "string" "ID of the status in the database" true false None;
    PropertyInfo.mk "uri" "string" "URI of the status used for federation" true false (Some "uri");
    PropertyInfo.mk "created_at" "string" "The date when this status was created" true false (Some "date-time");
    PropertyInfo.mk "account" "object" "The account that authored this status" true false None;
    PropertyInfo.mk "content" "string" "HTML-encoded status content" true false None;
    PropertyInfo.mk "visibility" "string" "Visibility of this status" true false None;
    PropertyInfo.mk "sensitive" "boolean" "Is this status marked as sensitive content?" true false None;
    PropertyInfo.mk "spoiler_text" "string" "Subject or summary line, below which status content is collapsed" true false None;
    PropertyInfo.mk "media_attachments" "array" "Media that is attached to this status" true false None;
    PropertyInfo.mk "application" "object" "The application used to post this status" true true None;
    PropertyInfo.mk "mentions" "array" "Mentions of users within the status content" true false None;
    PropertyInfo.mk "tags" "array" "Hashtags used within the status content" true false None;
    PropertyInfo.mk "emojis" "array" "Custom emoji to be used when rendering status content" true false None;
    PropertyInfo.mk "reblogs_count" "integer" "How many boosts this status has received" true false None;
    PropertyInfo.mk "favourites_count" "integer" "How many favourites this status has received" true false None;
    PropertyInfo.mk "replies_count" "integer" "How many replies this status has received" true false None;
    PropertyInfo.mk "url" "string" "A link to the status's HTML representation" true true (Some "uri");
    PropertyInfo.mk "in_reply_to_id" "string" "ID of the status being replied to" true true None;
    PropertyInfo.mk "in_reply_to_account_id" "string" "ID of the account being replied to" true true None;
    PropertyInfo.mk "reblog" "object" "The status being reblogged" true true None;
    PropertyInfo.mk "poll" "object" "The poll attached to the status" true true None;
    PropertyInfo.mk "card" "object" "Preview card for links included within status content" true true None;
    PropertyInfo.mk "language" "string" "Primary language of this status" true true None;
    PropertyInfo.mk "text" "string" "Plain-text source of a status" true true None;
    PropertyInfo.mk "edited_at" "string" "Timestamp of when the status was last edited" true true (Some "date-time") ].

Definition media_properties : list PropertyInfo.t :=
  [ PropertyInfo.mk "id" "string" "The ID of the attachment in the database" true false None;
    PropertyInfo.mk "type" "string" "The type of the attachment" true false None;
    PropertyInfo.mk "url" "string" "The location of the original full-size attachment" true false (Some "uri");
    PropertyInfo.mk "preview_url" "string" "The location of a scaled-down preview of the attachment" true false (Some "uri");
    PropertyInfo.mk "remote_url" "string" "The location of the full-size original attachment on the remote website" true true (Some "uri");
    PropertyInfo.mk "description" "string" "Alternate text that describes what is in the media attachment" true true None;
    PropertyInfo.mk "blurhash" "string" "A hash computed by the BlurHash algorithm" true true None;
    PropertyInfo.mk "meta" "object" "Metadata returned by Paperclip" false false None ].

Definition error_properties : list PropertyInfo.t :=
  [ PropertyInfo.mk "error" "string" "The error message" true false None;
    PropertyInfo.mk "error_description" "string" "A longer description of the error" false false None ].

Definition basic_entity_names : list string :=
  [ "CustomEmoji";
    "Field";
    "Notification";
    "Poll";
    "Tag";
    "Application";
    "Token" ].

Module MastodonDocsGenerator.
Record t : Type := mk {
  entities : dict (EntityInfo.t PropertyInfo.t);
  endpoints : list EndpointInfo.t
}.
End MastodonDocsGenerator.
Import MastodonDocsGenerator.

Definition __init__ : MastodonDocsGenerator.t := mk [] [].

(** [self.entities[k] = e]. *)
Definition set_entity (k : string) (e : EntityInfo.t PropertyInfo.t)
    (self : MastodonDocsGenerator.t) : MastodonDocsGenerator.t :=
  mk (dict_set k e (entities self)) (endpoints self).

(** [self.endpoints.append(e)]. *)
Definition append_endpoint (e : EndpointInfo.t)
    (self : MastodonDocsGenerator.t) : MastodonDocsGenerator.t :=
  mk (entities self) (endpoints self ++ [e]).

Definition create_sample_entities (self : MastodonDocsGenerator.t) : MastodonDocsGenerator.t :=
  let account :=
    EntityInfo.mk "Account"
      "Represents a user of Mastodon and their associated profile."
      account_properties in
  let self := set_entity "Account" account self in
  let status :=
    EntityInfo.mk "Status" "Represents a status posted by an account."
      status_properties in
  let self := set_entity "Status" status self in
  let media :=
    EntityInfo.mk "MediaAttachment"
      "Represents a file or media attachment that can be added to a status."
      media_properties in
  let self := set_entity "MediaAttachment" media self in
  let error := EntityInfo.mk "Error" "Represents an error." error_properties in
  let self := set_entity "Error" error self in
  fold_left
    (fun self entity_name =>
       let basic_entity :=
         EntityInfo.mk entity_name
           ("Represents a " ++ lower entity_name ++ ".")
           [ PropertyInfo.mk "id" "string" ("The " ++ lower entity_name ++ " id")
               true false None ] in
       set_entity entity_name basic_entity self)
    basic_entity_names self.

(** The body of the loop of [create_sample_endpoints]. *)
Definition create_endpoint (row : string * string * string * string * string)
  : EndpointInfo.t :=
  let '(tag, method, path, summary, description) := row in
  let parameters : list ParameterInfo.t := [] in
  let responses : list ResponseInfo.t := [] in
  (* Add path parameters *)
  let parameters :=
    if contains path ":id"
    then parameters ++
           [ParameterInfo.mk "id" "string" "The ID of the resource" true "path"]
    else parameters in
  (* Add common query parameters for GET requests *)
  let parameters :=
    if String.eqb method "GET"
    then
      if contains path "timeline" || contains path "notifications"
      then parameters ++
             [ ParameterInfo.mk "max_id" "string" "Return results older than this ID" false "query";
               ParameterInfo.mk "since_id" "string" "Return results newer than this ID" false "query";
               ParameterInfo.mk "min_id" "string" "Return results immediately newer than this ID" false "query";
               ParameterInfo.mk "limit" "integer" "Maximum number of results to return" false "query" ]
      else parameters
    else parameters in
  (* Add responses based on endpoint type *)
  let responses :=
    if in_list method ["GET"]
    then
      if contains path "accounts" && contains path ":id"
      then responses ++ [ResponseInfo.mk "200" "Success" (Some "Account")]
      else if contains path "statuses" && contains path ":id"
      then responses ++ [ResponseInfo.mk "200" "Success" (Some "Status")]
      else if contains path "timeline" || contains path "notifications"
      then responses ++ [ResponseInfo.mk "200" "Success" None]
      else responses ++ [ResponseInfo.mk "200" "Success" None]
    else if in_list method ["POST"; "PATCH"]
    then
      if contains path "accounts"
      then responses ++ [ResponseInfo.mk "200" "Success" (Some "Account")]
      else if contains path "statuses"
      then responses ++ [ResponseInfo.mk "200" "Success" (Some "Status")]
      else responses ++ [ResponseInfo.mk "200" "Success" None]
    else if String.eqb method "DELETE"
    then responses ++ [ResponseInfo.mk "200" "Success" None]
    else responses in
  (* Add error responses *)
  let responses :=
    responses ++
      [ ResponseInfo.mk "401" "Unauthorized" (Some "Error");
        ResponseInfo.mk "404" "Not found" (Some "Error");
        ResponseInfo.mk "422" "Unprocessable entity" (Some "Error") ] in
  EndpointInfo.mk path (lower method) summary description parameters responses [tag].

Definition create_sample_endpoints (self : MastodonDocsGenerator.t) : MastodonDocsGenerator.t :=
  fold_left (fun self row => append_endpoint (create_endpoint row) self)
    SAMPLE_ENDPOINTS self.

(** The dictionary display that [generate_openapi_spec] starts from. *)
Definition initial_spec : value :=
  obj [ ("openapi", VStr "3.0.3");
        ("info",
         obj [ ("title", VStr "Mastodon API");
               ("description", VStr "API for Mastodon, a decentralized social network");
               ("version", VStr "4.3.0");
               ("contact", contact);
               ("license", license) ]);
        ("servers", servers);
        ("paths", obj []);
        ("components",
         obj [ ("schemas", obj []);
               ("securitySchemes",
                obj [ ("OAuth2",
                       obj [ ("type", VStr "oauth2");
                             ("flows",
                              obj [("authorizationCode",
                                    obj [ ("authorizationUrl", VStr "https://{instance}/oauth/authorize");
                                          ("tokenUrl", VStr "https://{instance}/oauth/token");
                                          ("scopes",
                                           obj [ ("read", VStr "Read access");
                                                 ("write", VStr "Write access");
                                                 ("follow", VStr "Follow users");
                                                 ("push", VStr "Push notifications") ]) ])]) ]);
                      ("BearerAuth",
                       obj [("type", VStr "http"); ("scheme", VStr "bearer")]) ]) ]) ].

Definition ref (name : string) : value :=
  obj [("$ref", VStr ("#/components/schemas/" ++ name))].

(** The schema of one property: the body of the inner loop up to
    [properties[prop.name] = prop_schema]. *)
Definition prop_schema (prop : PropertyInfo.t) : value :=
  let name := PropertyInfo.name prop in
  let prop_schema :=
    lit [ ("type", VStr (PropertyInfo.type prop));
          ("description", VStr (PropertyInfo.description prop)) ] in
  let prop_schema :=
    match PropertyInfo.format prop with
    | Some f => if truthy (PropertyInfo.format prop) then assign "format" (VStr f) prop_schema else prop_schema
    | None => prop_schema
    end in
  let prop_schema :=
    if PropertyInfo.nullable prop
    then assign "nullable" (VBool true) prop_schema
    else prop_schema in
  let prop_schema :=
    if String.eqb (PropertyInfo.type prop) "array"
    then
      if String.eqb name "emojis" then assign "items" (ref "CustomEmoji") prop_schema
      else if String.eqb name "fields" then assign "items" (ref "Field") prop_schema
      else if String.eqb name "media_attachments" then assign "items" (ref "MediaAttachment") prop_schema
      else if String.eqb name "tags" then assign "items" (ref "Tag") prop_schema
      else assign "items" (obj [("type", VStr "string")]) prop_schema
    else prop_schema in
  let prop_schema :=
    if String.eqb (PropertyInfo.type prop) "object"
    then
      if String.eqb name "account" then lit [("$ref", VStr "#/components/schemas/Account")]
      else if String.eqb name "application" then lit [("$ref", VStr "#/components/schemas/Application")]
      else if String.eqb name "poll" then lit [("$ref", VStr "#/components/schemas/Poll")]
      else if String.eqb name "reblog" then lit [("$ref", VStr "#/components/schemas/Status")]
      else lit [("type", VStr "object")]
    else prop_schema in
  VDict prop_schema.

(** The body of [for prop in entity.properties]; the state is
    [(properties, required_props)]. *)
Definition add_property (acc : list (value * value) * list string) (prop : PropertyInfo.t)
  : list (value * value) * list string :=
  let '(properties, required_props) := acc in
  let properties := assign (PropertyInfo.name prop) (prop_schema prop) properties in
  let required_props :=
    if PropertyInfo.required prop
    then required_props ++ [PropertyInfo.name prop]
    else required_props in
  (properties, required_props).

(** The body of [for entity_name, entity in self.entities.items()]. *)
Definition add_schema (spec : value) (item : string * EntityInfo.t PropertyInfo.t) : M value :=
  let '(entity_name, entity) := item in
  let '(properties, required_props) :=
    fold_left add_property (EntityInfo.properties entity) ([], []) in
  store_schema spec entity_name (VStr (EntityInfo.description entity)) properties required_props.

(** The test that guards [operation["security"] = ...]:
    [not endpoint.path.startswith("/oauth") and endpoint.method != "get"
     or "timeline" in endpoint.path]. *)
Definition needs_security (endpoint : EndpointInfo.t) : bool :=
  (negb (startswith (EndpointInfo.path endpoint) "/oauth")
   && negb (String.eqb (EndpointInfo.method endpoint) "get"))
  || contains (EndpointInfo.path endpoint) "timeline".

(** The [operation] dictionary of one endpoint. *)
Definition operation_of (endpoint : EndpointInfo.t) : value :=
  let parameters := map param_schema (EndpointInfo.parameters endpoint) in
  let responses := responses_of (EndpointInfo.responses endpoint) in
  let operation :=
    lit [ ("summary", VStr (EndpointInfo.summary endpoint));
          ("description", VStr (EndpointInfo.description endpoint));
          ("tags", VList (map VStr (EndpointInfo.tags endpoint)));
          ("responses", VDict responses) ] in
  let operation :=
    match parameters with
    | [] => operation
    | _ :: _ => assign "parameters" (VList parameters) operation
    end in
  let operation :=
    if needs_security endpoint
    then assign "security" (VList [obj [("BearerAuth", VList [])]]) operation
    else operation in
  VDict operation.

(** The body of [for endpoint in self.endpoints]. *)
Definition add_path (spec : value) (endpoint : EndpointInfo.t) : M value :=
  let openapi_path := replace (EndpointInfo.path endpoint) ":id" "{id}" in
  spec <- ensure_path spec openapi_path ;;
  lift (setitem_at spec ["paths"; openapi_path] (EndpointInfo.method endpoint)
          (operation_of endpoint)).

Definition generate_openapi_spec (self : MastodonDocsGenerator.t) : M value :=
  let spec := initial_spec in
  spec <- foldM add_schema (entities self) spec ;;
  spec <- foldM add_path (endpoints self) spec ;;
  ret spec.

(** [main] up to the specification object that it then writes out. *)
Definition main (stdout : console) (p : process) : M value :=
  let generator := __init__ in
  print stdout [FLit "Creating sample Mastodon API documentation..."] ;;;
  let generator := create_sample_entities generator in
  let generator := create_sample_endpoints generator in
  print stdout [FLit "Generating OpenAPI specification..."] ;;;
  generate_openapi_spec generator.

End Sample.

(** ** The comprehensive generator: [generate_comprehensive_openapi.py] *)

Module Comprehensive.
Import Py Common.

(** An element of a tuple of [entities_data] after the first three, and the
    value of [PropertyInfo.items_ref]: a string or a boolean. *)
Inductive cell : Type :=
| CStr (s : string)
| CBool (b : bool).

(** The truth value of an [items_ref]. *)
Definition truthy_cell (o : option cell) : bool :=
  match o with
  | Some (CStr s) => negb (String.eqb s "")
  | Some (CBool b) => b
  | None => false
  end.

(** [str(c)]. *)
Definition str_cell (c : cell) : string :=
  match c with
  | CStr s => s
  | CBool true => "True"
  | CBool false => "False"
  end.

Module PropertyInfo.
Record t : Type := mk {
  name : string;
  type : string;
  description : string;
  required : bool;            (* = True *)
  nullable : bool;            (* = False *)
  format : option string;     (* = None *)
  items_ref : option cell     (* = None *)
}.
End PropertyInfo.

(** A tuple [(name, type, description, ...)] of [entities_data]: its first
    three elements and the list of the others, [prop_data[3:]]. *)
Definition prop_data : Type := (string * string * string * list cell)%type.

Definition account_properties : list PropertyInfo.t :=
  [ PropertyInfo.mk "id" "string" "The account id" true false None None;
    PropertyInfo.mk "username" "string" "The username of the account, not including domain" true false None None;
    PropertyInfo.mk "acct" "string" "The Webfinger account URI. Equal to username for local users, or username@domain for remote users" true false None None;
    PropertyInfo.mk "display_name" "string" "The profile's display name" true false None None;
    PropertyInfo.mk "locked" "boolean" "Whether the account manually approves follow requests" true false None None;
    PropertyInfo.mk "bot" "boolean" "Whether the account may perform automated actions" true false None None;
    PropertyInfo.mk "discoverable" "boolean" "Whether the account has opted into discovery features" false true None None;
    PropertyInfo.mk "group" "boolean" "Whether the account represents a Group actor" false false None None;
    PropertyInfo.mk "created_at" "string" "When the account was created" true false (Some "date-time") None;
    PropertyInfo.mk "note" "string" "The profile's bio / description" true false None None;
    PropertyInfo.mk "url" "string" "The location of the user's profile page" true false (Some "uri") None;
    PropertyInfo.mk "uri" "string" "The user's ActivityPub actor identifier" false false (Some "uri") None;
    PropertyInfo.mk "avatar" "string" "An image icon that is shown next to statuses and in the profile" true false (Some "uri") None;
    PropertyInfo.mk "avatar_static" "string" "A static version of the avatar" true false (Some "uri") None;
    PropertyInfo.mk "header" "string" "An image banner that is shown above the profile" true false (Some "uri") None;
    PropertyInfo.mk "header_static" "string" "A static version of the header" true false (Some "uri") None;
    PropertyInfo.mk "followers_count" "integer" "The reported followers of this profile" true false None None;
    PropertyInfo.mk "following_count" "integer" "The reported follows of this profile" true false None None;
    PropertyInfo.mk "statuses_count" "integer" "How many statuses are attached to this account" true false None None;
    PropertyInfo.mk "last_status_at" "string" "When the most recent status was posted" true true (Some "date") None;
    PropertyInfo.mk "noindex" "boolean" "Whether the local user has opted out of being indexed by search engines" false true None None;
    PropertyInfo.mk "emojis" "array" "Custom emoji entities to be used when rendering the profile" true false None (Some (CStr "CustomEmoji"));
    PropertyInfo.mk "fields" "array" "Additional metadata attached to a profile as name-value pairs" true false None (Some (CStr "Field"));
    PropertyInfo.mk "moved" "object" "Indicates that the profile is currently inactive and that its user has moved to a new account" false true None None;
    PropertyInfo.mk "suspended" "boolean" "An extra attribute returned only when an account is suspended" false false None None;
    PropertyInfo.mk "limited" "boolean" "An extra attribute returned only when an account is silenced" false false None None;
    PropertyInfo.mk "hide_collections" "boolean" "Whether the user hides the contents of their follows and followers collections" false false None None ].

Definition cred_account_extra_properties : list PropertyInfo.t :=
  [ PropertyInfo.mk "source" "object" "An extra attribute that contains source values to be used with API methods" false false None None;
    PropertyInfo.mk "role" "object" "The role assigned to the currently authorized user" false false None None ].

Definition status_properties : list PropertyInfo.t :=
  [ PropertyInfo.mk "id" "string" "ID of the status in the database" true false None None;
    PropertyInfo.mk "uri" "string" "URI of the status used for federation" true false (Some "uri") None;
    PropertyInfo.mk "created_at" "string" "The date when this status was created" true false (Some "date-time") None;
    PropertyInfo.mk "account" "object" "The account that authored this status" true false None None;
    PropertyInfo.mk "content" "string" "HTML-encoded status content" true false None None;
    PropertyInfo.mk "visibility" "string" "Visibility of this status" true false None None;
    PropertyInfo.mk "sensitive" "boolean" "Is this status marked as sensitive content?" true false None None;
    PropertyInfo.mk "spoiler_text" "string" "Subject or summary line, below which status content is collapsed" true false None None;
    PropertyInfo.mk "media_attachments" "array" "Media that is attached to this status" true false None (Some (CStr "MediaAttachment"));
    PropertyInfo.mk "application" "object" "The application used to post this status" true true None None;
    PropertyInfo.mk "mentions" "array" "Mentions of users within the status content" true false None (Some (CStr "Mention"));
    PropertyInfo.mk "tags" "array" "Hashtags used within the status content" true false None (Some (CStr "Tag"));
    PropertyInfo.mk "emojis" "array" "Custom emoji to be used when rendering status content" true false None (Some (CStr "CustomEmoji"));
    PropertyInfo.mk "reblogs_count" "integer" "How many boosts this status has received" true false None None;
    PropertyInfo.mk "favourites_count" "integer" "How many favourites this status has received" true false None None;
    PropertyInfo.mk "replies_count" "integer" "How many replies this status has received" true false None None;
    PropertyInfo.mk "url" "string" "A link to the status's HTML representation" true true (Some "uri") None;
    PropertyInfo.mk "in_reply_to_id" "string" "ID of the status being replied to" true true None None;
    PropertyInfo.mk "in_reply_to_account_id" "string" "ID of the account being replied to" true true None None;
    PropertyInfo.mk "reblog" "object" "The status being reblogged" true true None None;
    PropertyInfo.mk "poll" "object" "The poll attached to the status" true true None None;
    PropertyInfo.mk "card" "object" "Preview card for links included within status content" true true None None;
    PropertyInfo.mk "language" "string" "Primary language of this status" true true None None;
    PropertyInfo.mk "text" "string" "Plain-text source of a status" true true None None;
    PropertyInfo.mk "edited_at" "string" "Timestamp of when the status was last edited" true true (Some "date-time") None;
    PropertyInfo.mk "favourited" "boolean" "Have you favourited this status?" false false None None;
    PropertyInfo.mk "reblogged" "boolean" "Have you boosted this status?" false false None None;
    PropertyInfo.mk "muted" "boolean" "Have you muted notifications for this status's conversation?" false false None None;
    PropertyInfo.mk "bookmarked" "boolean" "Have you bookmarked this status?" false false None None;
    PropertyInfo.mk "pinned" "boolean" "Have you pinned this status?" false false None None ].

Definition media_properties : list PropertyInfo.t :=
  [ PropertyInfo.mk "id" "string" "The ID of the attachment in the database" true false None None;
    PropertyInfo.mk "type" "string" "The type of the attachment" true false None None;
    PropertyInfo.mk "url" "string" "The location of the original full-size attachment" true false (Some "uri") None;
    PropertyInfo.mk "preview_url" "string" "The location of a scaled-down preview of the attachment" true false (Some "uri") None;
    PropertyInfo.mk "remote_url" "string" "The location of the full-size original attachment on the remote website" true true (Some "uri") None;
    PropertyInfo.mk "meta" "object" "Metadata returned by Paperclip" true false None None;
    PropertyInfo.mk "description" "string" "Alternate text that describes what is in the media attachment" true true None None;
    PropertyInfo.mk "blurhash" "string" "A hash computed by the BlurHash algorithm" true true None None ].

Definition notification_properties : list PropertyInfo.t :=
  [ PropertyInfo.mk "id" "string" "The id of the notification in the database" true false None None;
    PropertyInfo.mk "type" "string" "The type of event that resulted in the notification" true false None None;
    PropertyInfo.mk "created_at" "string" "The timestamp of the notification" true false (Some "date-time") None;
    PropertyInfo.mk "account" "object" "The account that performed the action that generated the notification" true false None None;
    PropertyInfo.mk "status" "object" "Status that was the object of the notification" true true None None;
    PropertyInfo.mk "report" "object" "Report that was the object of the notification" false true None None;
    PropertyInfo.mk "relationship_severance_event" "object" "Summary of the event that caused follow relationships to be severed" false true None None ].

Definition entities_data : list (string * string * list prop_data) :=
  [ ("CustomEmoji", "Represents a custom emoji.",
      [ ("shortcode", "string", "The name of the custom emoji", []);
        ("url", "string", "A link to the custom emoji", [CStr "uri"]);
        ("static_url", "string", "A link to a static copy of the custom emoji", [CStr "uri"]);
        ("visible_in_picker", "boolean", "Whether this Emoji should be visible in the picker or unlisted", []);
        ("category", "string", "Used for sorting custom emoji in the picker", [CBool true]) ]);
    ("Field", "Represents a profile field as a name-value pair with optional verification.",
      [ ("name", "string", "The key of a given field's key-value pair", []);
        ("value", "string", "The value associated with the name key", []);
        ("verified_at", "string", ("Timestamp of when the server verified a URL value for a rel=" ++ dquote ++ "me" ++ dquote ++ " link")%string, [CStr "date-time"; CBool true]) ]);
    ("Mention", "Represents a mention of a user within the status content.",
      [ ("id", "string", "The account id of the mentioned user", []);
        ("username", "string", "The username of the mentioned user", []);
        ("url", "string", "The location of the mentioned user's profile", [CStr "uri"]);
        ("acct", "string", "The webfinger acct: URI of the mentioned user", []) ]);
    ("Tag", "Represents a hashtag used within the status content.",
      [ ("name", "string", "The value of the hashtag after the # sign", []);
        ("url", "string", "A link to the hashtag on the instance", [CStr "uri"]);
        ("history", "array", "Usage statistics for given days", [CBool false; CStr "TagHistory"]);
        ("following", "boolean", "Whether the current token's authorized user is following this tag", [CBool false]) ]);
    ("Poll", "Represents a poll attached to a status.",
      [ ("id", "string", "The ID of the poll in the database", []);
        ("expires_at", "string", "When the poll ends", [CStr "date-time"; CBool true]);
        ("expired", "boolean", "Is the poll currently expired?", []);
        ("multiple", "boolean", "Does the poll allow multiple-choice answers?", []);
        ("votes_count", "integer", "How many votes have been received", []);
        ("voters_count", "integer", "How many unique accounts have voted on a multiple-choice poll", [CBool true]);
        ("options", "array", "Possible answers for the poll", [CBool false; CStr "PollOption"]);
        ("emojis", "array", "Custom emoji to be used for rendering poll options", [CBool false; CStr "CustomEmoji"]);
        ("voted", "boolean", "When called with a user token, has the authorized user voted?", [CBool false]);
        ("own_votes", "array", "When called with a user token, which options has the authorized user chosen?", [CBool false]) ]);
    ("PollOption", "Represents a poll choice.",
      [ ("title", "string", "The text value of the poll option", []);
        ("votes_count", "integer", "The number of received votes for this option", [CBool true]) ]);
    ("Application", "Represents an application that interfaces with the REST API to access accounts or post statuses.",
      [ ("name", "string", "The name of your application", []);
        ("website", "string", "The website associated with your application", [CStr "uri"; CBool true]);
        ("vapid_key", "string", "Used for Push Streaming API", [CBool false]) ]);
    ("Token", "Represents an OAuth token used for authenticating with the API and performing actions.",
      [ ("access_token", "string", "An OAuth token to be used for authorization", []);
        ("token_type", "string", "The OAuth token type", []);
        ("scope", "string", "The OAuth scopes granted by this token", []);
        ("created_at", "integer", "When the token was generated", []) ]);
    ("Instance", "Represents the software instance of Mastodon running on this domain.",
      [ ("uri", "string", "The domain name of the instance", []);
        ("title", "string", "The title of the website", []);
        ("short_description", "string", "A shorter description defined by the admin", []);
        ("description", "string", "A description for the instance", []);
        ("email", "string", "An email that may be contacted for any inquiries", []);
        ("version", "string", "The version of Mastodon installed on the instance", []);
        ("urls", "object", "URLs of interest for clients apps", []);
        ("stats", "object", "Statistics about how much information the instance contains", []);
        ("thumbnail", "string", "Banner image for the instance", [CStr "uri"; CBool true]);
        ("languages", "array", "Primary languages of the website and its staff", []);
        ("registrations", "boolean", "Whether registrations are enabled", []);
        ("approval_required", "boolean", "Whether registrations require moderator approval", []);
        ("invites_enabled", "boolean", "Whether invites are enabled", []);
        ("configuration", "object", "Configured values and limits for this website", []);
        ("contact_account", "object", "A user that can be contacted regarding the instance", [CBool true]);
        ("rules", "array", "An itemized list of rules for this website", [CBool false; CStr "Rule"]) ]);
    ("Error", "Represents an error.",
      [ ("error", "string", "The error message", []);
        ("error_description", "string", "A longer description of the error", [CBool false]) ]);
    ("Context", "Represents the tree around a given status.",
      [ ("ancestors", "array", "Parents in the thread", [CBool false; CStr "Status"]);
        ("descendants", "array", "Children in the thread", [CBool false; CStr "Status"]) ]);
    ("Conversation", ("Represents a conversation with " ++ dquote ++ "direct message" ++ dquote ++ " visibility.")%string,
      [ ("id", "string", "Local database ID of the conversation", []);
        ("unread", "boolean", "Is the conversation currently marked as unread?", []);
        ("accounts", "array", "Participants in the conversation", [CBool false; CStr "Account"]);
        ("last_status", "object", "The last status in the conversation", [CBool true]) ]) ].

Definition endpoint_groups : list (string * list (string * string * string * string)) :=
  [ ("accounts",
      [ ("GET", "/api/v1/accounts/{id}", "View account", "View information about a profile");
        ("GET", "/api/v1/accounts/verify_credentials", "Verify credentials", "Test to make sure that the user token works");
        ("PATCH", "/api/v1/accounts/update_credentials", "Update credentials", "Update the user's display and preferences");
        ("GET", "/api/v1/accounts/{id}/statuses", "Get account statuses", "Statuses posted to the given account");
        ("GET", "/api/v1/accounts/{id}/followers", "Get account followers", "Accounts which follow the given account");
        ("GET", "/api/v1/accounts/{id}/following", "Get account following", "Accounts which the given account is following");
        ("POST", "/api/v1/accounts/{id}/follow", "Follow account", "Follow the given account");
        ("POST", "/api/v1/accounts/{id}/unfollow", "Unfollow account", "Unfollow the given account");
        ("POST", "/api/v1/accounts/{id}/block", "Block account", "Block the given account");
        ("POST", "/api/v1/accounts/{id}/unblock", "Unblock account", "Unblock the given account");
        ("POST", "/api/v1/accounts/{id}/mute", "Mute account", "Mute the given account");
        ("POST", "/api/v1/accounts/{id}/unmute", "Unmute account", "Unmute the given account");
        ("GET", "/api/v1/accounts/relationships", "Check relationships", "Find out whether a given account is followed, blocked, muted, etc.");
        ("GET", "/api/v1/accounts/search", "Search accounts", "Search for matching accounts by username or display name") ]);
    ("statuses",
      [ ("GET", "/api/v1/statuses/{id}", "View status", "View information about a status");
        ("POST", "/api/v1/statuses", "Publish status", "Post a new status");
        ("DELETE", "/api/v1/statuses/{id}", "Delete status", "Delete one of your own statuses");
        ("GET", "/api/v1/statuses/{id}/context", "Get status context", "View statuses above and below this status in the thread");
        ("POST", "/api/v1/statuses/{id}/reblog", "Boost status", "Reshare a status");
        ("POST", "/api/v1/statuses/{id}/unreblog", "Undo boost", "Undo a reshare of a status");
        ("POST", "/api/v1/statuses/{id}/favourite", "Favourite status", "Add a status to your favourites list");
        ("POST", "/api/v1/statuses/{id}/unfavourite", "Undo favourite", "Remove a status from your favourites list");
        ("POST", "/api/v1/statuses/{id}/bookmark", "Bookmark status", "Privately bookmark a status");
        ("POST", "/api/v1/statuses/{id}/unbookmark", "Undo bookmark", "Remove a status from your private bookmarks");
        ("POST", "/api/v1/statuses/{id}/mute", "Mute conversation", "Do not receive notifications for the thread");
        ("POST", "/api/v1/statuses/{id}/unmute", "Unmute conversation", "Start receiving notifications for the thread again");
        ("POST", "/api/v1/statuses/{id}/pin", "Pin status", "Pin status to the top of your profile");
        ("POST", "/api/v1/statuses/{id}/unpin", "Unpin status", "Unpin a status from the top of your profile");
        ("PUT", "/api/v1/statuses/{id}", "Edit status", "Change the content of a status that has already been published");
        ("GET", "/api/v1/statuses/{id}/history", "Get status edit history", "Get all known versions of a status in reverse chronological order");
        ("GET", "/api/v1/statuses/{id}/source", "Get status source", "Obtain the source properties for a status") ]);
    ("timelines",
      [ ("GET", "/api/v1/timelines/home", "Home timeline", "View statuses from followed users");
        ("GET", "/api/v1/timelines/public", "Public timeline", "Public timeline");
        ("GET", "/api/v1/timelines/tag/{hashtag}", "Hashtag timeline", "View public statuses containing the given hashtag");
        ("GET", "/api/v1/timelines/list/{list_id}", "List timeline", "View statuses in the given list timeline") ]);
    ("notifications",
      [ ("GET", "/api/v1/notifications", "Get notifications", "Receive notifications for the current user");
        ("GET", "/api/v1/notifications/{id}", "Get single notification", "View information about a notification with a given ID");
        ("POST", "/api/v1/notifications/clear", "Dismiss all notifications", "Clear all notifications from the server");
        ("POST", "/api/v1/notifications/{id}/dismiss", "Dismiss single notification", "Clear a single notification from the server") ]);
    ("search",
      [ ("GET", "/api/v2/search", "Search", "Search for content in accounts, statuses and hashtags") ]);
    ("instance",
      [ ("GET", "/api/v1/instance", "View server information", "Information about the server");
        ("GET", "/api/v1/instance/peers", "List of connected domains", "Domains that this instance is aware of");
        ("GET", "/api/v1/instance/activity", "Weekly activity", "Instance activity over the last 3 months");
        ("GET", "/api/v1/instance/rules", "View server rules", "Rules that the users of this service should follow");
        ("GET", "/api/v1/instance/domain_blocks", "View domain blocks", "Obtain a list of domains that have been blocked");
        ("GET", "/api/v1/instance/extended_description", "View extended description", "Obtain an extended description of this server") ]);
    ("apps",
      [ ("POST", "/api/v1/apps", "Create an application", "Create a new application to obtain OAuth2 credentials");
        ("GET", "/api/v1/apps/verify_credentials", "Verify your app works", "Confirm that the app's OAuth2 credentials work") ]);
    ("oauth",
      [ ("POST", "/oauth/token", "Obtain a token", "Obtain an access token");
        ("POST", "/oauth/revoke", "Revoke a token", "Revoke an access token") ]);
    ("media",
      [ ("POST", "/api/v1/media", "Upload media attachment", "Creates an attachment to be used with a new status");
        ("GET", "/api/v1/media/{id}", "Get media attachment", "Get a media attachment");
        ("PUT", "/api/v1/media/{id}", "Update media attachment", "Update a MediaAttachment's parameters") ]);
    ("polls",
      [ ("GET", "/api/v1/polls/{id}", "View a poll", "View a poll");
        ("POST", "/api/v1/polls/{id}/votes", "Vote on a poll", "Submit a vote to a poll") ]);
    ("lists",
      [ ("GET", "/api/v1/lists", "View your lists", "Fetch all lists that the user owns");
        ("GET", "/api/v1/lists/{id}", "View a single list", "Fetch the list with the given ID");
        ("POST", "/api/v1/lists", "Create a list", "Create a new list");
        ("PUT", "/api/v1/lists/{id}", "Update a list", "Change the title of a list");
        ("DELETE", "/api/v1/lists/{id}", "Delete a list", "Delete a list");
        ("GET", "/api/v1/lists/{id}/accounts", "View accounts in list", "View accounts in the given list");
        ("POST", "/api/v1/lists/{id}/accounts", "Add accounts to list", "Add accounts to the given list");
        ("DELETE", "/api/v1/lists/{id}/accounts", "Remove accounts from list", "Remove accounts from the given list") ]);
    ("follow_requests",
      [ ("GET", "/api/v1/follow_requests", "View pending follow requests", "Pending follow requests");
        ("POST", "/api/v1/follow_requests/{account_id}/authorize", "Accept follow request", "Accept a follow request");
        ("POST", "/api/v1/follow_requests/{account_id}/reject", "Reject follow request", "Reject a follow request") ]);
    ("blocks",
      [ ("GET", "/api/v1/blocks", "View blocked users", "View your blocks") ]);
    ("mutes",
      [ ("GET", "/api/v1/mutes", "View muted users", "View your mutes") ]);
    ("favourites",
      [ ("GET", "/api/v1/favourites", "View favourited statuses", "Statuses the user has favourited") ]);
    ("bookmarks",
      [ ("GET", "/api/v1/bookmarks", "View bookmarked statuses", "Statuses the user has bookmarked") ]) ].

Definition success_responses : list (string * list (string * string)) :=
  [ ("accounts", [("verify_credentials", "CredentialAccount"); ("update_credentials", "CredentialAccount"); ("{id}", "Account"); ("search", "Account"); ("relationships", "Relationship")]);
    ("statuses", [("{id}", "Status"); ("", "Status"); ("context", "Context"); ("history", "StatusEdit"); ("source", "StatusSource")]);
    ("notifications", [("", "Notification"); ("{id}", "Notification")]);
    ("instance", [("", "Instance"); ("rules", "Rule"); ("activity", "Activity")]);
    ("media", [("", "MediaAttachment"); ("{id}", "MediaAttachment")]);
    ("polls", [("{id}", "Poll"); ("votes", "Poll")]);
    ("apps", [("", "Application"); ("verify_credentials", "Application")]);
    ("oauth", [("token", "Token")]);
    ("search", [("", "Search")]) ].

Definition pagination_parameters : list ParameterInfo.t :=
  [ ParameterInfo.mk "max_id" "string" "Return results older than this ID" false "query";
    ParameterInfo.mk "since_id" "string" "Return results newer than this ID" false "query";
    ParameterInfo.mk "min_id" "string" "Return results immediately newer than this ID" false "query";
    ParameterInfo.mk "limit" "integer" "Maximum number of results to return. Defaults to 20" false "query" ].

Definition update_credentials_parameters : list ParameterInfo.t :=
  [ ParameterInfo.mk "display_name" "string" "The display name to use for the profile" false "query";
    ParameterInfo.mk "note" "string" "The account bio" false "query";
    ParameterInfo.mk "avatar" "string" "Avatar image encoded using multipart/form-data" false "query";
    ParameterInfo.mk "header" "string" "Header image encoded using multipart/form-data" false "query";
    ParameterInfo.mk "locked" "boolean" "Whether manual approval of follow requests is required" false "query";
    ParameterInfo.mk "bot" "boolean" "Whether the account is a bot" false "query";
    ParameterInfo.mk "discoverable" "boolean" "Whether the account should be shown in the profile directory" false "query" ].

Definition post_status_parameters : list ParameterInfo.t :=
  [ ParameterInfo.mk "status" "string" "Text content of the status" false "query";
    ParameterInfo.mk "media_ids" "array" "Array of attachment ids to be attached as media" false "query";
    ParameterInfo.mk "poll" "object" "Poll to be attached" false "query";
    ParameterInfo.mk "in_reply_to_id" "string" "ID of the status being replied to" false "query";
    ParameterInfo.mk "sensitive" "boolean" "Mark status and attached media as sensitive?" false "query";
    ParameterInfo.mk "spoiler_text" "string" "Text to be shown as a warning or subject before the actual content" false "query";
    ParameterInfo.mk "visibility" "string" "Visibility of the posted status" false "query";
    ParameterInfo.mk "language" "string" "ISO 639 language code for this status" false "query";
    ParameterInfo.mk "scheduled_at" "string" "ISO 8601 Datetime at which to schedule a status" false "query" ].


Module ComprehensiveMastodonGenerator.
Record t : Type := mk {
  entities : dict (EntityInfo.t PropertyInfo.t);
  endpoints : list EndpointInfo.t
}.
End ComprehensiveMastodonGenerator.
Import ComprehensiveMastodonGenerator.

Definition __init__ : ComprehensiveMastodonGenerator.t := mk [] [].

(** [self.entities[k] = e]. *)
Definition set_entity (k : string) (e : EntityInfo.t PropertyInfo.t)
    (self : ComprehensiveMastodonGenerator.t) : ComprehensiveMastodonGenerator.t :=
  mk (dict_set k e (entities self)) (endpoints self).

(** [self.endpoints.append(e)]. *)
Definition append_endpoint (e : EndpointInfo.t)
    (self : ComprehensiveMastodonGenerator.t) : ComprehensiveMastodonGenerator.t :=
  mk (entities self) (endpoints self ++ [e]).

(** The body of [for prop_data in props]: with [rest = prop_data[3:]],
    [len(prop_data) > 3] holds when [rest] has a first element,
    [prop_data[3]], and [len(prop_data) > 4] when it has a second,
    [prop_data[4]]. *)
Definition property_of (prop_data : prop_data) : PropertyInfo.t :=
  let '(prop_name, prop_type, prop_desc, rest) := prop_data in
  let prop_format :=
    match rest with
    | CStr s :: _ => Some s
    | _ => None
    end in
  let prop_nullable :=
    match rest with
    | CBool b :: _ => b
    | _ => false
    end in
  let prop_items_ref :=
    match rest with
    | _ :: x :: _ => Some x
    | _ => None
    end in
  PropertyInfo.mk prop_name prop_type prop_desc
    (negb prop_nullable) prop_nullable prop_format prop_items_ref.

Definition create_comprehensive_entities (self : ComprehensiveMastodonGenerator.t)
  : ComprehensiveMastodonGenerator.t :=
  let account :=
    EntityInfo.mk "Account"
      "Represents a user of Mastodon and their associated profile."
      account_properties in
  let self := set_entity "Account" account self in
  let cred_account :=
    EntityInfo.mk "CredentialAccount"
      "Represents the current user's account with additional private information."
      (EntityInfo.properties account ++ cred_account_extra_properties) in
  let self := set_entity "CredentialAccount" cred_account self in
  let status :=
    EntityInfo.mk "Status" "Represents a status posted by an account."
      status_properties in
  let self := set_entity "Status" status self in
  let media :=
    EntityInfo.mk "MediaAttachment"
      "Represents a file or media attachment that can be added to a status."
      media_properties in
  let self := set_entity "MediaAttachment" media self in
  let notification :=
    EntityInfo.mk "Notification"
      "Represents a notification of an event relevant to the user."
      notification_properties in
  let self := set_entity "Notification" notification self in
  fold_left
    (fun self row =>
       let '(name, description, props) := row in
       let entity :=
         EntityInfo.mk name description
           (fold_left (fun properties prop_data => properties ++ [property_of prop_data])
              props []) in
       set_entity name entity self)
    entities_data self.

(** [path.split("/")[-1]]. *)
Definition last_segment (path : string) : string :=
  last (split path "/" None) "".

(** "Determine response schema". *)
Definition response_schema_of (tag path : string) : option string :=
  match dict_get tag success_responses with
  | Some by_key =>
      let path_key :=
        if negb (contains (last_segment path) "{") then last_segment path else "{id}" in
      match dict_get path_key by_key with
      | Some schema => Some schema
      | None =>
          match dict_get "" by_key with
          | Some schema => Some schema
          | None => None
          end
      end
  | None => None
  end.

Definition path_parameter (name description : string) : ParameterInfo.t :=
  ParameterInfo.mk name "string" description true "path".

(** The body of the inner loop of [create_comprehensive_endpoints]. *)
Definition create_endpoint (tag : string) (row : string * string * string * string)
  : EndpointInfo.t :=
  let '(method, path, summary, description) := row in
  let parameters : list ParameterInfo.t := [] in
  let responses : list ResponseInfo.t := [] in
  (* Add path parameters *)
  let parameters :=
    if contains path "{id}"
    then parameters ++ [path_parameter "id" "The ID of the resource"]
    else parameters in
  let parameters :=
    if contains path "{account_id}"
    then parameters ++ [path_parameter "account_id" "The ID of the Account in the database"]
    else parameters in
  let parameters :=
    if contains path "{hashtag}"
    then parameters ++ [path_parameter "hashtag" "The name of the hashtag"]
    else parameters in
  let parameters :=
    if contains path "{list_id}"
    then parameters ++ [path_parameter "list_id" "The ID of the List in the database"]
    else parameters in
  (* Add common query parameters for list endpoints *)
  let parameters :=
    if String.eqb method "GET"
       && existsb (contains path)
            [ "timeline"; "notifications"; "statuses"; "followers"; "following";
              "blocks"; "mutes"; "favourites"; "bookmarks" ]
    then parameters ++ pagination_parameters
    else parameters in
  (* Add specific parameters for certain endpoints *)
  let parameters :=
    if contains path "update_credentials"
    then parameters ++ update_credentials_parameters
    else parameters in
  let parameters :=
    if String.eqb path "/api/v1/statuses" && String.eqb method "POST"
    then parameters ++ post_status_parameters
    else parameters in
  (* Determine response schema *)
  let response_schema := response_schema_of tag path in
  let responses :=
    if String.eqb method "GET"
    then
      if existsb (contains path) ["timeline"; "followers"; "following"; "statuses"]
      then responses ++ [ResponseInfo.mk "200" "Success" None]
      else responses ++ [ResponseInfo.mk "200" "Success" response_schema]
    else if in_list method ["POST"; "PUT"; "PATCH"]
    then
      if contains path "clear" || contains path "dismiss"
         || contains path "authorize" || contains path "reject"
      then responses ++ [ResponseInfo.mk "200" "Success" None]
      else responses ++ [ResponseInfo.mk "200" "Success" response_schema]
    else if String.eqb method "DELETE"
    then responses ++ [ResponseInfo.mk "200" "Success" None]
    else responses in
  (* Add error responses *)
  let responses :=
    responses ++
      [ ResponseInfo.mk "401" "Unauthorized" (Some "Error");
        ResponseInfo.mk "404" "Not found" (Some "Error");
        ResponseInfo.mk "422" "Unprocessable entity" (Some "Error") ] in
  EndpointInfo.mk path (lower method) summary description parameters responses [tag].

Definition create_comprehensive_endpoints (self : ComprehensiveMastodonGenerator.t)
  : ComprehensiveMastodonGenerator.t :=
  fold_left
    (fun self group =>
       let '(tag, endpoints) := group in
       fold_left (fun self row => append_endpoint (create_endpoint tag row) self)
         endpoints self)
    endpoint_groups self.

(** The dictionary display that [generate_openapi_spec] starts from. *)
Definition initial_spec : value :=
  obj [ ("openapi", VStr "3.0.3");
        ("info",
         obj [ ("title", VStr "Mastodon API");
               ("description",
                VStr "The Mastodon REST API. Please see https://docs.joinmastodon.org/api/ for more details.");
               ("version", VStr "4.3.0");
               ("contact", contact);
               ("license", license) ]);
        ("servers", servers);
        ("paths", obj []);
        ("components",
         obj [ ("schemas", obj []);
               ("securitySchemes",
                obj [ ("OAuth2",
                       obj [ ("type", VStr "oauth2");
                             ("description", VStr "OAuth 2.0 authorization code flow");
                             ("flows",
                              obj [("authorizationCode",
                                    obj [ ("authorizationUrl", VStr "https://{instance}/oauth/authorize");
                                          ("tokenUrl", VStr "https://{instance}/oauth/token");
                                          ("scopes",
                                           obj [ ("read", VStr "Read access to account data");
                                                 ("write", VStr "Write access to account data");
                                                 ("follow", VStr "Access to manage relationships");
                                                 ("push", VStr "Access to Web Push API subscriptions") ]) ])]) ]);
                      ("BearerAuth",
                       obj [ ("type", VStr "http");
                             ("scheme", VStr "bearer");
                             ("description", VStr "Bearer token authentication") ]) ]) ]) ].

Definition ref_map : dict string :=
  [ ("account", "Account");
    ("status", "Status");
    ("application", "Application");
    ("poll", "Poll");
    ("reblog", "Status");
    ("last_status", "Status");
    ("moved", "Account") ].

(** [ref_map.get(name, 'object')]. *)
Definition ref_map_get (name : string) : string :=
  match dict_get name ref_map with
  | Some target => target
  | None => "object"
  end.

(** The schema of one property: the body of the inner loop up to
    [properties[prop.name] = prop_schema]. *)
Definition prop_schema (prop : PropertyInfo.t) : value :=
  let name := PropertyInfo.name prop in
  let prop_schema :=
    lit [ ("type", VStr (PropertyInfo.type prop));
          ("description", VStr (PropertyInfo.description prop)) ] in
  let prop_schema :=
    match PropertyInfo.format prop with
    | Some f => if truthy (PropertyInfo.format prop) then assign "format" (VStr f) prop_schema else prop_schema
    | None => prop_schema
    end in
  let prop_schema :=
    if PropertyInfo.nullable prop
    then assign "nullable" (VBool true) prop_schema
    else prop_schema in
  let prop_schema :=
    if String.eqb (PropertyInfo.type prop) "array"
    then
      match PropertyInfo.items_ref prop with
      | Some items_ref =>
          if truthy_cell (PropertyInfo.items_ref prop)
          then assign "items"
                 (obj [("$ref", VStr ("#/components/schemas/" ++ str_cell items_ref))])
                 prop_schema
          else assign "items" (obj [("type", VStr "string")]) prop_schema
      | None => assign "items" (obj [("type", VStr "string")]) prop_schema
      end
    else prop_schema in
  let prop_schema :=
    if String.eqb (PropertyInfo.type prop) "object"
       && in_list name
            ["account"; "status"; "application"; "poll"; "reblog"; "last_status"; "moved"]
    then lit [("$ref", VStr ("#/components/schemas/" ++ ref_map_get name))]
    else prop_schema in
  VDict prop_schema.

(** The body of [for prop in entity.properties]; the state is
    [(properties, required_props)]. *)
Definition add_property (acc : list (value * value) * list string) (prop : PropertyInfo.t)
  : list (value * value) * list string :=
  let '(properties, required_props) := acc in
  let properties := assign (PropertyInfo.name prop) (prop_schema prop) properties in
  let required_props :=
    if PropertyInfo.required prop
    then required_props ++ [PropertyInfo.name prop]
    else required_props in
  (properties, required_props).

(** The body of [for entity_name, entity in self.entities.items()]. *)
Definition add_schema (spec : value) (item : string * EntityInfo.t PropertyInfo.t) : M value :=
  let '(entity_name, entity) := item in
  let '(properties, required_props) :=
    fold_left add_property (EntityInfo.properties entity) ([], []) in
  store_schema spec entity_name (VStr (EntityInfo.description entity)) properties required_props.

(** The test that guards [operation["security"] = ...]. *)
Definition needs_security (endpoint : EndpointInfo.t) : bool :=
  negb (String.eqb (EndpointInfo.method endpoint) "get"
        && (contains (EndpointInfo.path endpoint) "public"
            || contains (EndpointInfo.path endpoint) "instance")).

(** The [operation] dictionary of one endpoint. *)
Definition operation_of (endpoint : EndpointInfo.t) : value :=
  let parameters := map param_schema (EndpointInfo.parameters endpoint) in
  let responses := responses_of (EndpointInfo.responses endpoint) in
  let operation :=
    lit [ ("summary", VStr (EndpointInfo.summary endpoint));
          ("description", VStr (EndpointInfo.description endpoint));
          ("tags", VList (map VStr (EndpointInfo.tags endpoint)));
          ("responses", VDict responses) ] in
  let operation :=
    match parameters with
    | [] => operation
    | _ :: _ => assign "parameters" (VList parameters) operation
    end in
  let operation :=
    if needs_security endpoint
    then assign "security" (VList [obj [("BearerAuth", VList [])]]) operation
    else operation in
  VDict operation.

(** The body of [for endpoint in self.endpoints]. *)
Definition add_path (spec : value) (endpoint : EndpointInfo.t) : M value :=
  let openapi_path := replace (replace (EndpointInfo.path endpoint) "{" "{") "}" "}" in
  spec <- ensure_path spec openapi_path ;;
  lift (setitem_at spec ["paths"; openapi_path] (EndpointInfo.method endpoint)
          (operation_of endpoint)).

Definition generate_openapi_spec (self : ComprehensiveMastodonGenerator.t) : M value :=
  let spec := initial_spec in
  spec <- foldM add_schema (entities self) spec ;;
  spec <- foldM add_path (endpoints self) spec ;;
  ret spec.

(** [main] up to the specification object that it then writes out. *)
Definition main (stdout : console) (p : process) : M value :=
  let generator := __init__ in
  print stdout [FLit "Creating comprehensive Mastodon API documentation..."] ;;;
  let generator := create_comprehensive_entities generator in
  let generator := create_comprehensive_endpoints generator in
  print stdout [FLit "Generating OpenAPI specification..."] ;;;
  generate_openapi_spec generator.

End Comprehensive.

(** ** The scraping generator: [generate_openapi.py] *)

Module Scraper.
Import Py Common.

Definition MASTODON_DOCS_BASE_URL : string :=
  "https://api.github.com/repos/mastodon/documentation/contents".
Definition METHODS_PATH : string := "content/en/methods".
Definition ENTITIES_PATH : string := "content/en/entities".

(** The answer to a request: what [response.raise_for_status()] and
    [response.json()] do on it. *)
Record response : Type := {
  raise_for_status : result unit;
  json : result value
}.

(** The library functions that the script calls and the network that it
    reads: [requests.get], [base64.b64decode], [bytes.decode("utf-8")],
    [yaml.safe_load], the groups of the matches that [re.finditer] finds
    for [attr_pattern] and for [param_pattern], [Path(...).stem],
    [str()] of a value that is not a string (which raises ValueError on an
    integer of more than 4300 digits), the methods [strip], [lower] and
    [upper] of strings, which follow the Unicode tables, and standard
    output. *)
Record Env : Type := {
  stdout : console;
  requests_get : string -> result response;
  b64decode : value -> result string;
  decode_utf8 : string -> result string;
  yaml_safe_load : string -> result value;
  attr_matches : string -> list (string * string * string);
  param_matches : string -> list (string * string * string * string);
  path_stem : string -> string;
  str_of_value : value -> result string;
  str_strip : string -> string;
  str_lower : string -> string;
  str_upper : string -> string
}.

(** [EntityInfo] and [EndpointInfo] as this script fills them: [description]
    and [summary] hold whatever [frontmatter.get] returns. *)
Module EntityInfo.
Record t : Type := mk {
  name : string;
  description : value;
  properties : list PropertyInfo.t
}.
End EntityInfo.

Module EndpointInfo.
Record t : Type := mk {
  path : string;
  method : string;
  summary : value;
  description : value;
  parameters : list ParameterInfo.t;
  responses : list ResponseInfo.t;
  tags : list string
}.
End EndpointInfo.

Module MastodonDocsParser.
Record t : Type := mk {
  entities : dict EntityInfo.t;
  endpoints : list EndpointInfo.t
}.
End MastodonDocsParser.
Import MastodonDocsParser.

Definition __init__ : MastodonDocsParser.t := mk [] [].

Section WithEnv.
Variable env : Env.

(** [f"{v}"]. *)
Definition py_str (v : value) : result string :=
  match v with
  | VStr s => Ok s
  | _ => str_of_value env v
  end.

Definition fetch_file_content (path : string) : M (option string) :=
  let url := (MASTODON_DOCS_BASE_URL ++ "/" ++ path)%string in
  try_except
    (response <- lift (requests_get env url) ;;
     lift (raise_for_status response) ;;;
     data <- lift (json response) ;;
     encoding <- lift (get_default data "encoding" VNone) ;;
     if eq_str encoding "base64"
     then
       encoded <- lift (getitem data "content") ;;
       raw <- lift (b64decode env encoded) ;;
       content <- lift (decode_utf8 env raw) ;;
       ret (Some content)
     else ret None)
    [ (CException,
       fun e => print (stdout env) [FLit "Error fetching "; FLit path; FLit ": "; FExn e] ;;; ret None) ].

Definition list_directory (path : string) : M value :=
  let url := (MASTODON_DOCS_BASE_URL ++ "/" ++ path)%string in
  try_except
    (response <- lift (requests_get env url) ;;
     lift (raise_for_status response) ;;;
     lift (json response))
    [ (CException,
       fun e => print (stdout env) [FLit "Error listing "; FLit path; FLit ": "; FExn e] ;;;
                ret (VList [])) ].

Definition parse_frontmatter_and_content (content : string) : M (value * string) :=
  if negb (startswith content "---")
  then ret (VDict [], content)
  else
    match split content "---" (Some 2) with
    | _ :: part1 :: part2 :: _ =>
        try_except
          (frontmatter <- lift (yaml_safe_load env part1) ;;
           let content_body := str_strip env part2 in
           ret (if py_truthy frontmatter then frontmatter else VDict [], content_body))
          [ (CYAMLError, fun _ => ret (VDict [], content)) ]
    | _ => ret (VDict [], content)
    end.

(** The body of the loop of [parse_entity], for the groups of one match. *)
Definition property_of (groups : string * string * string) : PropertyInfo.t :=
  let '(attr_name, group2, group3) := groups in
  let description := str_strip env group2 in
  let type_info := str_strip env group3 in
  let nullable :=
    contains (str_lower env type_info) "nullable"
    || contains (str_lower env type_info) "null" in
  let '(attr_type, format_type) :=
    if contains type_info "String"
    then ("string",
          if contains type_info "URL" then Some "uri"
          else if contains type_info "Datetime" then Some "date-time"
          else None)
    else if contains type_info "Integer" then ("integer", None)
    else if contains type_info "Boolean" then ("boolean", None)
    else if contains type_info "Array" then ("array", None)
    else if contains type_info "Hash" then ("object", None)
    else ("string", None) in
  PropertyInfo.mk attr_name attr_type description true nullable format_type.

Definition parse_entity (entity_file : string) : M (option EntityInfo.t) :=
  content <- fetch_file_content (ENTITIES_PATH ++ "/" ++ entity_file)%string ;;
  match content with
  | None => ret None
  | Some content =>
      if String.eqb content "" then ret None
      else
        parsed <- parse_frontmatter_and_content content ;;
        let '(frontmatter, body) := parsed in
        let entity_name := path_stem env entity_file in
        description <- lift (get_default frontmatter "description" (VStr "")) ;;
        let properties :=
          fold_left (fun properties groups => properties ++ [property_of groups])
            (attr_matches env body) [] in
        ret (Some (EntityInfo.mk entity_name description properties))
  end.

(** The body of the loop of [parse_method_file], for the groups of one match. *)
Definition add_parameter (parameters : list ParameterInfo.t)
    (groups : string * string * string * string) : list ParameterInfo.t :=
  let '(g1, g2, g3, g4) := groups in
  let param_name := str_strip env g1 in
  let param_type := str_strip env g2 in
  let param_desc := str_strip env g3 in
  let param_required := String.eqb (str_lower env (str_strip env g4)) "required" in
  if negb (String.eqb param_name "") && negb (String.eqb param_name "Name")
  then parameters ++
         [ ParameterInfo.mk param_name
             (if in_list (str_lower env param_type) ["string"; "integer"; "boolean"]
              then str_lower env param_type else "string")
             param_desc param_required "query" ]
  else parameters.

Definition parse_method_file (method_path http_method : string)
  : M (option EndpointInfo.t) :=
  content <- fetch_file_content method_path ;;
  match content with
  | None => ret None
  | Some content =>
      if String.eqb content "" then ret None
      else
        parsed <- parse_frontmatter_and_content content ;;
        let '(frontmatter, body) := parsed in
        let path_parts := split method_path "/" None in
        (* [api_section] is bound in the first branch only *)
        let '(api_section, api_path) :=
          match path_parts with
          | _ :: _ :: part2 :: part3 :: _ =>
              if String.eqb part2 "methods"
              then (Some part3, ("/api/v1/" ++ part3)%string)
              else (None, "/api/v1/unknown")
          | _ => (None, "/api/v1/unknown")
          end in
        title <- lift (get_default frontmatter "title" (VStr "")) ;;
        description <- lift (get_default frontmatter "description" (VStr "")) ;;
        let tags := match api_section with Some a => [a] | None => [] end in
        let parameters := fold_left add_parameter (param_matches env body) [] in
        let responses := [ResponseInfo.mk "200" "Success" None] in
        ret (Some (EndpointInfo.mk api_path (str_lower env http_method) title description
                     parameters responses tags))
  end.

(** The body of the loop of [parse_all_entities]. *)
Definition parse_listed_entity (self : MastodonDocsParser.t) (entity : value)
  : M MastodonDocsParser.t :=
  type <- lift (getitem entity "type") ;;
  if eq_str type "file"
  then
    name <- lift (getitem entity "name") ;;
    file_name <- lift (str_method name) ;;
    if endswith file_name ".md"
    then
      parsed_entity <- parse_entity file_name ;;
      match parsed_entity with
      | Some parsed_entity =>
          let self :=
            mk (dict_set (EntityInfo.name parsed_entity) parsed_entity (entities self))
               (endpoints self) in
          print (stdout env) [FLit "Parsed entity: "; FLit (EntityInfo.name parsed_entity)] ;;;
          ret self
      | None => ret self
      end
    else ret self
  else ret self.

Definition parse_all_entities (self : MastodonDocsParser.t) : M MastodonDocsParser.t :=
  entities <- list_directory ENTITIES_PATH ;;
  items <- lift (py_iter entities) ;;
  foldM parse_listed_entity items self.

(** The body of the inner loop of [parse_all_methods]. *)
Definition parse_listed_method (method_dir : value) (self : MastodonDocsParser.t)
    (method_file : value) : M MastodonDocsParser.t :=
  type <- lift (getitem method_file "type") ;;
  if eq_str type "file"
  then
    name <- lift (getitem method_file "name") ;;
    file_name <- lift (str_method name) ;;
    if endswith file_name ".md"
    then
      let http_method := path_stem env file_name in
      if in_list (str_upper env http_method) ["GET"; "POST"; "PUT"; "PATCH"; "DELETE"]
      then
        dir_name <- lift (getitem method_dir "name") ;;
        dir_text <- lift (py_str dir_name) ;;
        let method_path :=
          (METHODS_PATH ++ "/" ++ dir_text ++ "/" ++ file_name)%string in
        endpoint <- parse_method_file method_path http_method ;;
        match endpoint with
        | Some endpoint =>
            let self := mk (entities self) (endpoints self ++ [endpoint]) in
            print (stdout env)
              [ FLit "Parsed endpoint: ";
                FLit (str_upper env (EndpointInfo.method endpoint));
                FLit " "; FLit (EndpointInfo.path endpoint) ] ;;;
            ret self
        | None => ret self
        end
      else ret self
    else ret self
  else ret self.

(** The body of the outer loop of [parse_all_methods]. *)
Definition parse_listed_dir (self : MastodonDocsParser.t) (method_dir : value)
  : M MastodonDocsParser.t :=
  type <- lift (getitem method_dir "type") ;;
  if eq_str type "dir"
  then
    dir_name <- lift (getitem method_dir "name") ;;
    dir_text <- lift (py_str dir_name) ;;
    method_files <- list_directory (METHODS_PATH ++ "/" ++ dir_text)%string ;;
    items <- lift (py_iter method_files) ;;
    foldM (parse_listed_method method_dir) items self
  else ret self.

Definition parse_all_methods (self : MastodonDocsParser.t) : M MastodonDocsParser.t :=
  methods_dirs <- list_directory METHODS_PATH ;;
  items <- lift (py_iter methods_dirs) ;;
  foldM parse_listed_dir items self.

End WithEnv.

(** The dictionary display that [generate_openapi_spec] starts from. *)
Definition initial_spec : value := Sample.initial_spec.

(** The schema of one property: the body of the inner loop up to
    [properties[prop.name] = prop_schema]. *)
Definition prop_schema (prop : PropertyInfo.t) : value :=
  let prop_schema :=
    lit [ ("type", VStr (PropertyInfo.type prop));
          ("description", VStr (PropertyInfo.description prop)) ] in
  let prop_schema :=
    match PropertyInfo.format prop with
    | Some f => if truthy (PropertyInfo.format prop) then assign "format" (VStr f) prop_schema else prop_schema
    | None => prop_schema
    end in
  let prop_schema :=
    if PropertyInfo.nullable prop
    then assign "nullable" (VBool true) prop_schema
    else prop_schema in
  let prop_schema :=
    if String.eqb (PropertyInfo.type prop) "array"
    then assign "items" (obj [("type", VStr "string")]) prop_schema
    else prop_schema in
  VDict prop_schema.

(** The body of [for prop in entity.properties]; the state is
    [(properties, required_props)]. *)
Definition add_property (acc : list (value * value) * list string) (prop : PropertyInfo.t)
  : list (value * value) * list string :=
  let '(properties, required_props) := acc in
  let properties := assign (PropertyInfo.name prop) (prop_schema prop) properties in
  let required_props :=
    if PropertyInfo.required prop
    then required_props ++ [PropertyInfo.name prop]
    else required_props in
  (properties, required_props).

(** The body of [for entity_name, entity in self.entities.items()]. *)
Definition add_schema (spec : value) (item : string * EntityInfo.t) : M value :=
  let '(entity_name, entity) := item in
  let '(properties, required_props) :=
    fold_left add_property (EntityInfo.properties entity) ([], []) in
  store_schema spec entity_name (EntityInfo.description entity) properties required_props.

(** The [operation] dictionary of one endpoint. *)
Definition operation_of (endpoint : EndpointInfo.t) : value :=
  let parameters := map param_schema (EndpointInfo.parameters endpoint) in
  let responses := responses_of (EndpointInfo.responses endpoint) in
  obj [ ("summary", EndpointInfo.summary endpoint);
        ("description", EndpointInfo.description endpoint);
        ("tags", VList (map VStr (EndpointInfo.tags endpoint)));
        ("parameters", VList parameters);
        ("responses", VDict responses);
        ("security", VList [obj [("BearerAuth", VList [])]]) ].

(** The body of [for endpoint in self.endpoints]. *)
Definition add_path (spec : value) (endpoint : EndpointInfo.t) : M value :=
  spec <- ensure_path spec (EndpointInfo.path endpoint) ;;
  lift (setitem_at spec ["paths"; EndpointInfo.path endpoint]
          (EndpointInfo.method endpoint) (operation_of endpoint)).

Definition generate_openapi_spec (self : MastodonDocsParser.t) : M value :=
  let spec := initial_spec in
  spec <- foldM add_schema (entities self) spec ;;
  spec <- foldM add_path (endpoints self) spec ;;
  ret spec.

(** [main] up to the specification object that it then writes out. *)
Definition main (env : Env) (p : process) : M value :=
  let parser := __init__ in
  print (stdout env) [FLit "Fetching and parsing Mastodon documentation..."] ;;;
  print (stdout env) [FLit "Parsing entities..."] ;;;
  parser <- parse_all_entities env parser ;;
  print (stdout env) [FLit "Parsing API methods..."] ;;;
  parser <- parse_all_methods env parser ;;
  print (stdout env) [FLit "Generating OpenAPI specification..."] ;;;
  generate_openapi_spec parser.

End Scraper.

(** * Vocabulary of the properties *)

(** ** Consoles *)

Module ConsoleSpec.
Import Py.

(** The console prints the line. *)
Definition printable (stdout : console) (l : line) : bool :=
  match stdout l with Ok _ => true | Raise _ => false end.


(** A console on which every [print] succeeds. *)
Definition terminal : console := fun _ => Ok tt.

(** [str()] of the value raises ValueError: the value is, or holds, an
    integer of more than 4300 digits. *)
Fixpoint exceeds_digits (v : value) : bool :=
  match v with
  | VInt z => (10 ^ 4300 <=? Z.abs z)%Z
  | VList items => existsb exceeds_digits items
  | VDict entries =>
      existsb (fun entry => exceeds_digits (fst entry) || exceeds_digits (snd entry)) entries
  | _ => false
  end.

(** A console that writes every text, under an interpreter with the limit
    of 4300 digits on the conversion of integers. *)
Definition limited_terminal : console :=
  fun l =>
    if existsb (fun piece => match piece with FVal v => exceeds_digits v | _ => false end) l
    then Raise ValueError
    else Ok tt.

Definition is_ascii (s : string) : bool :=
  forallb (fun c => (nat_of_ascii c <? 128)%nat) (list_ascii_of_string s).

(** A console whose stream has the encoding ASCII: text with another
    character in a literal piece raises UnicodeEncodeError. *)
Definition ascii_terminal : console :=
  fun l =>
    if forallb (fun piece => match piece with FLit s => is_ascii s | _ => true end) l
    then Ok tt
    else Raise UnicodeEncodeError.

End ConsoleSpec.

(** ** Documents that the validator accepts *)

Module ValidatorSpec.
Import Py Validator.
Export ConsoleSpec.

(** The document that the validator parses from a file: the file exists,
    its suffix selects a loader, and the loader returns. *)
Definition parsed_document (f : file) : option value :=
  match path_exists f with
  | Ok true =>
      let suffix := lower (path_suffix f) in
      if String.eqb suffix ".yaml" || String.eqb suffix ".yml"
      then match yaml_safe_load f with Ok spec => Some spec | Raise _ => None end
      else if String.eqb suffix ".json"
      then match json_load f with Ok spec => Some spec | Raise _ => None end
      else None
  | _ => None
  end.

Definition is_some {A} (o : option A) : bool :=
  match o with Some _ => true | None => false end.

(** The four items: the document is a mapping with the key [openapi] and a
    string starting with [3.] at it, the key [info] and a mapping with the
    keys [title] and [version] at it, and the key [paths]. *)
Definition has_required_items (spec : value) : bool :=
  match spec with
  | VDict d =>
      match lookup "openapi" d, lookup "info" d, lookup "paths" d with
      | Some (VStr version), Some (VDict info), Some _ =>
          startswith version "3."
          && is_some (lookup "title" info)
          && is_some (lookup "version" info)
      | _, _, _ => false
      end
  | _ => false
  end.

(** The [tags] of an operation can be iterated and its items are strings. *)
Definition tags_ok (t : value) : bool :=
  match py_iter t with
  | Ok items => forallb is_str items
  | Raise _ => false
  end.

(** A member of a path item: when it is a mapping with the key [tags], the
    tags are strings. *)
Definition operation_ok (operation : value) : bool :=
  match operation with
  | VDict d =>
      match lookup "tags" d with
      | Some t => tags_ok t
      | None => true
      end
  | _ => true
  end.

(** A path item is a mapping. *)
Definition path_item_ok (path_obj : value) : bool :=
  match path_obj with
  | VDict d => forallb operation_ok (map snd d)
  | _ => false
  end.

(** [x] has a length. *)
Definition sized (x : value) : bool :=
  match py_len x with Ok _ => true | Raise _ => false end.

(** [components], when present, is a mapping and its [schemas], when
    present, has a length. *)
Definition components_ok (d : list (value * value)) : bool :=
  match lookup "components" d with
  | None => true
  | Some (VDict c) =>
      match lookup "schemas" c with
      | None => true
      | Some schemas => sized schemas
      end
  | Some _ => false
  end.

(** What the validator needs beyond the four items: [paths] is a mapping of
    path items, and [components] is as above. *)
Definition well_formed (spec : value) : bool :=
  match spec with
  | VDict d =>
      match lookup "paths" d with
      | Some (VDict paths) => forallb path_item_ok (map snd paths) && components_ok d
      | _ => false
      end
  | _ => false
  end.

(** The number of schemas that the validator counts in a document that it
    accepts: the length of what is at [components.schemas], and 0 when
    [components] or [schemas] is absent. *)
Definition schemas_count (d : list (value * value)) : nat :=
  match lookup "components" d with
  | Some (VDict c) =>
      match lookup "schemas" c with
      | Some schemas => match py_len schemas with Ok n => n | Raise _ => 0 end
      | None => 0
      end
  | _ => 0
  end.

(** The calls of [print] that the validator makes for a document that it
    accepts, one item for each call. *)
Definition accepted_report (version title api_version : value)
    (paths_count schemas_count : nat) (tags : string) : list line :=
  [ [FLit "✅ OpenAPI specification is valid"];
    [FLit "   Version: "; FVal version];
    [FLit "   Title: "; FVal title];
    [FLit "   API Version: "; FVal api_version];
    [FLit "   Paths: "; FNat paths_count];
    [FLit "   Schemas: "; FNat schemas_count];
    [FLit "   Tags: "; FLit tags] ].

(** The tags that the validator adds to its set for one member of a path
    item, for one path item, and the text that it makes of the tags of all
    the paths. *)
Definition operation_tags (operation : value) : list value :=
  match operation with
  | VDict d =>
      match lookup "tags" d with
      | Some t => match py_iter t with Ok items => items | Raise _ => [] end
      | None => []
      end
  | _ => []
  end.

Definition path_item_tags (path_obj : value) : list value :=
  match path_obj with
  | VDict d => flat_map operation_tags (map snd d)
  | _ => []
  end.

Definition joined_tags (paths : list (value * value)) : string :=
  String.concat ", "
    (fold_right insert_sorted [] (map str_of (flat_map path_item_tags (map snd paths)))).

(** The report of a document: the version, the title and the API version
    are what the document has at [openapi], [info.title] and
    [info.version], the counts are the lengths of [paths] and of
    [components.schemas], and the tags are those of the paths. *)
Definition report_lines (spec : value) : list line :=
  match spec with
  | VDict d =>
      match lookup "openapi" d, lookup "info" d, lookup "paths" d with
      | Some version, Some (VDict info), Some (VDict paths) =>
          match lookup "title" info, lookup "version" info with
          | Some title, Some api_version =>
              accepted_report version title api_version
                (List.length paths) (schemas_count d) (joined_tags paths)
          | _, _ => []
          end
      | _, _, _ => []
      end
  | _ => []
  end.

(** The first six calls of the report. *)
Definition announcement (version title api_version : value)
    (paths_count schemas_count : nat) : list line :=
  [ [FLit "✅ OpenAPI specification is valid"];
    [FLit "   Version: "; FVal version];
    [FLit "   Title: "; FVal title];
    [FLit "   API Version: "; FVal api_version];
    [FLit "   Paths: "; FNat paths_count];
    [FLit "   Schemas: "; FNat schemas_count] ].

(** A call of [print] that reports a failure: its text starts with the
    cross mark.  The text of one call may run over several lines, when the
    message of the exception does. *)
Definition failure_line (l : line) : bool :=
  match l with
  | FLit s :: _ => startswith s "❌"
  | _ => false
  end.

(** No call of [print] in [out] reports a failure. *)
Definition no_failure (out : list line) : Prop :=
  Forall (fun l => failure_line l = false) out.

(** A part of the validator that either prints one failure message and
    returns False, or prints no failure message and does not return
    False. *)
Definition tidy (m : M bool) : Prop :=
  (exists l, m = (Ok false, [l]) /\ failure_line l = true) \/
  (fst m <> Ok false /\ no_failure (snd m)).


(** The message that the handlers print for an exception. *)
Definition handler_line (e : exn) : line :=
  match e with
  | YAMLError => [FLit "❌ YAML parsing error: "; FExn e]
  | JSONDecodeError => [FLit "❌ JSON parsing error: "; FExn e]
  | _ => [FLit "❌ Validation error: "; FExn e]
  end.

(** A YAML document with the four items and nothing at [paths]:
    [[
    openapi: 3.0.3
    info: {title: Mastodon API, version: 4.3.0}
    paths:
    ]] *)
Definition empty_paths_document : value :=
  obj [ ("openapi", VStr "3.0.3");
        ("info", obj [("title", VStr "Mastodon API"); ("version", VStr "4.3.0")]);
        ("paths", VNone) ].

(** A small document that the validator accepts. *)
Definition small_document : value :=
  obj [ ("openapi", VStr "3.0.3");
        ("info", obj [("title", VStr "Mastodon API"); ("version", VStr "4.3.0")]);
        ("paths",
         obj [("/api/v1/instance",
               obj [("get", obj [ ("summary", VStr "Get instance");
                                  ("tags", VList [VStr "instance"]) ])])]);
        ("components", obj [("schemas", obj [("Error", obj [("type", VStr "object")])])]) ].

(** A document whose only operation has a number among its tags:
    [[
    openapi: 3.0.3
    info: {title: Mastodon API, version: 4.3.0}
    paths: {/api/v1/instance: {get: {tags: [instance, 1]}}}
    ]] *)
Definition numeric_tag_document : value :=
  obj [ ("openapi", VStr "3.0.3");
        ("info", obj [("title", VStr "Mastodon API"); ("version", VStr "4.3.0")]);
        ("paths",
         obj [("/api/v1/instance",
               obj [("get", obj [("tags", VList [VStr "instance"; VInt 1])])])]) ].

(** A document with the four items, well formed, whose title is a number
    of 6021 digits (in YAML, [title: 0x1] followed by 5000 zeros). *)
Definition huge_title_document : value :=
  obj [ ("openapi", VStr "3.0.3");
        ("info", obj [("title", VInt (16 ^ 5000)); ("version", VStr "4.3.0")]);
        ("paths", obj []) ].

(** The file [mastodon-openapi.yaml] holding [spec]. *)
Definition yaml_file (spec : value) : file :=
  {| file_path := "mastodon-openapi.yaml";
     path_exists := Ok true;
     path_suffix := ".yaml";
     yaml_safe_load := Ok spec;
     json_load := Raise JSONDecodeError |}.

(** A file that does not exist. *)
Definition missing_file : file :=
  {| file_path := "mastodon-openapi.json";
     path_exists := Ok false;
     path_suffix := ".json";
     yaml_safe_load := Raise OSError;
     json_load := Raise OSError |}.

(** A file whose content is not YAML. *)
Definition malformed_yaml_file : file :=
  {| file_path := "mastodon-openapi.yaml";
     path_exists := Ok true;
     path_suffix := ".yaml";
     yaml_safe_load := Raise YAMLError;
     json_load := Raise JSONDecodeError |}.


End ValidatorSpec.

(** ** The specification objects of the generators *)

Module GeneratorSpec.
Import Py.
Export ConsoleSpec.

(** [spec["paths"][path][method]]. *)
Definition emitted_operation (spec : value) (path method : string) : result value :=
  match getitem spec "paths" with
  | Ok paths =>
      match getitem paths path with
      | Ok path_item => getitem path_item method
      | Raise e => Raise e
      end
  | Raise e => Raise e
  end.

(** [spec["components"]["schemas"][name]]. *)
Definition emitted_schema (spec : value) (name : string) : result value :=
  match getitem spec "components" with
  | Ok components =>
      match getitem components "schemas" with
      | Ok schemas => getitem schemas name
      | Raise e => Raise e
      end
  | Raise e => Raise e
  end.

(** The keys of [spec["components"]["schemas"]], in the order in which a
    loop over the mapping visits them. *)
Definition emitted_schema_names (spec : value) : result (list value) :=
  match getitem spec "components" with
  | Ok components =>
      match getitem components "schemas" with
      | Ok schemas => py_iter schemas
      | Raise e => Raise e
      end
  | Raise e => Raise e
  end.

(** The names in the list at [schema["required"]]; none when the key is
    absent. *)
Definition required_names (schema : value) : list value :=
  match getitem schema "required" with
  | Ok (VList names) => names
  | _ => []
  end.

(** The generator of [generate_sample_openapi.py] when [main] calls
    [generate_openapi_spec]. *)
Definition sample_generator : Sample.MastodonDocsGenerator.t :=
  Sample.create_sample_endpoints (Sample.create_sample_entities Sample.__init__).

(** The generator of [generate_comprehensive_openapi.py] when [main] calls
    [generate_openapi_spec]. *)
Definition comprehensive_generator : Comprehensive.ComprehensiveMastodonGenerator.t :=
  Comprehensive.create_comprehensive_endpoints
    (Comprehensive.create_comprehensive_entities Comprehensive.__init__).

(** The value that a computation returns. *)
Definition returned (m : M value) : value :=
  match fst m with
  | Ok spec => spec
  | Raise _ => VNone
  end.

(** The messages that the two [main] print before they generate. *)
Definition sample_progress : list line :=
  [ [FLit "Creating sample Mastodon API documentation..."];
    [FLit "Generating OpenAPI specification..."] ].

Definition comprehensive_progress : list line :=
  [ [FLit "Creating comprehensive Mastodon API documentation..."];
    [FLit "Generating OpenAPI specification..."] ].

(** The specification objects that the two [main] write out. *)
Definition sample_spec : value :=
  returned (Sample.generate_openapi_spec sample_generator).

Definition comprehensive_spec : value :=
  returned (Comprehensive.generate_openapi_spec comprehensive_generator).

(** The form of every specification object: the five keys of the display
    that [generate_openapi_spec] starts from, with what the loops put at
    [paths] and at [components.schemas]. *)
Definition shape (info servers : value) (paths schemas : list (value * value))
    (security : value) : value :=
  VDict
    [ (VStr "openapi", VStr "3.0.3");
      (VStr "info", info);
      (VStr "servers", servers);
      (VStr "paths", VDict paths);
      (VStr "components",
       VDict [ (VStr "schemas", VDict schemas);
               (VStr "securitySchemes", security) ]) ].

(** The schema stored for an entity. *)
Definition schema_of (description : value) (properties : list (value * value))
    (required_props : list string) : value :=
  let schema :=
    lit [ ("type", VStr "object");
          ("description", description);
          ("properties", VDict properties) ] in
  match required_props with
  | [] => VDict schema
  | _ :: _ => VDict (assign "required" (VList (map VStr required_props)) schema)
  end.

(** The entries of the path item at [path], none when there is none. *)
Definition entries_at (path : string) (paths : list (value * value)) : list (value * value) :=
  match lookup path paths with
  | Some (VDict entries) => entries
  | _ => []
  end.

(** [paths] after the operation [operation] is stored at [path] and
    [method]. *)
Definition store_operation (paths : list (value * value))
    (path method : string) (operation : value) : list (value * value) :=
  assign path (VDict (assign method operation (entries_at path paths))) paths.

(** [paths[path][method]], when both keys are there. *)
Definition operation_at (paths : list (value * value)) (path method : string)
  : option value :=
  match lookup path paths with
  | Some (VDict entries) => lookup method entries
  | _ => None
  end.

(** Every path item is a mapping. *)
Definition path_items (paths : list (value * value)) : Prop :=
  Forall (fun kv => is_dict (snd kv) = true) paths.

(** The list of required names of [schema] agrees with the flags of the
    properties [props], and the key [required] is there exactly when a
    property is flagged. *)
Definition required_matches {P : Type} (name : P -> string) (required : P -> bool)
    (props : list P) (schema : value) : Prop :=
  (forall p, In p props ->
     (In (VStr (name p)) (required_names schema) <-> required p = true)) /\
  (py_in "required" schema = Ok true <-> exists p, In p props /\ required p = true).

(** Properties of the same name carry the same flag. *)
Definition consistent {P : Type} (name : P -> string) (required : P -> bool)
    (props : list P) : Prop :=
  forall p q, In p props -> In q props -> name p = name q -> required p = required q.

(** The strings of [l] differ from one another. *)
Fixpoint distinct (l : list string) : bool :=
  match l with
  | [] => true
  | x :: l' => negb (in_list x l') && distinct l'
  end.

(** [spec["info"]] and [spec["components"]["securitySchemes"]] of a display. *)
Definition info_of (spec : value) : value :=
  match getitem spec "info" with
  | Ok info => info
  | Raise _ => VNone
  end.

Definition security_of (spec : value) : value :=
  match getitem spec "components" with
  | Ok components =>
      match getitem components "securitySchemes" with
      | Ok security => security
      | Raise _ => VNone
      end
  | Raise _ => VNone
  end.

(** [schemas] after a loop that stores [val x] at [key x] for each [x]. *)
Definition store_all {X : Type} (key : X -> string) (val : X -> value)
    (xs : list X) (schemas : list (value * value)) : list (value * value) :=
  fold_left (fun schemas x => assign (key x) (val x) schemas) xs schemas.

(** [paths] after a loop that stores an operation for each [x]. *)
Definition store_operations {X : Type} (path method : X -> string) (operation : X -> value)
    (xs : list X) (paths : list (value * value)) : list (value * value) :=
  fold_left (fun paths x => store_operation paths (path x) (method x) (operation x)) xs paths.

(** What the interface promises of a specification object: [openapi] is
    [3.0.3], the five top-level keys are there, and [components] has
    [schemas] and [securitySchemes]. *)
Definition document_form (spec : value) : Prop :=
  (getitem spec "openapi" = Ok (VStr "3.0.3") /\
   (forall k, In k ["openapi"; "info"; "servers"; "paths"; "components"] ->
              py_in k spec = Ok true) /\
   exists components,
     getitem spec "components" = Ok components /\
     py_in "schemas" components = Ok true /\
     py_in "securitySchemes" components = Ok true)%type.

(** The schema that each generator stores for an entity. *)
Definition sample_entity_schema (entity : EntityInfo.t PropertyInfo.t) : value :=
  let '(properties, required_props) :=
    fold_left Sample.add_property (EntityInfo.properties entity) ([], []) in
  schema_of (VStr (EntityInfo.description entity)) properties required_props.

Definition comprehensive_entity_schema
    (entity : EntityInfo.t Comprehensive.PropertyInfo.t) : value :=
  let '(properties, required_props) :=
    fold_left Comprehensive.add_property (EntityInfo.properties entity) ([], []) in
  schema_of (VStr (EntityInfo.description entity)) properties required_props.

Definition scraper_entity_schema (entity : Scraper.EntityInfo.t) : value :=
  let '(properties, required_props) :=
    fold_left Scraper.add_property (Scraper.EntityInfo.properties entity) ([], []) in
  schema_of (Scraper.EntityInfo.description entity) properties required_props.

(** The path at which each generator stores the operation of an endpoint. *)
Definition sample_path (endpoint : EndpointInfo.t) : string :=
  replace (EndpointInfo.path endpoint) ":id" "{id}".

Definition comprehensive_path (endpoint : EndpointInfo.t) : string :=
  replace (replace (EndpointInfo.path endpoint) "{" "{") "}" "}".

(** The fourth element of a tuple of [entities_data], if it has one. *)
Definition fourth (prop_data : Comprehensive.prop_data) : option Comprehensive.cell :=
  nth_error (snd prop_data) 0.

(** The tuple of [following] in the entity [Tag] of [entities_data]. *)
Definition following_tuple : Comprehensive.prop_data :=
  ("following", "boolean",
   "Whether the current token's authorized user is following this tag",
   [Comprehensive.CBool false]).

(** The tuple of [url] in the entity [Tag] of [entities_data]. *)
Definition url_tuple : Comprehensive.prop_data :=
  ("url", "string", "A link to the hashtag on the instance", [Comprehensive.CStr "uri"]).

(** The tuple of [category] in the entity [CustomEmoji] of [entities_data]. *)
Definition category_tuple : Comprehensive.prop_data :=
  ("category", "string", "Used for sorting custom emoji in the picker",
   [Comprehensive.CBool true]).

(** The security test of the sample generator on the rows of
    [SAMPLE_ENDPOINTS] whose method is GET: the emitted operation has the
    key [security] exactly when the path contains [timeline]. *)
Definition get_row_checked (spec : value)
    (row : string * string * string * string * string) : bool :=
  let '(_, method, path, _, _) := row in
  if String.eqb method "GET"
  then
    match emitted_operation spec (replace path ":id" "{id}") "get" with
    | Ok operation =>
        match py_in "security" operation with
        | Ok present => Bool.eqb present (contains path "timeline")
        | Raise _ => false
        end
    | Raise _ => false
    end
  else true.

End GeneratorSpec.

(** ** The scraping generator and the network *)

Module ScraperSpec.
Import Py Scraper.
Export ConsoleSpec.

(** The address that [fetch_file_content] and [list_directory] request. *)
Definition url_of (path : string) : string :=
  (MASTODON_DOCS_BASE_URL ++ "/" ++ path)%string.

(** The messages printed when a request fails. *)
Definition fetch_error (path : string) (e : exn) : line :=
  [FLit "Error fetching "; FLit path; FLit ": "; FExn e].

Definition listing_error (path : string) (e : exn) : line :=
  [FLit "Error listing "; FLit path; FLit ": "; FExn e].

(** What a handler does: it prints its message and returns [fallback],
    unless the call of [print] raises; its exception then propagates. *)
Definition reported {A} (env : Env) (l : line) (fallback : A) : M A :=
  match stdout env l with
  | Ok _ => (Ok fallback, [l])
  | Raise e => (Raise e, [])
  end.

(** What a request yields when it is answered with a status that
    [raise_for_status] accepts and a body that [response.json()] parses. *)
Definition answered (env : Env) (path : string) : result value :=
  match requests_get env (url_of path) with
  | Ok response =>
      match raise_for_status response with
      | Ok _ => json response
      | Raise e => Raise e
      end
  | Raise e => Raise e
  end.

(** The text of a listing entry that carries [encoding: base64]. *)
Definition decoded (env : Env) (data : value) : result string :=
  match getitem data "content" with
  | Ok encoded =>
      match b64decode env encoded with
      | Ok raw => decode_utf8 env raw
      | Raise e => Raise e
      end
  | Raise e => Raise e
  end.

(** The types that the scraper gives to properties, and to parameters. *)
Definition property_types : list string :=
  ["string"; "integer"; "boolean"; "array"; "object"].

Definition parameter_types : list string := ["string"; "integer"; "boolean"].

(** A property as [parse_entity] builds them. *)
Definition scraped_property (prop : PropertyInfo.t) : Prop :=
  (PropertyInfo.required prop = true /\
   In (PropertyInfo.type prop) property_types /\
   (PropertyInfo.format prop <> None -> PropertyInfo.type prop = "string"))%type.

(** A parameter as [parse_method_file] builds them. *)
Definition scraped_parameter (param : ParameterInfo.t) : Prop :=
  (ParameterInfo.location param = "query" /\
   In (ParameterInfo.type param) parameter_types /\
   ParameterInfo.name param <> "" /\
   ParameterInfo.name param <> "Name")%type.

(** A table of entities as [parse_all_entities] builds them: the keys
    differ, each entity is stored under its name, and its properties are
    as [parse_entity] builds them. *)
Definition scraped_entities (entities : dict EntityInfo.t) : Prop :=
  (NoDup (map fst entities) /\
   forall name entity, In (name, entity) entities ->
     name = EntityInfo.name entity /\
     Forall scraped_property (EntityInfo.properties entity))%type.

(** An endpoint as [parse_method_file] builds them: one response, the
    parameters as above, and a path made of the section that is its tag,
    when the path of the file gives one. *)
Definition scraped_endpoint (endpoint : EndpointInfo.t) : Prop :=
  (EndpointInfo.responses endpoint = [ResponseInfo.mk "200" "Success" None] /\
   Forall scraped_parameter (EndpointInfo.parameters endpoint) /\
   (EndpointInfo.path endpoint = "/api/v1/unknown" /\ EndpointInfo.tags endpoint = [] \/
    exists section,
      EndpointInfo.path endpoint = ("/api/v1/" ++ section)%string /\
      EndpointInfo.tags endpoint = [section]))%type.

(** The listing entry of a file. *)
Definition file_entry (name : string) : value :=
  obj [("name", VStr name); ("type", VStr "file")].

(** The listing entry of a directory. *)
Definition dir_entry (name : string) : value :=
  obj [("name", VStr name); ("type", VStr "dir")].

(** A network that answers no request, with the console [out]. *)
Definition offline (out : console) : Env :=
  {| stdout := out;
     requests_get := fun _ => Raise RequestException;
     b64decode := fun _ => Raise BinasciiError;
     decode_utf8 := fun raw => Ok raw;
     yaml_safe_load := fun _ => Raise YAMLError;
     attr_matches := fun _ => [];
     param_matches := fun _ => [];
     path_stem := fun name => List.hd "" (split name "." None);
     str_of_value := fun _ => Ok "";
     str_strip := strip;
     str_lower := lower;
     str_upper := upper |}.

(** A network that answers every request for a file with the entry
    [data], lists the file [Account.md] among the entities, the directory
    [accounts] among the methods, and the files [GET.md] and [README.md] in
    every other directory.  The decoder knows one encoded text, and every
    [print] succeeds. *)
Definition serving (data : value) (text : string) (frontmatter : result value) : Env :=
  {| stdout := terminal;
     requests_get :=
       fun url =>
         Ok {| raise_for_status := Ok tt;
               json := if endswith url ".md" then Ok data
                       else if endswith url "entities"
                       then Ok (VList [file_entry "Account.md"; dir_entry "admin"])
                       else if endswith url "methods"
                       then Ok (VList [dir_entry "accounts"])
                       else Ok (VList [file_entry "GET.md"; file_entry "README.md"]) |};
     b64decode :=
       fun encoded =>
         match encoded with
         | VStr _ => Ok text
         | _ => Raise TypeError
         end;
     decode_utf8 := fun raw => Ok raw;
     yaml_safe_load := fun _ => frontmatter;
     attr_matches :=
       fun _ => [("id", "The account id.", "String (cast from an integer)");
                 ("url", "The location of the profile page.", "String (URL)");
                 ("moved", "The new account.", "NULLABLE Account");
                 ("emojis", "Custom emoji.", "Array of CustomEmoji")];
     param_matches :=
       fun _ => [(" Name ", " Type ", " Description ", " ");
                 (" limit ", " Integer ", " Maximum number of results ", " ");
                 (" q ", " String ", " The query ", " REQUIRED ");
                 (" resolve ", " Bool ", " Attempt WebFinger lookup ", "")];
     path_stem := fun name => List.hd "" (split name "." None);
     str_of_value := fun _ => Ok "";
     str_strip := strip;
     str_lower := lower;
     str_upper := upper |}.

(** The entry of a file with base64 content, and one with another encoding. *)
Definition base64_entry : value :=
  obj [("name", VStr "Account.md"); ("encoding", VStr "base64"); ("content", VStr "LS0t")].


(** The parser that a computation returns. *)
Definition parser_of (m : M MastodonDocsParser.t) : MastodonDocsParser.t :=
  match fst m with
  | Ok self => self
  | Raise _ => __init__
  end.

(** The text of a file with front matter, and the front matter that the
    YAML loader returns for it. *)
Definition account_text : string :=
  "---" ++ "title: Account" ++ "---" ++ "  ### `id`  ".

Definition account_frontmatter : value :=
  obj [("title", VStr "Account"); ("description", VStr "Represents a user.")].

(** What [main] prints when its two listings fail with [e1] and [e2]. *)
Definition offline_lines (e1 e2 : exn) : list line :=
  [ [FLit "Fetching and parsing Mastodon documentation..."];
    [FLit "Parsing entities..."];
    listing_error ENTITIES_PATH e1;
    [FLit "Parsing API methods..."];
    listing_error METHODS_PATH e2;
    [FLit "Generating OpenAPI specification..."] ].

(** A network that serves the file [Account.md] and the directory
    [accounts], and the parser after the two parsing passes on it. *)
Definition account_docs : Env := serving base64_entry account_text (Ok account_frontmatter).

Definition account_entities : MastodonDocsParser.t :=
  parser_of (parse_all_entities account_docs __init__).

Definition account_parser : MastodonDocsParser.t :=
  parser_of (parse_all_methods account_docs account_entities).

End ScraperSpec.

(** * Properties *)

(** ** Computations *)

Module MFacts.
Import Py.

Lemma bind_ok_inv {A B} (m : M A) (f : A -> M B) (b : B) (out : list line) :
  bind m f = (Ok b, out) ->
  exists a o1 o2, m = (Ok a, o1) /\ f a = (Ok b, o2) /\ out = o1 ++ o2.
Proof.
  destruct m as [[a | e] o1]; simpl; [| discriminate].
  destruct (f a) as [r o2] eqn:Hf. intros H. inversion H; subst.
  exists a, o1, o2. auto.
Qed.

Lemma bind_lift_ok_inv {A B} (r : result A) (f : A -> M B) (b : B) (out : list line) :
  bind (lift r) f = (Ok b, out) ->
  exists a, r = Ok a /\ f a = (Ok b, out).
Proof.
  intros H. apply bind_ok_inv in H as (a & o1 & o2 & Hm & Hf & ->).
  assert (Hr : r = Ok a /\ o1 = []) by (unfold lift in Hm; split; congruence).
  destruct Hr as [-> ->]. exists a. split; [reflexivity | exact Hf].
Qed.

Lemma bind_print_ok_inv {B} (stdout : console) (l : line) (k : M B) (b : B)
    (out : list line) :
  bind (print stdout l) (fun _ => k) = (Ok b, out) ->
  stdout l = Ok tt /\ exists out', k = (Ok b, out') /\ out = l :: out'.
Proof.
  intros H. apply bind_ok_inv in H as (a & o1 & o2 & Hm & Hf & ->).
  unfold print in Hm. destruct (stdout l) as [[] | e]; [| discriminate Hm].
  assert (Ho : o1 = [l]) by congruence.
  subst o1. split; [reflexivity |]. exists o2. split; [exact Hf | reflexivity].
Qed.

Lemma bind_print_eq {B} (stdout : console) (l : line) (k : M B) (r : result B)
    (o : list line) :
  stdout l = Ok tt -> k = (r, o) -> bind (print stdout l) (fun _ => k) = (r, l :: o).
Proof. intros Hl ->. unfold print. rewrite Hl. reflexivity. Qed.

Lemma bind_print_raise {B} (stdout : console) (l : line) (k : M B) (e : exn) :
  stdout l = Raise e -> bind (print stdout l) (fun _ => k) = (Raise e, []).
Proof. intros Hl. unfold print. rewrite Hl. reflexivity. Qed.

Lemma bind_print_congr {B} (stdout : console) (l : line) (k k' : M B) :
  k = k' -> bind (print stdout l) (fun _ => k) = bind (print stdout l) (fun _ => k').
Proof. intros ->. reflexivity. Qed.

Lemma bind_ok {A B} (m : M A) (f : A -> M B) (a : A) (o1 : list line) :
  m = (Ok a, o1) -> bind m f = (fst (f a), o1 ++ snd (f a)).
Proof. intros ->. simpl. destruct (f a); reflexivity. Qed.

Lemma bind_lift_ok {A B} (r : result A) (f : A -> M B) (a : A) :
  r = Ok a -> bind (lift r) f = f a.
Proof. intros ->. simpl. destruct (f a); reflexivity. Qed.

Lemma bind_pure {A B} (m : M A) (f : A -> M B) (a : A) :
  m = (Ok a, []) -> bind m f = f a.
Proof. intros ->. simpl. destruct (f a); reflexivity. Qed.

(** A loop whose body keeps an invariant and neither raises nor prints
    does the same. *)
Lemma foldM_invariant {A B} (P : A -> Prop) (f : A -> B -> M A) (xs : list B) :
  (forall a x, P a -> exists a', f a x = (Ok a', []) /\ P a') ->
  forall a, P a -> exists a', foldM f xs a = (Ok a', []) /\ P a'.
Proof.
  intros Hf. induction xs as [| x xs IH]; intros a Ha; simpl.
  - exists a. split; [reflexivity | exact Ha].
  - destruct (Hf a x Ha) as (a1 & Hstep & Ha1).
    rewrite (bind_pure _ _ _ Hstep). apply IH. exact Ha1.
Qed.

(** A handler for [Exception] leaves nothing to propagate. *)
Lemma try_except_catch_all {A} (body : M A) (hs : list (exn_class * (exn -> M A))) :
  (forall e, exists h, select_handler hs e = Some h /\ exists a o, h = (Ok a, o)) ->
  exists a o, try_except body hs = (Ok a, o).
Proof.
  intros Hh. destruct body as [[a | e] out]; simpl.
  - exists a, out. reflexivity.
  - destruct (Hh e) as (h & -> & a & o & ->). exists a, (out ++ o). reflexivity.
Qed.

End MFacts.

(** ** The validator *)

Module ValidatorFacts.
Import Py Validator ValidatorSpec MFacts.

Lemma forallb_app_true {A} (p : A -> bool) (l1 l2 : list A) :
  forallb p (l1 ++ l2) = true <-> forallb p l1 = true /\ forallb p l2 = true.
Proof. rewrite forallb_app, andb_true_iff. reflexivity. Qed.

(** The inner loop body, case by case. *)
Lemma collect_operation_eq (tags : list value) (operation : value) :
  collect_operation tags operation =
  match operation with
  | VDict d =>
      match lookup "tags" d with
      | Some t =>
          match py_iter t with
          | Ok items =>
              if forallb hashable items then (Ok (tags ++ items), [])
              else (Raise TypeError, [])
          | Raise e => (Raise e, [])
          end
      | None => (Ok tags, [])
      end
  | _ => (Ok tags, [])
  end.
Proof.
  destruct operation; try reflexivity.
  unfold collect_operation. simpl. destruct (lookup "tags" entries) as [t |] eqn:Ht; [| reflexivity].
  simpl. unfold set_update. destruct (py_iter t) as [items | e]; simpl; [| reflexivity].
  destruct (forallb hashable items); reflexivity.
Qed.

Lemma is_str_hashable (items : list value) :
  forallb is_str items = true -> forallb hashable items = true.
Proof.
  induction items as [| v items IH]; simpl; [reflexivity |].
  rewrite !andb_true_iff. intros [Hv Hi]. split; [| auto].
  destruct v; simpl in *; congruence.
Qed.

Lemma collect_operation_ok (acc : list value) (op : value) :
  operation_ok op = true ->
  collect_operation acc op = (Ok (acc ++ operation_tags op), []) /\
  forallb is_str (operation_tags op) = true.
Proof.
  intros Hop. rewrite collect_operation_eq. unfold operation_tags.
  destruct op; try (rewrite app_nil_r; split; reflexivity).
  simpl in Hop. destruct (lookup "tags" entries) as [t |];
    [| rewrite app_nil_r; split; reflexivity].
  unfold tags_ok in Hop. destruct (py_iter t) as [items | e]; [| discriminate].
  rewrite (is_str_hashable _ Hop). split; [reflexivity | exact Hop].
Qed.

Lemma collect_operations_ok (ops : list value) :
  forallb operation_ok ops = true ->
  forall acc,
    foldM collect_operation ops acc = (Ok (acc ++ flat_map operation_tags ops), []) /\
    forallb is_str (flat_map operation_tags ops) = true.
Proof.
  induction ops as [| op ops IH]; simpl; intros Hok acc.
  - rewrite app_nil_r. split; reflexivity.
  - apply andb_true_iff in Hok as [Hop Hops].
    destruct (collect_operation_ok acc op Hop) as (Hstep & Hitems).
    destruct (IH Hops (acc ++ operation_tags op)) as (Hfold & Hitems').
    rewrite (bind_pure _ _ _ Hstep), Hfold, <- app_assoc.
    split; [reflexivity |]. apply forallb_app_true. auto.
Qed.

(** What the loops have collected when they end. *)
Lemma collect_operation_tags (acc : list value) (op : value) (tags : list value)
    (out : list line) :
  collect_operation acc op = (Ok tags, out) ->
  tags = acc ++ operation_tags op /\ out = [].
Proof.
  rewrite collect_operation_eq. unfold operation_tags.
  destruct op; try (intros H; inversion H; subst; rewrite app_nil_r; auto).
  destruct (lookup "tags" entries) as [t |];
    [| intros H; inversion H; subst; rewrite app_nil_r; auto].
  destruct (py_iter t) as [items | e]; [| discriminate].
  destruct (forallb hashable items); [| discriminate].
  intros H. inversion H; subst. auto.
Qed.

Lemma collect_operations_tags (ops : list value) :
  forall acc tags out,
    foldM collect_operation ops acc = (Ok tags, out) ->
    tags = acc ++ flat_map operation_tags ops /\ out = [].
Proof.
  induction ops as [| op ops IH]; simpl; intros acc tags out Hfold.
  - unfold ret in Hfold. inversion Hfold; subst. rewrite app_nil_r. auto.
  - apply bind_ok_inv in Hfold as (acc' & o1 & o2 & Hstep & Hrest & ->).
    apply collect_operation_tags in Hstep as [-> ->].
    apply IH in Hrest as [-> ->]. rewrite <- app_assoc. auto.
Qed.

Lemma collect_paths_tags (objs : list value) :
  forall acc tags out,
    foldM collect_path objs acc = (Ok tags, out) ->
    tags = acc ++ flat_map path_item_tags objs /\ out = [].
Proof.
  induction objs as [| obj objs IH]; simpl; intros acc tags out Hfold.
  - unfold ret in Hfold. inversion Hfold; subst. rewrite app_nil_r. auto.
  - apply bind_ok_inv in Hfold as (acc' & o1 & o2 & Hstep & Hrest & ->).
    unfold collect_path in Hstep.
    apply bind_lift_ok_inv in Hstep as (ops & Hvalues & Hstep).
    destruct obj; try discriminate. simpl in Hvalues. inversion Hvalues; subst ops.
    apply collect_operations_tags in Hstep as [-> ->].
    apply IH in Hrest as [-> ->]. simpl. rewrite <- app_assoc. auto.
Qed.

Lemma collect_operations_inv (ops : list value) :
  forall acc tags out,
    foldM collect_operation ops acc = (Ok tags, out) ->
    forallb is_str tags = true ->
    forallb operation_ok ops = true /\ forallb is_str acc = true.
Proof.
  induction ops as [| op ops IH]; simpl; intros acc tags out Hfold Htags.
  - unfold ret in Hfold. inversion Hfold; subst. auto.
  - apply bind_ok_inv in Hfold as (acc' & o1 & o2 & Hstep & Hrest & ->).
    destruct (IH _ _ _ Hrest Htags) as [Hops Hacc']. rewrite Hops, andb_true_r.
    rewrite collect_operation_eq in Hstep.
    destruct op; try (inversion Hstep; subst; auto).
    simpl. destruct (lookup "tags" entries) as [t |]; [| inversion Hstep; subst; auto].
    unfold tags_ok. destruct (py_iter t) as [items | e]; [| discriminate].
    destruct (forallb hashable items); [| discriminate].
    inversion Hstep; subst. apply forallb_app_true in Hacc'. tauto.
Qed.

Lemma collect_paths_ok (objs : list value) :
  forallb path_item_ok objs = true ->
  forall acc,
    foldM collect_path objs acc = (Ok (acc ++ flat_map path_item_tags objs), []) /\
    forallb is_str (flat_map path_item_tags objs) = true.
Proof.
  induction objs as [| obj objs IH]; simpl; intros Hok acc.
  - rewrite app_nil_r. split; reflexivity.
  - apply andb_true_iff in Hok as [Hobj Hobjs].
    destruct obj; try discriminate. simpl in Hobj.
    unfold collect_path at 1. simpl py_values. rewrite (bind_lift_ok _ _ _ eq_refl).
    destruct (collect_operations_ok _ Hobj acc) as (Hstep & Hitems).
    rewrite (bind_pure _ _ _ Hstep).
    destruct (IH Hobjs (acc ++ flat_map operation_tags (map snd entries)))
      as (Hfold & Hitems').
    rewrite Hfold, <- app_assoc.
    split; [reflexivity |]. apply forallb_app_true. auto.
Qed.

Lemma collect_paths_inv (objs : list value) :
  forall acc tags out,
    foldM collect_path objs acc = (Ok tags, out) ->
    forallb is_str tags = true ->
    forallb path_item_ok objs = true /\ forallb is_str acc = true.
Proof.
  induction objs as [| obj objs IH]; simpl; intros acc tags out Hfold Htags.
  - unfold ret in Hfold. inversion Hfold; subst. auto.
  - apply bind_ok_inv in Hfold as (acc' & o1 & o2 & Hstep & Hrest & ->).
    destruct (IH _ _ _ Hrest Htags) as [Hobjs Hacc']. rewrite Hobjs, andb_true_r.
    unfold collect_path in Hstep.
    apply bind_lift_ok_inv in Hstep as (ops & Hvalues & Hstep).
    destruct obj; try discriminate. simpl in Hvalues. inversion Hvalues; subst.
    simpl. exact (collect_operations_inv _ _ _ _ Hstep Hacc').
Qed.

Lemma bind_lift_eq {A B} (r : result A) (f : A -> M B) (a : A) (res : M B) :
  r = Ok a -> f a = res -> bind (lift r) f = res.
Proof. intros -> <-. simpl. destruct (f a); reflexivity. Qed.

Lemma bind_pure_eq {A B} (m : M A) (f : A -> M B) (a : A) (res : M B) :
  m = (Ok a, []) -> f a = res -> bind m f = res.
Proof. intros -> <-. simpl. destruct (f a); reflexivity. Qed.

Tactic Notation "step_lift" hyp(H) "as" ident(a) ident(Ha) :=
  apply bind_lift_ok_inv in H as (a & Ha & H).

Tactic Notation "step_print" hyp(H) "as" ident(Hl) :=
  let o := fresh "o" in
  let Ho := fresh "Ho" in
  apply bind_print_ok_inv in H as (Hl & o & H & Ho); subst.

Lemma getitem_ok_inv (x : value) (k : string) (v : value) :
  getitem x k = Ok v -> exists d, x = VDict d /\ lookup k d = Some v.
Proof.
  destruct x; simpl; try discriminate. intros H. exists entries. split; [reflexivity |].
  destruct (lookup k entries); congruence.
Qed.

Lemma printable_ok (stdout : console) (l : line) :
  printable stdout l = true <-> stdout l = Ok tt.
Proof.
  unfold printable. destruct (stdout l) as [[] | e]; split; congruence.
Qed.

(** The last stage of the report: the tags are collected, sorted and
    printed. *)
Lemma tags_stage_ok (stdout : console) (objs : list value) (l : line) :
  forallb path_item_ok objs = true ->
  l = [FLit "   Tags: ";
       FLit (String.concat ", "
               (fold_right insert_sorted [] (map str_of (flat_map path_item_tags objs))))] ->
  stdout l = Ok tt ->
  (tags <- foldM collect_path objs [] ;;
   joined <- join_sorted tags ;;
   print stdout [FLit "   Tags: "; FLit joined] ;;; ret true) = (Ok true, [l]).
Proof.
  intros Hok -> Hl. destruct (collect_paths_ok _ Hok []) as (Hfold & Hstr).
  simpl in Hfold. eapply bind_pure_eq; [exact Hfold | cbv beta].
  unfold join_sorted. rewrite Hstr.
  eapply bind_pure_eq; [reflexivity | cbv beta].
  apply bind_print_eq; [exact Hl | reflexivity].
Qed.

Lemma tags_stage_inv (stdout : console) (objs : list value) (b : bool) (out : list line) :
  (tags <- foldM collect_path objs [] ;;
   joined <- join_sorted tags ;;
   print stdout [FLit "   Tags: "; FLit joined] ;;; ret true) = (Ok b, out) ->
  b = true /\
  forallb path_item_ok objs = true /\
  out = [[FLit "   Tags: ";
          FLit (String.concat ", "
                  (fold_right insert_sorted []
                     (map str_of (flat_map path_item_tags objs))))]] /\
  forallb (printable stdout) out = true.
Proof.
  intros H.
  apply bind_ok_inv in H as (tags & o1 & o2 & Hfold & H & ->).
  apply bind_ok_inv in H as (joined & o3 & o4 & Hjoin & H & ->).
  step_print H as Hl. unfold ret in H. inversion H; subst b o.
  unfold join_sorted in Hjoin.
  destruct (forallb is_str tags) eqn:Hstr; [| discriminate].
  unfold ret in Hjoin. inversion Hjoin; subst joined o3.
  destruct (collect_paths_inv _ _ _ _ Hfold Hstr) as [Hitems _].
  apply collect_paths_tags in Hfold as [-> ->]. cbn [app] in *.
  apply printable_ok in Hl.
  repeat split; [exact Hitems |]. cbn [forallb]. rewrite Hl. reflexivity.
Qed.

(** What [len(spec.get('components', {}).get('schemas', {}))] yields. *)
Lemma schemas_counted (d : list (value * value)) :
  components_ok d = true ->
  exists components schemas,
    get_default (VDict d) "components" (VDict []) = Ok components /\
    get_default components "schemas" (VDict []) = Ok schemas /\
    py_len schemas = Ok (schemas_count d).
Proof.
  unfold components_ok, schemas_count. intros Hcomponents. simpl.
  destruct (lookup "components" d) as [[| | | | | | c] |];
    try discriminate Hcomponents.
  - destruct (lookup "schemas" c) as [schemas |] eqn:Hs.
    + unfold sized in Hcomponents.
      destruct (py_len schemas) as [n |] eqn:Hn; [| discriminate Hcomponents].
      exists (VDict c), schemas. simpl. rewrite Hs. auto.
    + exists (VDict c), (VDict []). simpl. rewrite Hs. auto.
  - exists (VDict []), (VDict []). auto.
Qed.

Lemma schemas_counted_inv (d : list (value * value)) (components schemas : value) (n : nat) :
  get_default (VDict d) "components" (VDict []) = Ok components ->
  get_default components "schemas" (VDict []) = Ok schemas ->
  py_len schemas = Ok n ->
  components_ok d = true /\ n = schemas_count d.
Proof.
  unfold components_ok, schemas_count. simpl. intros Hcomponents Hschemas Hn.
  destruct (lookup "components" d) as [c |].
  - inversion Hcomponents; subst components; clear Hcomponents.
    destruct c as [| | | | | | cd]; try discriminate.
    simpl in Hschemas. destruct (lookup "schemas" cd) as [sch |].
    + inversion Hschemas; subst schemas. unfold sized. rewrite Hn. auto.
    + inversion Hschemas; subst schemas. simpl in Hn. inversion Hn. auto.
  - inversion Hcomponents; subst components. simpl in Hschemas.
    inversion Hschemas; subst schemas. simpl in Hn. inversion Hn. auto.
Qed.

(** The report, once the document is known to have what the report reads:
    six calls of [print], then the tags. *)
Lemma report_eq (stdout : console) (d info paths : list (value * value))
    (version title api_version : value) :
  lookup "openapi" d = Some version ->
  lookup "info" d = Some (VDict info) ->
  lookup "title" info = Some title ->
  lookup "version" info = Some api_version ->
  lookup "paths" d = Some (VDict paths) ->
  components_ok d = true ->
  report stdout (VDict d) =
    (print stdout [FLit "✅ OpenAPI specification is valid"] ;;;
     print stdout [FLit "   Version: "; FVal version] ;;;
     print stdout [FLit "   Title: "; FVal title] ;;;
     print stdout [FLit "   API Version: "; FVal api_version] ;;;
     print stdout [FLit "   Paths: "; FNat (List.length paths)] ;;;
     print stdout [FLit "   Schemas: "; FNat (schemas_count d)] ;;;
     tags <- foldM collect_path (map snd paths) [] ;;
     joined <- join_sorted tags ;;
     print stdout [FLit "   Tags: "; FLit joined] ;;; ret true).
Proof.
  intros Hopenapi Hinfo Htitle Hversion Hpaths Hcomponents.
  destruct (schemas_counted d Hcomponents) as (components & schemas & Hc1 & Hc2 & Hc3).
  unfold report.
  eapply bind_lift_eq; [simpl; rewrite Hpaths; reflexivity | cbv beta].
  eapply bind_lift_eq; [reflexivity | cbv beta].
  eapply bind_lift_eq; [exact Hc1 | cbv beta].
  eapply bind_lift_eq; [exact Hc2 | cbv beta].
  eapply bind_lift_eq; [exact Hc3 | cbv beta].
  apply bind_print_congr.
  eapply bind_lift_eq; [simpl; rewrite Hopenapi; reflexivity | cbv beta].
  apply bind_print_congr.
  eapply bind_lift_eq; [simpl; rewrite Hinfo; reflexivity | cbv beta].
  eapply bind_lift_eq; [simpl; rewrite Htitle; reflexivity | cbv beta].
  apply bind_print_congr.
  eapply bind_lift_eq; [simpl; rewrite Hinfo; reflexivity | cbv beta].
  eapply bind_lift_eq; [simpl; rewrite Hversion; reflexivity | cbv beta].
  apply bind_print_congr. apply bind_print_congr. apply bind_print_congr.
  eapply bind_lift_eq; [simpl; rewrite Hpaths; reflexivity | cbv beta].
  eapply bind_lift_eq; [reflexivity | cbv beta].
  reflexivity.
Qed.

(** The report of an accepted document. *)
Lemma report_accepts (stdout : console) (spec : value) :
  has_required_items spec = true ->
  well_formed spec = true ->
  forallb (printable stdout) (report_lines spec) = true ->
  report stdout spec = (Ok true, report_lines spec).
Proof.
  destruct spec as [| | | | | | d]; try discriminate.
  unfold has_required_items, well_formed, report_lines.
  destruct (lookup "openapi" d) as [[| | | | version | |] |] eqn:Hopenapi; try discriminate.
  destruct (lookup "info" d) as [[| | | | | | info] |] eqn:Hinfo; try discriminate.
  destruct (lookup "paths" d) as [[| | | | | | paths] |] eqn:Hpaths; try discriminate.
  destruct (lookup "title" info) as [title |] eqn:Htitle;
    [| rewrite andb_false_r; discriminate].
  destruct (lookup "version" info) as [api_version |] eqn:Hversion;
    [| rewrite andb_false_r; discriminate].
  intros _ Hwf Hprint. apply andb_true_iff in Hwf as [Hitems Hcomponents].
  rewrite (report_eq stdout d info paths (VStr version) title api_version
             Hopenapi Hinfo Htitle Hversion Hpaths Hcomponents).
  unfold accepted_report in *. cbn [forallb] in Hprint.
  repeat (apply andb_true_iff in Hprint as [?Hl Hprint]).
  apply printable_ok in Hl, Hl0, Hl1, Hl2, Hl3, Hl4, Hl5.
  apply bind_print_eq; [exact Hl |]. apply bind_print_eq; [exact Hl0 |].
  apply bind_print_eq; [exact Hl1 |]. apply bind_print_eq; [exact Hl2 |].
  apply bind_print_eq; [exact Hl3 |]. apply bind_print_eq; [exact Hl4 |].
  apply (tags_stage_ok stdout _ _ Hitems eq_refl Hl5).
Qed.

(** A document whose report ends with [return True] is well formed, and
    what has been printed is its report. *)
Lemma report_inv (stdout : console) (spec : value) (out : list line) :
  report stdout spec = (Ok true, out) ->
  well_formed spec = true /\
  out = report_lines spec /\
  forallb (printable stdout) out = true /\
  exists d info,
    spec = VDict d /\ lookup "info" d = Some (VDict info) /\
    ValidatorSpec.is_some (lookup "title" info) = true /\
    ValidatorSpec.is_some (lookup "version" info) = true.
Proof.
  unfold report. intros H.
  step_lift H as paths Hpaths. step_lift H as paths_count Hcount.
  step_lift H as components Hcomponents. step_lift H as schemas Hschemas.
  step_lift H as schemas_count Hscount. step_print H as Hl1.
  step_lift H as version Hopenapi. step_print H as Hl2.
  step_lift H as info Hinfo. step_lift H as title Htitle. step_print H as Hl3.
  step_lift H as info' Hinfo'. step_lift H as api_version Hversion.
  step_print H as Hl4. step_print H as Hl5. step_print H as Hl6.
  step_lift H as paths' Hpaths'. step_lift H as path_objs Hobjs.
  apply tags_stage_inv in H as (_ & Hitems & -> & Hl7).
  apply getitem_ok_inv in Hopenapi as (d & -> & Hopenapi).
  apply getitem_ok_inv in Hinfo as (d' & Hd' & Hinfo). inversion Hd'; subst d'; clear Hd'.
  apply getitem_ok_inv in Htitle as (i & -> & Htitle).
  apply getitem_ok_inv in Hinfo' as (d' & Hd' & Hinfo'). inversion Hd'; subst d'; clear Hd'.
  rewrite Hinfo in Hinfo'. inversion Hinfo'; subst info'; clear Hinfo'.
  apply getitem_ok_inv in Hversion as (i' & Hi' & Hversion). inversion Hi'; subst i'; clear Hi'.
  apply getitem_ok_inv in Hpaths' as (d' & Hd' & Hpaths'). inversion Hd'; subst d'; clear Hd'.
  destruct paths' as [| | | | | | ps]; try discriminate.
  simpl in Hobjs. inversion Hobjs; subst path_objs; clear Hobjs.
  simpl in Hpaths. rewrite Hpaths' in Hpaths. inversion Hpaths; subst paths; clear Hpaths.
  simpl in Hcount. inversion Hcount; subst paths_count; clear Hcount.
  destruct (schemas_counted_inv _ _ _ _ Hcomponents Hschemas Hscount) as [Hc ->].
  split; [| split; [| split]].
  - unfold well_formed. rewrite Hpaths', Hitems, Hc. reflexivity.
  - unfold report_lines. rewrite Hopenapi, Hinfo, Hpaths', Htitle, Hversion. reflexivity.
  - apply printable_ok in Hl1, Hl2, Hl3, Hl4, Hl5, Hl6. cbn [forallb].
    rewrite Hl1, Hl2, Hl3, Hl4, Hl5, Hl6. exact Hl7.
  - exists d, i. rewrite Htitle, Hversion. auto.
Qed.

(** A failure message followed by [return False]. *)
Lemma print_false_inv (stdout : console) (l : line) (b : bool) (out : list line) :
  (print stdout l ;;; ret false) = (Ok b, out) ->
  b = false /\ out = [l] /\ stdout l = Ok tt.
Proof.
  intros H. step_print H as Hl. unfold ret in H. inversion H; subst. auto.
Qed.

Lemma print_false_eq (stdout : console) (l : line) :
  (print stdout l ;;; ret false) =
  match stdout l with
  | Ok _ => (Ok false, [l])
  | Raise e => (Raise e, [])
  end.
Proof. unfold bind, print, ret. destruct (stdout l); reflexivity. Qed.

Lemma validate_loaded_accepts (stdout : console) (spec : value) :
  has_required_items spec = true -> validate_loaded stdout spec = report stdout spec.
Proof.
  destruct spec as [| | | | | | d]; try discriminate.
  unfold has_required_items.
  destruct (lookup "openapi" d) as [[| | | | version | |] |] eqn:Hopenapi; try discriminate.
  destruct (lookup "info" d) as [[| | | | | | info] |] eqn:Hinfo; try discriminate.
  destruct (lookup "paths" d) as [paths |] eqn:Hpaths; try discriminate.
  destruct (startswith version "3.") eqn:Hstart; try discriminate.
  destruct (lookup "title" info) as [title |] eqn:Htitle; try discriminate.
  destruct (lookup "version" info) as [api_version |] eqn:Hversion; try discriminate.
  intros _. unfold validate_loaded, check_version, required_fields, info_required.
  generalize (report stdout (VDict d)). intros m.
  cbn [check_required check_info].
  repeat (eapply bind_lift_eq;
          [simpl; rewrite ?Hopenapi, ?Hinfo, ?Hpaths, ?Hstart, ?Htitle, ?Hversion; reflexivity
          | cbv beta; cbn [negb]; cbv iota]).
  reflexivity.
Qed.

Lemma validate_loaded_inv (stdout : console) (spec : value) (out : list line) :
  validate_loaded stdout spec = (Ok true, out) ->
  has_required_items spec = true /\ report stdout spec = (Ok true, out).
Proof.
  unfold validate_loaded, check_version, required_fields, info_required.
  cbn [check_required check_info]. intros H.
  step_lift H as p1 Hp1. destruct p1; cbn [negb] in H; cbv iota in H;
    [| apply print_false_inv in H as [H _]; discriminate H].
  step_lift H as p2 Hp2. destruct p2; cbn [negb] in H; cbv iota in H;
    [| apply print_false_inv in H as [H _]; discriminate H].
  step_lift H as p3 Hp3. destruct p3; cbn [negb] in H; cbv iota in H;
    [| apply print_false_inv in H as [H _]; discriminate H].
  step_lift H as openapi Hopenapi. step_lift H as is3 His3.
  destruct is3; cbn [negb] in H; cbv iota in H;
    [| apply print_false_inv in H as [H _]; discriminate H].
  step_lift H as info1 Hinfo1. step_lift H as p4 Hp4.
  destruct p4; cbn [negb] in H; cbv iota in H;
    [| apply print_false_inv in H as [H _]; discriminate H].
  step_lift H as info2 Hinfo2. step_lift H as p5 Hp5.
  destruct p5; cbn [negb] in H; cbv iota in H;
    [| apply print_false_inv in H as [H _]; discriminate H].
  split; [| exact H].
  destruct (report_inv _ _ _ H) as (_ & _ & _ & d & info & -> & Hinfo & Htitle & Hversion).
  unfold has_required_items. rewrite Hinfo.
  simpl in Hopenapi. destruct (lookup "openapi" d) as [version |]; [| discriminate].
  inversion Hopenapi; subst openapi. destruct version; try discriminate.
  simpl in His3. assert (Hstart : startswith s "3." = true) by congruence.
  simpl in Hp3. destruct (lookup "paths" d); [| discriminate].
  rewrite Hstart, Htitle, Hversion. reflexivity.
Qed.

Lemma report_never_false (stdout : console) (spec : value) (out : list line) :
  report stdout spec = (Ok false, out) -> False.
Proof.
  unfold report. intros H.
  step_lift H as paths Hpaths. step_lift H as paths_count Hcount.
  step_lift H as components Hcomponents. step_lift H as schemas Hschemas.
  step_lift H as schemas_count Hscount. step_print H as Hl1.
  step_lift H as version Hopenapi. step_print H as Hl2.
  step_lift H as info Hinfo. step_lift H as title Htitle. step_print H as Hl3.
  step_lift H as info' Hinfo'. step_lift H as api_version Hversion.
  step_print H as Hl4. step_print H as Hl5. step_print H as Hl6.
  step_lift H as paths' Hpaths'. step_lift H as path_objs Hobjs.
  apply tags_stage_inv in H as (H & _). discriminate H.
Qed.

(** When the checks return False they have printed one failure message. *)
Lemma validate_loaded_false (stdout : console) (spec : value) (out : list line) :
  validate_loaded stdout spec = (Ok false, out) ->
  exists l, out = [l] /\ failure_line l = true /\ stdout l = Ok tt.
Proof.
  unfold validate_loaded, check_version, required_fields, info_required.
  cbn [check_required check_info]. intros H.
  step_lift H as p1 Hp1. destruct p1; cbn [negb] in H; cbv iota in H;
    [| apply print_false_inv in H as (_ & -> & Hl); eexists; repeat split; exact Hl].
  step_lift H as p2 Hp2. destruct p2; cbn [negb] in H; cbv iota in H;
    [| apply print_false_inv in H as (_ & -> & Hl); eexists; repeat split; exact Hl].
  step_lift H as p3 Hp3. destruct p3; cbn [negb] in H; cbv iota in H;
    [| apply print_false_inv in H as (_ & -> & Hl); eexists; repeat split; exact Hl].
  step_lift H as openapi Hopenapi. step_lift H as is3 His3.
  destruct is3; cbn [negb] in H; cbv iota in H;
    [| apply print_false_inv in H as (_ & -> & Hl); eexists; repeat split; exact Hl].
  step_lift H as info1 Hinfo1. step_lift H as p4 Hp4.
  destruct p4; cbn [negb] in H; cbv iota in H;
    [| apply print_false_inv in H as (_ & -> & Hl); eexists; repeat split; exact Hl].
  step_lift H as info2 Hinfo2. step_lift H as p5 Hp5.
  destruct p5; cbn [negb] in H; cbv iota in H;
    [| apply print_false_inv in H as (_ & -> & Hl); eexists; repeat split; exact Hl].
  destruct (report_never_false _ _ _ H).
Qed.

(** The [try] block: a document is loaded and checked, or loading raises,
    or the suffix is none of the three. *)
Lemma validate_body_cases (stdout : console) (f : file) :
  (exists spec,
     (path_exists f = Ok true -> parsed_document f = Some spec) /\
     validate_body stdout f = validate_loaded stdout spec) \/
  (exists e, validate_body stdout f = (Raise e, []) /\
             (path_exists f = Ok true -> parsed_document f = None)) \/
  (validate_body stdout f =
     (print stdout [FLit "❌ Unsupported file format: "; FLit (path_suffix f)] ;;; ret false) /\
   (path_exists f = Ok true -> parsed_document f = None)).
Proof.
  unfold validate_body, parsed_document.
  destruct (String.eqb (lower (path_suffix f)) ".yaml" || String.eqb (lower (path_suffix f)) ".yml").
  - destruct (yaml_safe_load f) as [spec | e].
    + left. exists spec. split; [intros ->; reflexivity |].
      simpl. destruct (validate_loaded stdout spec); reflexivity.
    + right. left. exists e. split; [reflexivity | intros ->; reflexivity].
  - destruct (String.eqb (lower (path_suffix f)) ".json").
    + destruct (json_load f) as [spec | e].
      * left. exists spec. split; [intros ->; reflexivity |].
        simpl. destruct (validate_loaded stdout spec); reflexivity.
      * right. left. exists e. split; [reflexivity | intros ->; reflexivity].
    + right. right. split; [reflexivity | intros ->; reflexivity].
Qed.

Lemma parsed_document_body (stdout : console) (f : file) (spec : value) :
  parsed_document f = Some spec ->
  path_exists f = Ok true /\ validate_body stdout f = validate_loaded stdout spec.
Proof.
  intros Hdoc.
  assert (Hex : path_exists f = Ok true).
  { unfold parsed_document in Hdoc. destruct (path_exists f) as [[|] | e]; congruence. }
  split; [exact Hex |].
  destruct (validate_body_cases stdout f) as [(spec' & Hs & Hb) | [(e & _ & Hn) | [_ Hn]]].
  - rewrite (Hs Hex) in Hdoc. inversion Hdoc; subst. exact Hb.
  - rewrite (Hn Hex) in Hdoc. discriminate.
  - rewrite (Hn Hex) in Hdoc. discriminate.
Qed.

Lemma handler_line_failure (e : exn) : failure_line (handler_line e) = true.
Proof. destruct e; reflexivity. Qed.

(** What the handlers make of the [try] block. *)
Lemma validate_of_body (stdout : console) (f : file) :
  path_exists f = Ok true ->
  (forall b out, validate_body stdout f = (Ok b, out) ->
     validate_openapi_spec stdout f = (Ok b, out)) /\
  (forall e out, validate_body stdout f = (Raise e, out) ->
     validate_openapi_spec stdout f =
     match stdout (handler_line e) with
     | Ok _ => (Ok false, out ++ [handler_line e])
     | Raise e' => (Raise e', out)
     end).
Proof.
  intros Hex. unfold validate_openapi_spec. rewrite (bind_lift_ok _ _ _ Hex).
  cbn [negb]. cbv iota. split.
  - intros b out ->. reflexivity.
  - intros e out ->.
    destruct e; cbn [try_except select_handler isinstance_exn handler_line];
      rewrite print_false_eq;
      match goal with
      | |- context [stdout ?l] => destruct (stdout l)
      end; rewrite ?app_nil_r; reflexivity.
Qed.

(** The run that returns True. *)
Lemma validate_accepts (stdout : console) (f : file) (spec : value) :
  parsed_document f = Some spec ->
  has_required_items spec = true ->
  well_formed spec = true ->
  forallb (printable stdout) (report_lines spec) = true ->
  validate_openapi_spec stdout f = (Ok true, report_lines spec).
Proof.
  intros Hdoc Hitems Hwf Hprint.
  destruct (parsed_document_body stdout _ _ Hdoc) as [Hex Hbody].
  destruct (validate_of_body stdout f Hex) as [Hok _]. apply Hok.
  rewrite Hbody, (validate_loaded_accepts _ _ Hitems).
  apply report_accepts; assumption.
Qed.

Lemma validate_true_inv (stdout : console) (f : file) (out : list line) :
  validate_openapi_spec stdout f = (Ok true, out) ->
  exists spec,
    parsed_document f = Some spec /\
    has_required_items spec = true /\
    well_formed spec = true /\
    out = report_lines spec /\
    forallb (printable stdout) out = true.
Proof.
  intros H.
  assert (Hex : path_exists f = Ok true).
  { unfold validate_openapi_spec in H. destruct (path_exists f) as [[|] | e]; [reflexivity | |].
    - rewrite (bind_lift_ok _ _ _ eq_refl) in H. cbn [negb] in H. cbv iota in H.
      apply print_false_inv in H as [H _]. discriminate H.
    - discriminate H. }
  destruct (validate_of_body stdout f Hex) as [Hok Hraise].
  destruct (validate_body stdout f) as [[b | e] o] eqn:Hbody.
  - rewrite (Hok _ _ eq_refl) in H. inversion H; subst b o. clear H.
    destruct (validate_body_cases stdout f) as [(spec & Hs & Hb) | [(e & He & _) | [Hu _]]].
    + rewrite Hb in Hbody. destruct (validate_loaded_inv _ _ _ Hbody) as [Hitems Hreport].
      destruct (report_inv _ _ _ Hreport) as (Hwf & Hout & Hprint & _).
      exists spec. auto.
    + rewrite He in Hbody. discriminate.
    + rewrite Hu in Hbody. apply print_false_inv in Hbody as [Hb _]. discriminate Hb.
  - rewrite (Hraise _ _ eq_refl) in H. destruct (stdout (handler_line e)); discriminate H.
Qed.

(** The run that returns False: the last call of [print] is a failure
    message. *)
Lemma validate_false_inv (stdout : console) (f : file) (out : list line) :
  validate_openapi_spec stdout f = (Ok false, out) ->
  exists out' l, out = out' ++ [l] /\ failure_line l = true /\ stdout l = Ok tt.
Proof.
  intros H. destruct (path_exists f) as [[|] | e] eqn:Hex.
  - destruct (validate_of_body stdout f Hex) as [Hok Hraise].
    destruct (validate_body stdout f) as [[b | e] o] eqn:Hbody.
    + rewrite (Hok _ _ eq_refl) in H. inversion H; subst b o. clear H.
      destruct (validate_body_cases stdout f) as [(spec & Hs & Hb) | [(e & He & _) | [Hu _]]].
      * rewrite Hb in Hbody. destruct (validate_loaded_false _ _ _ Hbody) as (l & -> & Hl & Hp).
        exists [], l. auto.
      * rewrite He in Hbody. discriminate.
      * rewrite Hu in Hbody. apply print_false_inv in Hbody as (_ & -> & Hp).
        eexists [], _. repeat split. exact Hp.
    + rewrite (Hraise _ _ eq_refl) in H.
      destruct (stdout (handler_line e)) as [[] |] eqn:Hp; [| discriminate H].
      inversion H; subst out. exists o, (handler_line e).
      repeat split; [apply handler_line_failure | exact Hp].
  - unfold validate_openapi_spec in H. rewrite (bind_lift_ok _ _ _ Hex) in H.
    cbn [negb] in H. cbv iota in H. apply print_false_inv in H as (_ & -> & Hp).
    eexists [], _. repeat split. exact Hp.
  - unfold validate_openapi_spec in H. rewrite Hex in H. discriminate H.
Qed.


(** Collecting the tags prints nothing. *)
Lemma bind_silent {A B} (m : M A) (f : A -> M B) :
  snd m = [] -> (forall a, snd (f a) = []) -> snd (bind m f) = [].
Proof.
  destruct m as [[a | e] o]; simpl; intros -> Hf; [| reflexivity].
  specialize (Hf a). destruct (f a) as [r o']. simpl in *. exact Hf.
Qed.

Lemma collect_operation_silent (acc : list value) (operation : value) :
  snd (collect_operation acc operation) = [].
Proof.
  rewrite collect_operation_eq. destruct operation; try reflexivity.
  destruct (lookup "tags" entries) as [t |]; [| reflexivity].
  destruct (py_iter t) as [items | e]; [| reflexivity].
  destruct (forallb hashable items); reflexivity.
Qed.

Lemma collect_operations_silent (ops : list value) :
  forall acc, snd (foldM collect_operation ops acc) = [].
Proof.
  induction ops as [| op ops IH]; intros acc; simpl; [reflexivity |].
  apply bind_silent; [apply collect_operation_silent | apply IH].
Qed.

Lemma collect_paths_silent (objs : list value) :
  forall acc, snd (foldM collect_path objs acc) = [].
Proof.
  induction objs as [| obj objs IH]; intros acc; simpl; [reflexivity |].
  apply bind_silent; [| apply IH]. unfold collect_path.
  apply bind_silent; [reflexivity | intros ops; apply collect_operations_silent].
Qed.

(** The exceptions that collecting the tags raises. *)
Lemma collect_operation_raises (acc : list value) (operation : value) (e : exn)
    (out : list line) :
  collect_operation acc operation = (Raise e, out) -> e = TypeError.
Proof.
  rewrite collect_operation_eq. destruct operation; try discriminate.
  destruct (lookup "tags" entries) as [t |]; [| discriminate].
  destruct t; simpl; try discriminate; try congruence;
    match goal with
    | |- context [forallb hashable ?l] => destruct (forallb hashable l)
    end; congruence.
Qed.

Lemma collect_operations_raise (ops : list value) :
  forall acc e out, foldM collect_operation ops acc = (Raise e, out) -> e = TypeError.
Proof.
  induction ops as [| op ops IH]; intros acc e out; simpl; [discriminate |].
  destruct (collect_operation acc op) as [[acc' | e'] o] eqn:Hop; simpl.
  - destruct (foldM collect_operation ops acc') as [[r | e''] o'] eqn:Hrest;
      [discriminate |].
    intros H. inversion H; subst. exact (IH _ _ _ Hrest).
  - intros H. inversion H; subst. exact (collect_operation_raises _ _ _ _ Hop).
Qed.

Lemma collect_paths_raise (objs : list value) :
  forall acc e out,
    foldM collect_path objs acc = (Raise e, out) -> e = TypeError \/ e = AttributeError.
Proof.
  induction objs as [| obj objs IH]; intros acc e out; simpl; [discriminate |].
  destruct (collect_path acc obj) as [[acc' | e'] o] eqn:Hobj; simpl.
  - destruct (foldM collect_path objs acc') as [[r | e''] o'] eqn:Hrest;
      [discriminate |].
    intros H. inversion H; subst. exact (IH _ _ _ Hrest).
  - intros H. inversion H; subst. unfold collect_path in Hobj.
    destruct obj; simpl in Hobj; try (right; congruence).
    left. destruct (foldM collect_operation (map snd entries) acc) as [[r | e'] o'] eqn:Hops;
      [discriminate |].
    inversion Hobj; subst. exact (collect_operations_raise _ _ _ _ Hops).
Qed.

(** With a path item or a tag that is not in order, the last stage of the
    report raises and prints nothing. *)
Lemma tags_stage_fails (stdout : console) (objs : list value) :
  forallb path_item_ok objs = false ->
  exists e,
    (e = TypeError \/ e = AttributeError) /\
    (tags <- foldM collect_path objs [] ;;
     joined <- join_sorted tags ;;
     print stdout [FLit "   Tags: "; FLit joined] ;;; ret true) = (Raise e, []).
Proof.
  intros Hbad. pose proof (collect_paths_silent objs []) as Hsilent.
  destruct (foldM collect_path objs []) as [[tags | e] o] eqn:Hfold;
    simpl in Hsilent; subst o.
  - exists TypeError. split; [auto |]. simpl. unfold join_sorted.
    destruct (forallb is_str tags) eqn:Hstr; [| reflexivity].
    destruct (collect_paths_inv _ _ _ _ Hfold Hstr) as [Hok _].
    rewrite Hok in Hbad. discriminate.
  - exists e. split; [exact (collect_paths_raise _ _ _ _ Hfold) | reflexivity].
Qed.

(** Which calls of [print] report a failure. *)
Lemma no_failure_bind {A B} (m : M A) (k : A -> M B) :
  no_failure (snd m) -> (forall a, no_failure (snd (k a))) -> no_failure (snd (bind m k)).
Proof.
  destruct m as [[a | e] o]; simpl; intros Hm Hk; [| exact Hm].
  specialize (Hk a). destruct (k a) as [r o']. simpl in *.
  apply Forall_app. auto.
Qed.

Lemma no_failure_lift {A B} (r : result A) (k : A -> M B) :
  (forall a, no_failure (snd (k a))) -> no_failure (snd (bind (lift r) k)).
Proof. intros Hk. apply no_failure_bind; [constructor | exact Hk]. Qed.

Lemma no_failure_print {B} (stdout : console) (l : line) (k : M B) :
  failure_line l = false -> no_failure (snd k) ->
  no_failure (snd (bind (print stdout l) (fun _ => k))).
Proof.
  intros Hl Hk. apply no_failure_bind; [| intros _; exact Hk].
  unfold print. destruct (stdout l); simpl; repeat constructor. exact Hl.
Qed.

Lemma report_no_failure (stdout : console) (spec : value) :
  no_failure (snd (report stdout spec)).
Proof.
  unfold report.
  repeat first
    [ apply no_failure_lift; intros ?
    | apply no_failure_print; [reflexivity |] ].
  apply no_failure_bind.
  - rewrite collect_paths_silent. constructor.
  - intros tags. apply no_failure_bind.
    + unfold join_sorted. destruct (forallb is_str tags); constructor.
    + intros joined. apply no_failure_print; [reflexivity | constructor].
Qed.

Lemma tidy_lift {A} (r : result A) (k : A -> M bool) :
  (forall a, tidy (k a)) -> tidy (bind (lift r) k).
Proof.
  intros Hk. destruct r as [a | e].
  - rewrite (bind_lift_ok _ _ _ eq_refl). apply Hk.
  - right. split; [discriminate | constructor].
Qed.

Lemma tidy_failure (stdout : console) (l : line) :
  failure_line l = true -> tidy (print stdout l ;;; ret false).
Proof.
  intros Hl. rewrite print_false_eq. destruct (stdout l).
  - left. exists l. auto.
  - right. split; [discriminate | constructor].
Qed.

Lemma tidy_report (stdout : console) (spec : value) : tidy (report stdout spec).
Proof.
  right. split; [| apply report_no_failure].
  destruct (report stdout spec) as [r out] eqn:Hr. simpl. intros ->.
  exact (report_never_false _ _ _ Hr).
Qed.

Lemma tidy_validate_loaded (stdout : console) (spec : value) :
  tidy (validate_loaded stdout spec).
Proof.
  unfold validate_loaded, check_version, required_fields, info_required.
  generalize (report stdout spec) (tidy_report stdout spec). intros m Hm.
  cbn [check_required check_info].
  repeat first
    [ exact Hm
    | apply tidy_lift; intros ?
    | match goal with
      | |- tidy (if negb ?b then _ else _) =>
          destruct (negb b); [apply tidy_failure; reflexivity |]
      end ].
Qed.

Lemma tidy_validate_body (stdout : console) (f : file) : tidy (validate_body stdout f).
Proof.
  unfold validate_body.
  destruct (String.eqb (lower (path_suffix f)) ".yaml" || String.eqb (lower (path_suffix f)) ".yml").
  - apply tidy_lift. intros spec. apply tidy_validate_loaded.
  - destruct (String.eqb (lower (path_suffix f)) ".json").
    + apply tidy_lift. intros spec. apply tidy_validate_loaded.
    + apply tidy_failure. reflexivity.
Qed.

(** The value that the validator returns and its calls of [print]. *)
Lemma validate_indicates (stdout : console) (f : file) (r : result bool) (out : list line) :
  validate_openapi_spec stdout f = (r, out) ->
  (r = Ok false ->
   exists out' l, out = out' ++ [l] /\ failure_line l = true /\ no_failure out') /\
  (r <> Ok false -> no_failure out).
Proof.
  intros H. destruct (path_exists f) as [[|] | e] eqn:Hex.
  - destruct (validate_of_body stdout f Hex) as [Hok Hraise].
    destruct (tidy_validate_body stdout f) as [(l & Hbody & Hl) | [Hnot Hquiet]].
    + rewrite (Hok _ _ Hbody) in H. inversion H; subst r out. split; [| congruence].
      intros _. exists [], l. repeat split; [exact Hl | constructor].
    + destruct (validate_body stdout f) as [[b | e] o] eqn:Hbody; simpl in Hnot, Hquiet.
      * rewrite (Hok _ _ eq_refl) in H. inversion H; subst r out.
        split; [congruence | intros _; exact Hquiet].
      * rewrite (Hraise _ _ eq_refl) in H.
        destruct (stdout (handler_line e)); inversion H; subst r out.
        -- split; [| congruence]. intros _. exists o, (handler_line e).
           repeat split; [apply handler_line_failure | exact Hquiet].
        -- split; [discriminate | intros _; exact Hquiet].
  - unfold validate_openapi_spec in H. rewrite (bind_lift_ok _ _ _ Hex) in H.
    cbn [negb] in H. cbv iota in H. rewrite print_false_eq in H.
    destruct (stdout _); inversion H; subst r out.
    + split; [| congruence]. intros _. eexists [], _. repeat split. constructor.
    + split; [discriminate | intros _; constructor].
  - unfold validate_openapi_spec in H. rewrite Hex in H.
    unfold bind, lift in H. inversion H; subst r out.
    split; [discriminate | intros _; constructor].
Qed.

End ValidatorFacts.

(** ** Dictionaries *)

Module DictFacts.
Import Py GeneratorSpec.

Lemma is_key_refl (k : string) : is_key k (VStr k) = true.
Proof. simpl. apply String.eqb_refl. Qed.

Lemma is_key_true (k : string) (v : value) : is_key k v = true -> v = VStr k.
Proof.
  destruct v; simpl; try discriminate. intros H. apply String.eqb_eq in H. congruence.
Qed.

Lemma lookup_assign_same (k : string) (v : value) (d : list (value * value)) :
  lookup k (assign k v d) = Some v.
Proof.
  induction d as [| [k' v'] d IH]; simpl.
  - rewrite String.eqb_refl. reflexivity.
  - destruct (is_key k k') eqn:Hk; simpl; rewrite Hk; [reflexivity | exact IH].
Qed.

Lemma lookup_assign_other (k k' : string) (v : value) (d : list (value * value)) :
  k <> k' -> lookup k' (assign k v d) = lookup k' d.
Proof.
  intros Hne. induction d as [| [k0 v0] d IH]; simpl.
  - destruct (String.eqb k k') eqn:Hk; [apply String.eqb_eq in Hk; contradiction | reflexivity].
  - destruct (is_key k k0) eqn:Hk; simpl.
    + apply is_key_true in Hk. subst k0. simpl.
      destruct (String.eqb k k') eqn:Hk'; [apply String.eqb_eq in Hk'; contradiction |].
      reflexivity.
    + rewrite IH. reflexivity.
Qed.

Lemma assign_assign (k : string) (v1 v2 : value) (d : list (value * value)) :
  assign k v2 (assign k v1 d) = assign k v2 d.
Proof.
  induction d as [| [k' v'] d IH]; simpl.
  - rewrite String.eqb_refl. reflexivity.
  - destruct (is_key k k') eqn:Hk; simpl; rewrite Hk; [reflexivity | rewrite IH; reflexivity].
Qed.

Lemma path_items_assign (k : string) (entries : list (value * value))
    (paths : list (value * value)) :
  path_items paths -> path_items (assign k (VDict entries) paths).
Proof.
  unfold path_items. induction paths as [| [k' v'] paths IH]; simpl; intros H.
  - constructor; [reflexivity | constructor].
  - inversion H; subst. destruct (is_key k k'); constructor; auto.
Qed.

Lemma path_items_lookup (k : string) (v : value) (paths : list (value * value)) :
  path_items paths -> lookup k paths = Some v -> exists entries, v = VDict entries.
Proof.
  unfold path_items. induction paths as [| [k' v'] paths IH]; simpl; intros H Hl.
  - discriminate.
  - inversion H; subst. destruct (is_key k k').
    + inversion Hl; subst. simpl in H2. destruct v; try discriminate. eauto.
    + auto.
Qed.

Lemma set_schema_shape (info servers : value) (paths schemas : list (value * value))
    (security : value) (k : string) (v : value) :
  setitem_at (shape info servers paths schemas security) ["components"; "schemas"] k v =
  Ok (shape info servers paths (assign k v schemas) security).
Proof. reflexivity. Qed.

Lemma set_in_schema_shape (info servers : value) (paths schemas : list (value * value))
    (security : value) (name k : string) (v : value) (entries : list (value * value)) :
  lookup name schemas = Some (VDict entries) ->
  setitem_at (shape info servers paths schemas security)
    ["components"; "schemas"; name] k v =
  Ok (shape info servers paths (assign name (VDict (assign k v entries)) schemas) security).
Proof.
  intros Hl. unfold shape. simpl. rewrite Hl. reflexivity.
Qed.

Lemma set_path_shape (info servers : value) (paths schemas : list (value * value))
    (security : value) (k : string) (v : value) :
  setitem_at (shape info servers paths schemas security) ["paths"] k v =
  Ok (shape info servers (assign k v paths) schemas security).
Proof. reflexivity. Qed.

Lemma set_in_path_shape (info servers : value) (paths schemas : list (value * value))
    (security : value) (path k : string) (v : value) (entries : list (value * value)) :
  lookup path paths = Some (VDict entries) ->
  setitem_at (shape info servers paths schemas security) ["paths"; path] k v =
  Ok (shape info servers (assign path (VDict (assign k v entries)) paths) schemas security).
Proof.
  intros Hl. unfold shape. simpl. rewrite Hl. reflexivity.
Qed.

Lemma paths_of_shape (info servers : value) (paths schemas : list (value * value))
    (security : value) :
  getitem (shape info servers paths schemas security) "paths" = Ok (VDict paths).
Proof. reflexivity. Qed.

(** What [store_schema] does to a specification object. *)
Lemma store_schema_shape (info servers : value) (paths schemas : list (value * value))
    (security : value) (entity_name : string) (description : value)
    (properties : list (value * value)) (required_props : list string) :
  Common.store_schema (shape info servers paths schemas security)
    entity_name description properties required_props =
  (Ok (shape info servers paths
         (assign entity_name (schema_of description properties required_props) schemas)
         security), []).
Proof.
  unfold Common.store_schema, schema_of. rewrite set_schema_shape.
  rewrite (MFacts.bind_lift_ok _ _ _ eq_refl).
  destruct required_props as [| r rs]; [reflexivity |].
  unfold obj. rewrite (set_in_schema_shape _ _ _ _ _ _ _ _ _ (lookup_assign_same _ _ _)).
  rewrite assign_assign. reflexivity.
Qed.

(** What the body of the loop over the endpoints does to one. *)
Lemma store_operation_shape (info servers : value) (paths schemas : list (value * value))
    (security : value) (path method : string) (operation : value) :
  path_items paths ->
  (spec <- Common.ensure_path (shape info servers paths schemas security) path ;;
   lift (setitem_at spec ["paths"; path] method operation)) =
  (Ok (shape info servers (store_operation paths path method operation) schemas security), [])
  /\ path_items (store_operation paths path method operation).
Proof.
  intros Hitems. split; [| apply path_items_assign; exact Hitems].
  unfold Common.ensure_path, store_operation, entries_at.
  rewrite paths_of_shape, (MFacts.bind_lift_ok _ _ _ eq_refl).
  simpl py_in. rewrite (MFacts.bind_lift_ok _ _ _ eq_refl).
  destruct (lookup path paths) as [v |] eqn:Hl.
  - destruct (path_items_lookup _ _ _ Hitems Hl) as (entries & ->).
    simpl negb. cbv iota. unfold ret. rewrite (MFacts.bind_pure _ _ _ eq_refl).
    rewrite (set_in_path_shape _ _ _ _ _ _ _ _ _ Hl). reflexivity.
  - simpl negb. cbv iota. rewrite set_path_shape.
    rewrite (MFacts.bind_lift_ok _ _ _ eq_refl).
    rewrite (set_in_path_shape _ _ _ _ _ _ _ _ _ (lookup_assign_same _ _ _)).
    rewrite assign_assign. reflexivity.
Qed.

End DictFacts.

(** ** The loops of [generate_openapi_spec] *)

Module GeneratorFacts.
Import Py GeneratorSpec DictFacts MFacts.

Lemma foldM_schemas {X : Type} (f : value -> X -> M value)
    (key : X -> string) (val : X -> value) :
  (forall info servers paths schemas security x,
     f (shape info servers paths schemas security) x =
     (Ok (shape info servers paths (assign (key x) (val x) schemas) security), [])) ->
  forall xs info servers paths schemas security,
    foldM f xs (shape info servers paths schemas security) =
    (Ok (shape info servers paths (store_all key val xs schemas) security), []).
Proof.
  intros Hf. induction xs as [| x xs IH]; intros; simpl.
  - reflexivity.
  - rewrite (bind_pure _ _ _ (Hf _ _ _ _ _ _)). apply IH.
Qed.

Lemma foldM_paths {X : Type} (f : value -> X -> M value)
    (path method : X -> string) (operation : X -> value) :
  (forall info servers paths schemas security x,
     path_items paths ->
     f (shape info servers paths schemas security) x =
     (Ok (shape info servers (store_operation paths (path x) (method x) (operation x))
            schemas security), [])) ->
  forall xs info servers paths schemas security,
    path_items paths ->
    foldM f xs (shape info servers paths schemas security) =
    (Ok (shape info servers (store_operations path method operation xs paths)
           schemas security), []).
Proof.
  intros Hf. induction xs as [| x xs IH]; intros info servers paths schemas security Hitems;
    simpl.
  - reflexivity.
  - rewrite (bind_pure _ _ _ (Hf _ _ _ _ _ _ Hitems)). apply IH.
    apply path_items_assign. exact Hitems.
Qed.

Lemma shape_document_form (info servers : value) (paths schemas : list (value * value))
    (security : value) :
  document_form (shape info servers paths schemas security).
Proof.
  unfold document_form. split; [reflexivity |]. split.
  - intros k Hk. simpl in Hk.
    destruct Hk as [<- | [<- | [<- | [<- | [<- | []]]]]]; reflexivity.
  - eexists. split; [reflexivity |]. split; reflexivity.
Qed.

(** *** The sample generator *)

Lemma sample_add_schema info servers paths schemas security
    (item : string * EntityInfo.t PropertyInfo.t) :
  Sample.add_schema (shape info servers paths schemas security) item =
  (Ok (shape info servers paths
         (assign (fst item) (sample_entity_schema (snd item)) schemas) security), []).
Proof.
  destruct item as [entity_name entity]. unfold Sample.add_schema, sample_entity_schema.
  simpl fst. simpl snd.
  destruct (fold_left Sample.add_property (EntityInfo.properties entity) ([], []))
    as [properties required_props].
  apply store_schema_shape.
Qed.

Lemma sample_add_path info servers paths schemas security (endpoint : EndpointInfo.t) :
  path_items paths ->
  Sample.add_path (shape info servers paths schemas security) endpoint =
  (Ok (shape info servers
         (store_operation paths (sample_path endpoint) (EndpointInfo.method endpoint)
            (Sample.operation_of endpoint))
         schemas security), []).
Proof. intros Hitems. apply store_operation_shape. exact Hitems. Qed.

Lemma sample_generate (self : Sample.MastodonDocsGenerator.t) :
  Sample.generate_openapi_spec self =
  (Ok (shape (info_of Sample.initial_spec) Common.servers
         (store_operations sample_path EndpointInfo.method Sample.operation_of
            (Sample.MastodonDocsGenerator.endpoints self) [])
         (store_all fst (fun item => sample_entity_schema (snd item))
            (Sample.MastodonDocsGenerator.entities self) [])
         (security_of Sample.initial_spec)), []).
Proof.
  unfold Sample.generate_openapi_spec.
  change Sample.initial_spec with
    (shape (info_of Sample.initial_spec) Common.servers [] []
       (security_of Sample.initial_spec)) at 1.
  rewrite (bind_pure _ _ _ (foldM_schemas _ _ _ sample_add_schema _ _ _ _ _ _)).
  rewrite (bind_pure _ _ _ (foldM_paths _ _ _ _ sample_add_path _ _ _ _ _ _ (Forall_nil _))).
  reflexivity.
Qed.

(** *** The comprehensive generator *)

Lemma comprehensive_add_schema info servers paths schemas security
    (item : string * EntityInfo.t Comprehensive.PropertyInfo.t) :
  Comprehensive.add_schema (shape info servers paths schemas security) item =
  (Ok (shape info servers paths
         (assign (fst item) (comprehensive_entity_schema (snd item)) schemas) security), []).
Proof.
  destruct item as [entity_name entity].
  unfold Comprehensive.add_schema, comprehensive_entity_schema.
  simpl fst. simpl snd.
  destruct (fold_left Comprehensive.add_property (EntityInfo.properties entity) ([], []))
    as [properties required_props].
  apply store_schema_shape.
Qed.

Lemma comprehensive_add_path info servers paths schemas security
    (endpoint : EndpointInfo.t) :
  path_items paths ->
  Comprehensive.add_path (shape info servers paths schemas security) endpoint =
  (Ok (shape info servers
         (store_operation paths (comprehensive_path endpoint)
            (EndpointInfo.method endpoint) (Comprehensive.operation_of endpoint))
         schemas security), []).
Proof. intros Hitems. apply store_operation_shape. exact Hitems. Qed.

Lemma comprehensive_generate (self : Comprehensive.ComprehensiveMastodonGenerator.t) :
  Comprehensive.generate_openapi_spec self =
  (Ok (shape (info_of Comprehensive.initial_spec) Common.servers
         (store_operations comprehensive_path EndpointInfo.method
            Comprehensive.operation_of
            (Comprehensive.ComprehensiveMastodonGenerator.endpoints self) [])
         (store_all fst (fun item => comprehensive_entity_schema (snd item))
            (Comprehensive.ComprehensiveMastodonGenerator.entities self) [])
         (security_of Comprehensive.initial_spec)), []).
Proof.
  unfold Comprehensive.generate_openapi_spec.
  change Comprehensive.initial_spec with
    (shape (info_of Comprehensive.initial_spec) Common.servers [] []
       (security_of Comprehensive.initial_spec)) at 1.
  rewrite (bind_pure _ _ _ (foldM_schemas _ _ _ comprehensive_add_schema _ _ _ _ _ _)).
  rewrite (bind_pure _ _ _
             (foldM_paths _ _ _ _ comprehensive_add_path _ _ _ _ _ _ (Forall_nil _))).
  reflexivity.
Qed.

(** *** The scraping generator *)

Lemma scraper_add_schema info servers paths schemas security
    (item : string * Scraper.EntityInfo.t) :
  Scraper.add_schema (shape info servers paths schemas security) item =
  (Ok (shape info servers paths
         (assign (fst item) (scraper_entity_schema (snd item)) schemas) security), []).
Proof.
  destruct item as [entity_name entity].
  unfold Scraper.add_schema, scraper_entity_schema.
  simpl fst. simpl snd.
  destruct (fold_left Scraper.add_property (Scraper.EntityInfo.properties entity) ([], []))
    as [properties required_props].
  apply store_schema_shape.
Qed.

Lemma scraper_add_path info servers paths schemas security
    (endpoint : Scraper.EndpointInfo.t) :
  path_items paths ->
  Scraper.add_path (shape info servers paths schemas security) endpoint =
  (Ok (shape info servers
         (store_operation paths (Scraper.EndpointInfo.path endpoint)
            (Scraper.EndpointInfo.method endpoint) (Scraper.operation_of endpoint))
         schemas security), []).
Proof. intros Hitems. apply store_operation_shape. exact Hitems. Qed.

Lemma scraper_generate (self : Scraper.MastodonDocsParser.t) :
  Scraper.generate_openapi_spec self =
  (Ok (shape (info_of Scraper.initial_spec) Common.servers
         (store_operations Scraper.EndpointInfo.path Scraper.EndpointInfo.method
            Scraper.operation_of (Scraper.MastodonDocsParser.endpoints self) [])
         (store_all fst (fun item => scraper_entity_schema (snd item))
            (Scraper.MastodonDocsParser.entities self) [])
         (security_of Scraper.initial_spec)), []).
Proof.
  unfold Scraper.generate_openapi_spec.
  change Scraper.initial_spec with
    (shape (info_of Scraper.initial_spec) Common.servers [] []
       (security_of Scraper.initial_spec)) at 1.
  rewrite (bind_pure _ _ _ (foldM_schemas _ _ _ scraper_add_schema _ _ _ _ _ _)).
  rewrite (bind_pure _ _ _ (foldM_paths _ _ _ _ scraper_add_path _ _ _ _ _ _ (Forall_nil _))).
  reflexivity.
Qed.

(** *** The required names *)

Lemma in_list_In (x : string) (l : list string) : in_list x l = true <-> In x l.
Proof.
  unfold in_list. rewrite existsb_exists. split.
  - intros (y & Hy & Heq). apply String.eqb_eq in Heq. subst. exact Hy.
  - intros H. exists x. split; [exact H | apply String.eqb_refl].
Qed.

Lemma distinct_NoDup (l : list string) : distinct l = true -> NoDup l.
Proof.
  induction l as [| x l IH]; simpl; intros H.
  - constructor.
  - apply andb_true_iff in H as [Hx Hl]. constructor; [| auto].
    intros Hin. apply in_list_In in Hin. rewrite Hin in Hx. discriminate.
Qed.

Lemma NoDup_map_eq {A B} (f : A -> B) (l : list A) (p q : A) :
  NoDup (map f l) -> In p l -> In q l -> f p = f q -> p = q.
Proof.
  induction l as [| a l IH]; simpl; intros Hnd Hp Hq Heq; [contradiction |].
  inversion Hnd as [| ? ? Hnotin Hnd']; subst.
  destruct Hp as [-> | Hp], Hq as [-> | Hq]; auto.
  - exfalso. apply Hnotin. rewrite Heq. apply in_map. exact Hq.
  - exfalso. apply Hnotin. rewrite <- Heq. apply in_map. exact Hp.
Qed.

Lemma distinct_consistent {P} (name : P -> string) (required : P -> bool) (props : list P) :
  distinct (map name props) = true -> consistent name required props.
Proof.
  intros H p q Hp Hq Heq.
  rewrite (NoDup_map_eq name props p q (distinct_NoDup _ H) Hp Hq Heq). reflexivity.
Qed.

Lemma store_all_other {X} (key : X -> string) (val : X -> value) (k : string) (xs : list X) :
  ~ In k (map key xs) ->
  forall d, lookup k (store_all key val xs d) = lookup k d.
Proof.
  unfold store_all. induction xs as [| x xs IH]; simpl; intros Hnotin d; [reflexivity |].
  rewrite IH by tauto. apply lookup_assign_other. intros Heq. apply Hnotin. auto.
Qed.

Lemma lookup_store_all {X} (key : X -> string) (val : X -> value) (xs : list X) :
  NoDup (map key xs) ->
  forall x, In x xs ->
  forall d, lookup (key x) (store_all key val xs d) = Some (val x).
Proof.
  induction xs as [| y xs IH]; simpl; intros Hnd x Hin d; [contradiction |].
  inversion Hnd as [| ? ? Hnotin Hnd']; subst. destruct Hin as [-> | Hin].
  - change (lookup (key x) (store_all key val xs (assign (key x) (val x) d)) = Some (val x)).
    rewrite (store_all_other key val (key x) xs Hnotin). apply lookup_assign_same.
  - apply (IH Hnd' x Hin).
Qed.

Lemma emitted_schema_shape info servers paths schemas security (name : string) :
  emitted_schema (shape info servers paths schemas security) name =
  match lookup name schemas with
  | Some schema => Ok schema
  | None => Raise KeyError
  end.
Proof. reflexivity. Qed.

Lemma VStr_in_map (x : string) (l : list string) : In (VStr x) (map VStr l) <-> In x l.
Proof.
  rewrite in_map_iff. split.
  - intros (y & Heq & Hy). inversion Heq; subst. exact Hy.
  - intros H. exists x. auto.
Qed.

Lemma in_required_names {P} (name : P -> string) (required : P -> bool) (props : list P) (p : P) :
  consistent name required props -> In p props ->
  (In (name p) (map name (filter required props)) <-> required p = true).
Proof.
  intros Hc Hp. rewrite in_map_iff. split.
  - intros (q & Heq & Hq). apply filter_In in Hq as [Hq Hreq].
    rewrite (Hc p q Hp Hq (eq_sym Heq)). exact Hreq.
  - intros Hreq. exists p. split; [reflexivity |]. apply filter_In. auto.
Qed.

(** The schema stored for the properties [props] agrees with their flags. *)
Lemma required_matches_schema {P} (name : P -> string) (required : P -> bool)
    (props : list P) (description : value) (properties : list (value * value)) :
  consistent name required props ->
  required_matches name required props
    (schema_of description properties (map name (filter required props))).
Proof.
  intros Hc. unfold required_matches, schema_of.
  destruct (map name (filter required props)) as [| r rs] eqn:Hnames.
  - split.
    + intros p Hp. pose proof (in_required_names name required props p Hc Hp) as H.
      rewrite Hnames in H. simpl in *. tauto.
    + split; [discriminate |]. intros (p & Hp & Hreq).
      pose proof (in_required_names name required props p Hc Hp) as H.
      rewrite Hnames in H. simpl in H. tauto.
  - assert (Hl : lookup "required"
                   (assign "required" (VList (map VStr (r :: rs)))
                      (lit [ ("type", VStr "object"); ("description", description);
                             ("properties", VDict properties) ]))
                 = Some (VList (map VStr (r :: rs)))) by apply lookup_assign_same.
    split.
    + intros p Hp. unfold required_names, getitem. rewrite Hl.
      rewrite VStr_in_map, <- Hnames. apply in_required_names; assumption.
    + unfold py_in. rewrite Hl. split; [| reflexivity]. intros _.
      assert (Hr : In r (map name (filter required props))) by (rewrite Hnames; left; reflexivity).
      apply in_map_iff in Hr as (p & _ & Hp). apply filter_In in Hp. eauto.
Qed.

Lemma sample_required_props (props : list PropertyInfo.t) :
  forall properties required_props,
    snd (fold_left Sample.add_property props (properties, required_props)) =
    required_props ++ map PropertyInfo.name (filter PropertyInfo.required props).
Proof.
  induction props as [| p props IH]; simpl; intros properties required_props.
  - rewrite app_nil_r. reflexivity.
  - rewrite IH. destruct (PropertyInfo.required p); simpl.
    + rewrite <- app_assoc. reflexivity.
    + reflexivity.
Qed.

Lemma comprehensive_required_props (props : list Comprehensive.PropertyInfo.t) :
  forall properties required_props,
    snd (fold_left Comprehensive.add_property props (properties, required_props)) =
    required_props ++
    map Comprehensive.PropertyInfo.name (filter Comprehensive.PropertyInfo.required props).
Proof.
  induction props as [| p props IH]; simpl; intros properties required_props.
  - rewrite app_nil_r. reflexivity.
  - rewrite IH. destruct (Comprehensive.PropertyInfo.required p); simpl.
    + rewrite <- app_assoc. reflexivity.
    + reflexivity.
Qed.

Lemma scraper_required_props (props : list PropertyInfo.t) :
  forall properties required_props,
    snd (fold_left Scraper.add_property props (properties, required_props)) =
    required_props ++ map PropertyInfo.name (filter PropertyInfo.required props).
Proof.
  induction props as [| p props IH]; simpl; intros properties required_props.
  - rewrite app_nil_r. reflexivity.
  - rewrite IH. destruct (PropertyInfo.required p); simpl.
    + rewrite <- app_assoc. reflexivity.
    + reflexivity.
Qed.

Lemma sample_schema_required (entity : EntityInfo.t PropertyInfo.t) :
  consistent PropertyInfo.name PropertyInfo.required (EntityInfo.properties entity) ->
  required_matches PropertyInfo.name PropertyInfo.required (EntityInfo.properties entity)
    (sample_entity_schema entity).
Proof.
  intros Hc. unfold sample_entity_schema.
  pose proof (sample_required_props (EntityInfo.properties entity) [] []) as H.
  destruct (fold_left Sample.add_property (EntityInfo.properties entity) ([], []))
    as [properties required_props].
  simpl in H. subst required_props. apply required_matches_schema. exact Hc.
Qed.

Lemma comprehensive_schema_required (entity : EntityInfo.t Comprehensive.PropertyInfo.t) :
  consistent Comprehensive.PropertyInfo.name Comprehensive.PropertyInfo.required
    (EntityInfo.properties entity) ->
  required_matches Comprehensive.PropertyInfo.name Comprehensive.PropertyInfo.required
    (EntityInfo.properties entity) (comprehensive_entity_schema entity).
Proof.
  intros Hc. unfold comprehensive_entity_schema.
  pose proof (comprehensive_required_props (EntityInfo.properties entity) [] []) as H.
  destruct (fold_left Comprehensive.add_property (EntityInfo.properties entity) ([], []))
    as [properties required_props].
  simpl in H. subst required_props. apply required_matches_schema. exact Hc.
Qed.

Lemma scraper_schema_required (entity : Scraper.EntityInfo.t) :
  consistent PropertyInfo.name PropertyInfo.required (Scraper.EntityInfo.properties entity) ->
  required_matches PropertyInfo.name PropertyInfo.required
    (Scraper.EntityInfo.properties entity) (scraper_entity_schema entity).
Proof.
  intros Hc. unfold scraper_entity_schema.
  pose proof (scraper_required_props (Scraper.EntityInfo.properties entity) [] []) as H.
  destruct (fold_left Scraper.add_property (Scraper.EntityInfo.properties entity) ([], []))
    as [properties required_props].
  simpl in H. subst required_props. apply required_matches_schema. exact Hc.
Qed.

Lemma returned_ok (v : value) (out : list line) : returned (Ok v, out) = v.
Proof. reflexivity. Qed.

(** The schema emitted for an entity of a table whose keys differ. *)
Lemma sample_emitted_schema (self : Sample.MastodonDocsGenerator.t) :
  NoDup (map fst (Sample.MastodonDocsGenerator.entities self)) ->
  forall name entity,
    In (name, entity) (Sample.MastodonDocsGenerator.entities self) ->
    emitted_schema (returned (Sample.generate_openapi_spec self)) name =
    Ok (sample_entity_schema entity).
Proof.
  intros Hnd name entity Hin. rewrite sample_generate, returned_ok.
  rewrite emitted_schema_shape.
  rewrite (lookup_store_all fst (fun item => sample_entity_schema (snd item))
             _ Hnd (name, entity) Hin).
  reflexivity.
Qed.

Lemma comprehensive_emitted_schema (self : Comprehensive.ComprehensiveMastodonGenerator.t) :
  NoDup (map fst (Comprehensive.ComprehensiveMastodonGenerator.entities self)) ->
  forall name entity,
    In (name, entity) (Comprehensive.ComprehensiveMastodonGenerator.entities self) ->
    emitted_schema (returned (Comprehensive.generate_openapi_spec self)) name =
    Ok (comprehensive_entity_schema entity).
Proof.
  intros Hnd name entity Hin. rewrite comprehensive_generate, returned_ok.
  rewrite emitted_schema_shape.
  rewrite (lookup_store_all fst (fun item => comprehensive_entity_schema (snd item))
             _ Hnd (name, entity) Hin).
  reflexivity.
Qed.

Lemma scraper_emitted_schema (self : Scraper.MastodonDocsParser.t) :
  NoDup (map fst (Scraper.MastodonDocsParser.entities self)) ->
  forall name entity,
    In (name, entity) (Scraper.MastodonDocsParser.entities self) ->
    emitted_schema (returned (Scraper.generate_openapi_spec self)) name =
    Ok (scraper_entity_schema entity).
Proof.
  intros Hnd name entity Hin. rewrite scraper_generate, returned_ok.
  rewrite emitted_schema_shape.
  rewrite (lookup_store_all fst (fun item => scraper_entity_schema (snd item))
             _ Hnd (name, entity) Hin).
  reflexivity.
Qed.

End GeneratorFacts.


(** ** The scraping generator *)

Module ScraperFacts.
Import Py Scraper ScraperSpec MFacts.

(** A handler that prints and returns. *)
Lemma handled {A} (env : Env) (l : line) (fallback : A) (out : list line) :
  (let (r, out') := bind (print (stdout env) l) (fun _ => ret fallback) in (r, out ++ out'))
  = match stdout env l with
    | Ok _ => (Ok fallback, out ++ [l])
    | Raise e => (Raise e, out)
    end.
Proof.
  unfold print, bind, ret. destruct (stdout env l); rewrite ?app_nil_r; reflexivity.
Qed.

(** [fetch_file_content], case by case. *)
Lemma fetch_file_content_eq (env : Env) (path : string) :
  fetch_file_content env path =
  match answered env path with
  | Ok data =>
      match get_default data "encoding" VNone with
      | Ok encoding =>
          if eq_str encoding "base64"
          then
            match decoded env data with
            | Ok content => (Ok (Some content), [])
            | Raise e => reported env (fetch_error path e) None
            end
          else (Ok None, [])
      | Raise e => reported env (fetch_error path e) None
      end
  | Raise e => reported env (fetch_error path e) None
  end.
Proof.
  unfold fetch_file_content, answered, decoded, url_of, reported, fetch_error.
  destruct (requests_get env _) as [response | e];
    [| cbn [try_except select_handler isinstance_exn bind lift]; apply handled].
  unfold bind at 1, lift at 1.
  destruct (raise_for_status response) as [[] | e];
    [| cbn [try_except select_handler isinstance_exn bind lift]; apply handled].
  cbn [bind lift]. cbv beta iota.
  destruct (json response) as [data | e];
    [| cbn [try_except select_handler isinstance_exn bind lift]; apply handled].
  destruct (get_default data "encoding" VNone) as [encoding | e];
    [| cbn [try_except select_handler isinstance_exn bind lift]; apply handled].
  destruct (eq_str encoding "base64"); [| reflexivity].
  destruct (getitem data "content") as [encoded | e];
    [| cbn [try_except select_handler isinstance_exn bind lift]; apply handled].
  destruct (b64decode env encoded) as [raw | e];
    [| cbn [try_except select_handler isinstance_exn bind lift]; apply handled].
  destruct (decode_utf8 env raw) as [content | e];
    [reflexivity | cbn [try_except select_handler isinstance_exn bind lift]; apply handled].
Qed.

(** [list_directory], case by case. *)
Lemma list_directory_eq (env : Env) (path : string) :
  list_directory env path =
  match answered env path with
  | Ok data => (Ok data, [])
  | Raise e => reported env (listing_error path e) (VList [])
  end.
Proof.
  unfold list_directory, answered, url_of, reported, listing_error.
  destruct (requests_get env _) as [response | e];
    [| cbn [try_except select_handler isinstance_exn bind lift]; apply handled].
  unfold bind at 1, lift at 1.
  destruct (raise_for_status response) as [[] | e];
    [| cbn [try_except select_handler isinstance_exn bind lift]; apply handled].
  cbn [bind lift]. cbv beta iota.
  destruct (json response) as [data | e];
    [reflexivity | cbn [try_except select_handler isinstance_exn bind lift]; apply handled].
Qed.

Lemma reported_ok_inv {A} (env : Env) (l : line) (fallback a : A) (out : list line) :
  reported env l fallback = (Ok a, out) ->
  a = fallback /\ out = [l] /\ stdout env l = Ok tt.
Proof.
  unfold reported. destruct (stdout env l) as [[] | e]; [| discriminate].
  intros H. inversion H. auto.
Qed.


Lemma fold_left_snoc {A B} (f : A -> B) (xs : list A) :
  forall acc, fold_left (fun acc x => acc ++ [f x]) xs acc = acc ++ map f xs.
Proof.
  induction xs as [| x xs IH]; intros acc; simpl.
  - rewrite app_nil_r. reflexivity.
  - rewrite IH, <- app_assoc. reflexivity.
Qed.

Lemma property_of_scraped (env : Env) (groups : string * string * string) :
  scraped_property (property_of env groups).
Proof.
  destruct groups as [[attr_name group2] group3]. unfold property_of, scraped_property.
  destruct (contains (str_strip env group3) "String").
  - destruct (contains (str_strip env group3) "URL"); [| destruct (contains (str_strip env group3) "Datetime")];
      simpl; repeat split; auto.
  - destruct (contains (str_strip env group3) "Integer");
      [| destruct (contains (str_strip env group3) "Boolean");
         [| destruct (contains (str_strip env group3) "Array");
            [| destruct (contains (str_strip env group3) "Hash")]]];
      simpl; repeat split; auto 6; intros H; contradiction.
Qed.

Lemma frontmatter_silent (env : Env) (content : string) (r : value * string)
    (out : list line) :
  parse_frontmatter_and_content env content = (Ok r, out) -> out = [].
Proof.
  unfold parse_frontmatter_and_content.
  destruct (startswith content "---"); simpl negb; cbv iota;
    [| intros H; inversion H; reflexivity].
  destruct (split content "---" (Some 2)) as [| part0 [| part1 [| part2 parts]]];
    try (intros H; inversion H; reflexivity).
  destruct (yaml_safe_load env part1) as [loaded | e].
  - simpl. intros H. inversion H; reflexivity.
  - destruct e; simpl; intros H; inversion H; reflexivity.
Qed.

Lemma fetch_some_silent (env : Env) (path content : string) (out : list line) :
  fetch_file_content env path = (Ok (Some content), out) -> out = [].
Proof.
  rewrite fetch_file_content_eq.
  destruct (answered env path) as [data | e];
    [| intros H; apply reported_ok_inv in H as [H _]; discriminate H].
  destruct (get_default data "encoding" VNone) as [encoding | e];
    [| intros H; apply reported_ok_inv in H as [H _]; discriminate H].
  destruct (eq_str encoding "base64"); [| discriminate].
  destruct (decoded env data) as [text | e];
    [| intros H; apply reported_ok_inv in H as [H _]; discriminate H].
  intros H. inversion H; reflexivity.
Qed.

(** What [parse_entity] returns when it returns an entity. *)
Lemma parse_entity_some (env : Env) (entity_file : string) (entity : EntityInfo.t)
    (out : list line) :
  parse_entity env entity_file = (Ok (Some entity), out) ->
  out = [] /\
  EntityInfo.name entity = path_stem env entity_file /\
  exists matches,
    EntityInfo.properties entity = map (property_of env) matches.
Proof.
  unfold parse_entity. intros H.
  apply bind_ok_inv in H as (content & o1 & o2 & Hfetch & H & ->).
  destruct content as [content |]; [| discriminate H].
  rewrite (fetch_some_silent _ _ _ _ Hfetch).
  destruct (String.eqb content ""); [discriminate H |].
  apply bind_ok_inv in H as ([frontmatter body] & o3 & o4 & Hparse & H & ->).
  rewrite (frontmatter_silent _ _ _ _ Hparse).
  apply bind_lift_ok_inv in H as (description & Hdescription & H).
  inversion H; subst. simpl. split; [reflexivity |]. split; [reflexivity |].
  exists (attr_matches env body). apply (fold_left_snoc (property_of env) _ []).
Qed.

Lemma add_parameter_scraped (env : Env) (parameters : list ParameterInfo.t)
    (groups : string * string * string * string) :
  Forall scraped_parameter parameters ->
  Forall scraped_parameter (add_parameter env parameters groups).
Proof.
  intros Hps. destruct groups as [[[g1 g2] g3] g4]. unfold add_parameter.
  destruct (String.eqb (str_strip env g1) "") eqn:Hempty; [exact Hps |].
  destruct (String.eqb (str_strip env g1) "Name") eqn:Hname; [exact Hps |].
  simpl negb. cbv iota. apply Forall_app. split; [exact Hps |].
  constructor; [| constructor]. unfold scraped_parameter.
  cbn [ParameterInfo.location ParameterInfo.type ParameterInfo.name].
  apply String.eqb_neq in Hempty, Hname.
  split; [reflexivity |]. split; [| split; assumption].
  destruct (in_list (str_lower env (str_strip env g2)) ["string"; "integer"; "boolean"]) eqn:Hin.
  - apply GeneratorFacts.in_list_In in Hin. exact Hin.
  - left. reflexivity.
Qed.

Lemma add_parameters_scraped (env : Env)
    (matches : list (string * string * string * string)) :
  forall parameters,
    Forall scraped_parameter parameters ->
    Forall scraped_parameter (fold_left (add_parameter env) matches parameters).
Proof.
  induction matches as [| groups matches IH]; simpl; intros parameters Hps; [exact Hps |].
  apply IH, add_parameter_scraped, Hps.
Qed.

(** What [parse_method_file] returns when it returns an endpoint. *)
Lemma parse_method_file_some (env : Env) (method_path http_method : string)
    (endpoint : EndpointInfo.t) (out : list line) :
  parse_method_file env method_path http_method = (Ok (Some endpoint), out) ->
  out = [] /\
  EndpointInfo.method endpoint = str_lower env http_method /\
  scraped_endpoint endpoint.
Proof.
  unfold parse_method_file. intros H.
  apply bind_ok_inv in H as (content & o1 & o2 & Hfetch & H & ->).
  destruct content as [content |]; [| discriminate H].
  rewrite (fetch_some_silent _ _ _ _ Hfetch).
  destruct (String.eqb content ""); [discriminate H |].
  apply bind_ok_inv in H as ([frontmatter body] & o3 & o4 & Hparse & H & ->).
  rewrite (frontmatter_silent _ _ _ _ Hparse).
  assert (Hsection :
            forall (section : option string) (api_path : string),
              (section = None /\ api_path = "/api/v1/unknown" \/
               exists part, section = Some part /\ api_path = ("/api/v1/" ++ part)%string) ->
              (title <- lift (get_default frontmatter "title" (VStr "")) ;;
               description <- lift (get_default frontmatter "description" (VStr "")) ;;
               ret (Some (EndpointInfo.mk api_path (str_lower env http_method) title
                            description
                            (fold_left (add_parameter env) (param_matches env body) [])
                            [ResponseInfo.mk "200" "Success" None]
                            match section with Some a => [a] | None => [] end)))
              = (Ok (Some endpoint), o4) ->
              [] ++ [] ++ o4 = [] /\
              EndpointInfo.method endpoint = str_lower env http_method /\
              scraped_endpoint endpoint).
  { clear H. intros section api_path Hcases H'.
    apply bind_lift_ok_inv in H' as (title & _ & H').
    apply bind_lift_ok_inv in H' as (description & _ & H').
    unfold ret in H'. injection H' as <- <-.
    split; [reflexivity |]. split; [reflexivity |].
    unfold scraped_endpoint.
    cbn [EndpointInfo.responses EndpointInfo.parameters EndpointInfo.path EndpointInfo.tags].
    split; [reflexivity |].
    split; [apply add_parameters_scraped; constructor |].
    destruct Hcases as [[-> ->] | (part & -> & ->)]; [left; split; reflexivity |].
    right. exists part. split; reflexivity. }
  destruct (split method_path "/" None) as [| p0 [| p1 [| p2 [| p3 parts]]]];
    try (apply (Hsection None "/api/v1/unknown"); [left; auto | exact H]).
  destruct (String.eqb p2 "methods").
  - apply (Hsection (Some p3) ("/api/v1/" ++ p3)%string); [right; eauto | exact H].
  - apply (Hsection None "/api/v1/unknown"); [left; auto | exact H].
Qed.

Lemma dict_set_in {A} (k : string) (a : A) (d : dict A) (k' : string) (a' : A) :
  In (k', a') (dict_set k a d) -> (k' = k /\ a' = a) \/ In (k', a') d.
Proof.
  induction d as [| [k0 a0] d IH]; simpl.
  - intros [H | []]. inversion H; auto.
  - destruct (String.eqb k0 k) eqn:Hk; simpl.
    + apply String.eqb_eq in Hk. subst k0. intros [H | H]; [inversion H; auto | auto].
    + intros [H | H]; [auto |]. destruct (IH H); auto.
Qed.

Lemma dict_set_keys {A} (k : string) (a : A) (d : dict A) (k' : string) :
  In k' (map fst (dict_set k a d)) -> k' = k \/ In k' (map fst d).
Proof.
  intros H. apply in_map_iff in H as ([k0 a0] & <- & Hin).
  destruct (dict_set_in _ _ _ _ _ Hin) as [[-> _] | Hd]; [auto |].
  right. apply in_map_iff. exists (k0, a0). auto.
Qed.

Lemma dict_set_NoDup {A} (k : string) (a : A) (d : dict A) :
  NoDup (map fst d) -> NoDup (map fst (dict_set k a d)).
Proof.
  induction d as [| [k0 a0] d IH]; simpl; intros Hnd.
  - constructor; [intros [] | constructor].
  - inversion Hnd as [| ? ? Hnotin Hnd']; subst.
    destruct (String.eqb k0 k) eqn:Hk; simpl.
    + constructor; assumption.
    + constructor; [| auto]. intros Hin.
      destruct (dict_set_keys _ _ _ _ Hin) as [-> | Hd]; [| contradiction].
      rewrite String.eqb_refl in Hk. discriminate.
Qed.

(** A loop keeps what each run of its body keeps. *)
Lemma foldM_preserves {A B} (P : A -> Prop) (f : A -> B -> M A) (xs : list B) :
  (forall a x a' out, P a -> f a x = (Ok a', out) -> P a') ->
  forall a a' out, P a -> foldM f xs a = (Ok a', out) -> P a'.
Proof.
  intros Hf. induction xs as [| x xs IH]; simpl; intros a a' out Ha H.
  - inversion H; subst. exact Ha.
  - apply bind_ok_inv in H as (a1 & o1 & o2 & Hstep & Hrest & _).
    exact (IH _ _ _ (Hf _ _ _ _ Ha Hstep) Hrest).
Qed.

(** What one run of the loop of [parse_all_entities] does to the tables. *)
Lemma parse_listed_entity_inv (env : Env) (self self' : MastodonDocsParser.t)
    (entity : value) (out : list line) :
  parse_listed_entity env self entity = (Ok self', out) ->
  self' = self \/
  exists file_name parsed o,
    parse_entity env file_name = (Ok (Some parsed), o) /\
    self' = MastodonDocsParser.mk
              (dict_set (EntityInfo.name parsed) parsed (MastodonDocsParser.entities self))
              (MastodonDocsParser.endpoints self).
Proof.
  unfold parse_listed_entity. intros H.
  apply bind_lift_ok_inv in H as (type & _ & H).
  destruct (eq_str type "file"); [| inversion H; auto].
  apply bind_lift_ok_inv in H as (name & _ & H).
  apply bind_lift_ok_inv in H as (file_name & _ & H).
  destruct (endswith file_name ".md"); [| inversion H; auto].
  apply bind_ok_inv in H as (parsed & o1 & o2 & Hparse & H & _).
  destruct parsed as [parsed |]; [| inversion H; auto].
  apply bind_print_ok_inv in H as (_ & o3 & H & _). inversion H; subst.
  right. eauto.
Qed.

(** What one run of the inner loop of [parse_all_methods] does. *)
Lemma parse_listed_method_inv (env : Env) (method_dir : value)
    (self self' : MastodonDocsParser.t) (method_file : value) (out : list line) :
  parse_listed_method env method_dir self method_file = (Ok self', out) ->
  self' = self \/
  exists method_path http_method endpoint o,
    parse_method_file env method_path http_method = (Ok (Some endpoint), o) /\
    self' = MastodonDocsParser.mk (MastodonDocsParser.entities self)
              (MastodonDocsParser.endpoints self ++ [endpoint]).
Proof.
  unfold parse_listed_method. intros H.
  apply bind_lift_ok_inv in H as (type & _ & H).
  destruct (eq_str type "file"); [| inversion H; auto].
  apply bind_lift_ok_inv in H as (name & _ & H).
  apply bind_lift_ok_inv in H as (file_name & _ & H).
  destruct (endswith file_name ".md"); [| inversion H; auto].
  destruct (in_list (str_upper env (path_stem env file_name))
              ["GET"; "POST"; "PUT"; "PATCH"; "DELETE"]);
    [| inversion H; auto].
  apply bind_lift_ok_inv in H as (dir_name & _ & H).
  apply bind_lift_ok_inv in H as (dir_text & _ & H).
  apply bind_ok_inv in H as (endpoint & o1 & o2 & Hparse & H & _).
  destruct endpoint as [endpoint |]; [| inversion H; auto].
  apply bind_print_ok_inv in H as (_ & o3 & H & _). inversion H; subst.
  right. eauto 8.
Qed.

Lemma scraped_entities_set (parsed : EntityInfo.t) (entities : dict EntityInfo.t) :
  Forall scraped_property (EntityInfo.properties parsed) ->
  scraped_entities entities ->
  scraped_entities (dict_set (EntityInfo.name parsed) parsed entities).
Proof.
  intros Hparsed [Hnd Hall]. split; [apply dict_set_NoDup; exact Hnd |].
  intros name entity Hin.
  destruct (dict_set_in _ _ _ _ _ Hin) as [[-> ->] | Hold]; [auto | apply Hall; exact Hold].
Qed.

Lemma parse_all_entities_keeps (env : Env) (self self' : MastodonDocsParser.t)
    (out : list line) :
  parse_all_entities env self = (Ok self', out) ->
  MastodonDocsParser.endpoints self' = MastodonDocsParser.endpoints self /\
  (scraped_entities (MastodonDocsParser.entities self) ->
   scraped_entities (MastodonDocsParser.entities self')).
Proof.
  intros H. unfold parse_all_entities in H.
  apply bind_ok_inv in H as (listing & o1 & o2 & _ & H & _).
  apply bind_lift_ok_inv in H as (items & _ & H).
  apply (foldM_preserves
           (fun s => MastodonDocsParser.endpoints s = MastodonDocsParser.endpoints self /\
                     (scraped_entities (MastodonDocsParser.entities self) ->
                      scraped_entities (MastodonDocsParser.entities s)))
           (parse_listed_entity env) items) with (a := self) (out := o2);
    [| auto | exact H].
  intros a x a' o [Hend Hent] Hstep.
  destruct (parse_listed_entity_inv _ _ _ _ _ Hstep)
    as [-> | (file_name & parsed & o' & Hparse & ->)]; [auto |].
  simpl. split; [exact Hend |]. intros Hself.
  apply scraped_entities_set; [| auto].
  destruct (parse_entity_some _ _ _ _ Hparse) as (_ & _ & matches & ->).
  apply Forall_forall. intros prop Hin.
  apply in_map_iff in Hin as (groups & <- & _). apply property_of_scraped.
Qed.

Lemma parse_all_methods_keeps (env : Env) (self self' : MastodonDocsParser.t)
    (out : list line) :
  parse_all_methods env self = (Ok self', out) ->
  MastodonDocsParser.entities self' = MastodonDocsParser.entities self /\
  exists added,
    MastodonDocsParser.endpoints self' = MastodonDocsParser.endpoints self ++ added /\
    Forall scraped_endpoint added.
Proof.
  intros H. unfold parse_all_methods in H.
  apply bind_ok_inv in H as (listing & o1 & o2 & _ & H & _).
  apply bind_lift_ok_inv in H as (items & _ & H).
  set (P := fun s : MastodonDocsParser.t =>
              MastodonDocsParser.entities s = MastodonDocsParser.entities self /\
              exists added,
                MastodonDocsParser.endpoints s
                  = MastodonDocsParser.endpoints self ++ added /\
                Forall scraped_endpoint added).
  assert (Hinner : forall method_dir a x a' o,
             P a -> parse_listed_method env method_dir a x = (Ok a', o) -> P a').
  { intros method_dir a x a' o [Hent (added & Hend & Hadded)] Hstep.
    destruct (parse_listed_method_inv _ _ _ _ _ _ Hstep)
      as [-> | (method_path & http_method & endpoint & o' & Hparse & ->)].
    - split; eauto.
    - destruct (parse_method_file_some _ _ _ _ _ Hparse) as (_ & _ & Hscraped).
      split; [exact Hent |]. exists (added ++ [endpoint]). simpl. split.
      + rewrite Hend, app_assoc. reflexivity.
      + apply Forall_app. split; [exact Hadded |].
        constructor; [exact Hscraped | constructor]. }
  apply (foldM_preserves P (parse_listed_dir env) items) with (a := self) (out := o2);
    [| | exact H].
  - intros a x a' o Ha Hstep. unfold parse_listed_dir in Hstep.
    apply bind_lift_ok_inv in Hstep as (type & _ & Hstep).
    destruct (eq_str type "dir"); [| inversion Hstep; subst; exact Ha].
    apply bind_lift_ok_inv in Hstep as (dir_name & _ & Hstep).
    apply bind_lift_ok_inv in Hstep as (dir_text & _ & Hstep).
    apply bind_ok_inv in Hstep as (files & o3 & o4 & _ & Hstep & _).
    apply bind_lift_ok_inv in Hstep as (file_items & _ & Hstep).
    exact (foldM_preserves P _ _ (Hinner x) _ _ _ Ha Hstep).
  - split; [reflexivity |]. exists []. rewrite app_nil_r. split; [reflexivity | constructor].
Qed.

Lemma scraped_entities_nil : scraped_entities [].
Proof. split; [constructor | intros name entity []]. Qed.

Lemma required_of_schema (description : value) (properties : list (value * value))
    (required_props : list string) :
  GeneratorSpec.required_names (GeneratorSpec.schema_of description properties required_props)
    = map VStr required_props /\
  py_in "required" (GeneratorSpec.schema_of description properties required_props)
    = Ok (match required_props with [] => false | _ :: _ => true end).
Proof.
  unfold GeneratorSpec.schema_of. destruct required_props as [| r rs]; [split; reflexivity |].
  unfold GeneratorSpec.required_names, getitem, py_in.
  rewrite DictFacts.lookup_assign_same. split; reflexivity.
Qed.

Lemma filter_all {A} (p : A -> bool) (l : list A) :
  Forall (fun x => p x = true) l -> filter p l = l.
Proof.
  induction 1 as [| x l Hx _ IH]; simpl; [reflexivity |]. rewrite Hx, IH. reflexivity.
Qed.

End ScraperFacts.

(** * The properties of the specification *)

Section ValidatorClaims.
Import Py Validator ValidatorSpec ValidatorFacts.


(** A document with the four items that is well formed is rejected all the
    same when its report cannot be printed: [str()] of the title of
    [huge_title_document] raises ValueError in the third call of [print],
    and the last handler turns it into a failure. *)
Lemma validate_rejects_huge_title :
  has_required_items huge_title_document = true /\
  well_formed huge_title_document = true /\
  validate_openapi_spec limited_terminal (yaml_file huge_title_document) =
    (Ok false,
     [ [FLit "✅ OpenAPI specification is valid"];
       [FLit "   Version: "; FVal (VStr "3.0.3")];
       [FLit "❌ Validation error: "; FExn ValueError] ]).
Proof.
  split; [vm_compute; reflexivity |]. split; vm_compute; reflexivity.
Qed.



(** C3: on a parsed document that the validator accepts, the line
    [Paths:] carries the number of entries of the mapping at [paths], and
    the line [Schemas:] the number of entries of the mapping at
    [components.schemas], or 0 when [components] or [schemas] is absent. *)
Theorem validate_reports_counts (stdout : console) (f : file) (spec : value) :
  parsed_document f = Some spec ->
  fst (validate_openapi_spec stdout f) = Ok true ->
  exists d paths version title api_version schemas_count tags,
    spec = VDict d /\
    lookup "paths" d = Some (VDict paths) /\
    snd (validate_openapi_spec stdout f) =
      accepted_report version title api_version (List.length paths) schemas_count tags /\
    (lookup "components" d = None -> schemas_count = 0) /\
    (forall c, lookup "components" d = Some (VDict c) ->
               lookup "schemas" c = None -> schemas_count = 0) /\
    (forall c schemas, lookup "components" d = Some (VDict c) ->
                       lookup "schemas" c = Some (VDict schemas) ->
                       schemas_count = List.length schemas).
Proof.
  intros Hdoc Hacc.
  destruct (validate_openapi_spec stdout f) as [r out] eqn:Hv. simpl in Hacc. subst r.
  apply validate_true_inv in Hv as (spec' & Hdoc' & Hitems & Hwf & -> & _).
  rewrite Hdoc in Hdoc'. inversion Hdoc'; subst spec'. clear Hdoc'.
  destruct spec as [| | | | | | d]; try discriminate.
  unfold has_required_items in Hitems. unfold well_formed in Hwf.
  cbn [snd]. unfold report_lines.
  destruct (lookup "openapi" d) as [version |]; [| discriminate].
  destruct version; try discriminate.
  destruct (lookup "info" d) as [[| | | | | | info] |]; try discriminate.
  destruct (lookup "paths" d) as [[| | | | | | paths] |] eqn:Hpaths; try discriminate.
  destruct (lookup "title" info) as [title |];
    [| rewrite andb_false_r in Hitems; discriminate].
  destruct (lookup "version" info) as [api_version |];
    [| rewrite andb_false_r in Hitems; discriminate].
  exists d, paths, (VStr s), title, api_version, (ValidatorSpec.schemas_count d),
    (joined_tags paths).
  unfold ValidatorSpec.schemas_count.
  split; [reflexivity |]. split; [exact Hpaths |]. split; [reflexivity |].
  split; [| split].
  - intros ->. reflexivity.
  - intros c -> ->. reflexivity.
  - intros c schemas -> ->. reflexivity.
Qed.

Lemma validate_reports_counts_witness :
  exists d paths version title api_version schemas_count tags,
    small_document = VDict d /\
    lookup "paths" d = Some (VDict paths) /\
    snd (validate_openapi_spec terminal (yaml_file small_document)) =
      accepted_report version title api_version (List.length paths) schemas_count tags /\
    (lookup "components" d = None -> schemas_count = 0) /\
    (forall c, lookup "components" d = Some (VDict c) ->
               lookup "schemas" c = None -> schemas_count = 0) /\
    (forall c schemas, lookup "components" d = Some (VDict c) ->
                       lookup "schemas" c = Some (VDict schemas) ->
                       schemas_count = List.length schemas).
Proof.
  apply (validate_reports_counts terminal (yaml_file small_document) small_document);
    reflexivity.
Defined.


(** The calls of [print] in the handlers are not guarded either: on a
    console whose encoding lacks the cross mark, the message of the handler
    raises UnicodeEncodeError, and the validator propagates it. *)
Lemma validate_propagates_print_error :
  validate_openapi_spec ascii_terminal malformed_yaml_file = (Raise UnicodeEncodeError, []) /\
  validate_openapi_spec ascii_terminal missing_file = (Raise UnicodeEncodeError, []).
Proof. split; reflexivity. Qed.



End ValidatorClaims.

Section GeneratorClaims.
Import Py GeneratorSpec.

(** C9: in the sample generator the operation built for an endpoint has the
    key [security] exactly when its path does not start with [/oauth] and
    its method is not [get], or its path contains [timeline]; in the
    specification emitted for [SAMPLE_ENDPOINTS] the operation POST
    [/oauth/token] has no [security], and a GET operation has it exactly
    when its path contains [timeline]. *)
Theorem sample_security_field :
  (forall endpoint : EndpointInfo.t,
     py_in "security" (Sample.operation_of endpoint) =
     Ok ((negb (startswith (EndpointInfo.path endpoint) "/oauth")
          && negb (String.eqb (EndpointInfo.method endpoint) "get"))
         || contains (EndpointInfo.path endpoint) "timeline")) /\
  (exists spec,
     Sample.generate_openapi_spec sample_generator = (Ok spec, []) /\
     (exists operation,
        emitted_operation spec "/oauth/token" "post" = Ok operation /\
        py_in "security" operation = Ok false) /\
     (forall tag path summary description,
        In (tag, "GET", path, summary, description) Sample.SAMPLE_ENDPOINTS ->
        exists operation,
          emitted_operation spec (replace path ":id" "{id}") "get" = Ok operation /\
          py_in "security" operation = Ok (contains path "timeline"))).
Proof.
  split.
  - intros endpoint. unfold Sample.operation_of, Sample.needs_security.
    destruct (map Common.param_schema (EndpointInfo.parameters endpoint));
      destruct ((negb (startswith (EndpointInfo.path endpoint) "/oauth")
                 && negb (String.eqb (EndpointInfo.method endpoint) "get"))
                || contains (EndpointInfo.path endpoint) "timeline");
      reflexivity.
  - exists sample_spec. split; [vm_compute; reflexivity |]. split.
    + assert (H : match emitted_operation sample_spec "/oauth/token" "post" with
                  | Ok operation =>
                      match py_in "security" operation with
                      | Ok present => negb present
                      | Raise _ => false
                      end
                  | Raise _ => false
                  end = true) by (vm_compute; reflexivity).
      destruct (emitted_operation sample_spec "/oauth/token" "post") as [operation |];
        [| discriminate].
      exists operation. split; [reflexivity |].
      destruct (py_in "security" operation) as [[|] |]; try discriminate. reflexivity.
    + assert (H : forallb (get_row_checked sample_spec) Sample.SAMPLE_ENDPOINTS = true)
        by (vm_compute; reflexivity).
      intros tag path summary description Hin.
      rewrite forallb_forall in H. specialize (H _ Hin).
      unfold get_row_checked in H. cbv beta iota in H.
      change (String.eqb "GET" "GET") with true in H. cbv iota in H.
      destruct (emitted_operation sample_spec (replace path ":id" "{id}") "get")
        as [operation |]; [| discriminate].
      exists operation. split; [reflexivity |].
      destruct (py_in "security" operation) as [present |]; [| discriminate].
      apply Bool.eqb_prop in H. rewrite H. reflexivity.
Qed.

Lemma sample_security_field_witness :
  exists operation,
    emitted_operation sample_spec
      (replace "/api/v1/timelines/home" ":id" "{id}") "get" = Ok operation /\
    py_in "security" operation = Ok (contains "/api/v1/timelines/home" "timeline").
Proof.
  destruct (proj2 sample_security_field) as (spec & Hgen & _ & Hget).
  assert (Hspec : spec = sample_spec) by (unfold sample_spec, returned; rewrite Hgen; reflexivity).
  rewrite <- Hspec.
  apply (Hget "timelines" "/api/v1/timelines/home" "Home timeline" "Get home timeline").
  simpl. tauto.
Defined.

(** C10: in the loop over [entities_data] the flag [nullable] of a property
    comes from a fourth element of its tuple that is a boolean, and from
    nothing else: it is the value of that boolean, so the property is
    nullable exactly when the fourth element is the boolean True; and the
    property is required exactly when it is not nullable.  So the boolean
    False as fourth element gives a property that is not nullable and is
    required, and so does a format string, which becomes the format. *)
Theorem property_nullable_required (prop_data : Comprehensive.prop_data) :
  let prop := Comprehensive.property_of prop_data in
  (Comprehensive.PropertyInfo.nullable prop = true <->
   fourth prop_data = Some (Comprehensive.CBool true)) /\
  Comprehensive.PropertyInfo.required prop =
    negb (Comprehensive.PropertyInfo.nullable prop) /\
  (fourth prop_data = Some (Comprehensive.CBool false) ->
   Comprehensive.PropertyInfo.nullable prop = false /\
   Comprehensive.PropertyInfo.required prop = true) /\
  (forall s, fourth prop_data = Some (Comprehensive.CStr s) ->
   Comprehensive.PropertyInfo.nullable prop = false /\
   Comprehensive.PropertyInfo.required prop = true /\
   Comprehensive.PropertyInfo.format prop = Some s).
Proof.
  destruct prop_data as [[[name type] description] rest]. unfold fourth. simpl.
  destruct rest as [| [s | [|]] rest]; simpl; repeat split;
    try discriminate; try congruence; intros; try congruence.
Qed.

Lemma property_nullable_required_witness :
  (Comprehensive.PropertyInfo.nullable (Comprehensive.property_of following_tuple) = false /\
   Comprehensive.PropertyInfo.required (Comprehensive.property_of following_tuple) = true) /\
  (Comprehensive.PropertyInfo.nullable (Comprehensive.property_of url_tuple) = false /\
   Comprehensive.PropertyInfo.required (Comprehensive.property_of url_tuple) = true /\
   Comprehensive.PropertyInfo.format (Comprehensive.property_of url_tuple) = Some "uri") /\
  Comprehensive.PropertyInfo.nullable (Comprehensive.property_of category_tuple) = true.
Proof.
  split; [| split].
  - apply (proj1 (proj2 (proj2 (property_nullable_required following_tuple)))). reflexivity.
  - apply (proj2 (proj2 (proj2 (property_nullable_required url_tuple)))). reflexivity.
  - apply (proj1 (property_nullable_required category_tuple)). reflexivity.
Defined.

(** C2: two runs of a generator on its hard-coded tables return the same
    specification object, with the same keys in the same order in every
    mapping, whatever the seed of the string hash and the command line of
    each run: on a console that prints its two progress messages, [main]
    of the sample generator returns [sample_spec] and that of the
    comprehensive generator returns [comprehensive_spec]. *)
Theorem two_runs_agree (stdout1 stdout2 : console) (p1 p2 : process) :
  (forallb (printable stdout1) sample_progress = true ->
   forallb (printable stdout2) sample_progress = true ->
   Sample.main stdout1 p1 = (Ok sample_spec, sample_progress) /\
   Sample.main stdout2 p2 = Sample.main stdout1 p1) /\
  (forallb (printable stdout1) comprehensive_progress = true ->
   forallb (printable stdout2) comprehensive_progress = true ->
   Comprehensive.main stdout1 p1 = (Ok comprehensive_spec, comprehensive_progress) /\
   Comprehensive.main stdout2 p2 = Comprehensive.main stdout1 p1).
Proof.
  assert (Hs : forall stdout p,
             forallb (printable stdout) sample_progress = true ->
             Sample.main stdout p = (Ok sample_spec, sample_progress)).
  { intros stdout p H. unfold sample_progress in *. cbn [forallb] in H.
    apply andb_true_iff in H as [H1 H]. apply andb_true_iff in H as [H2 _].
    apply ValidatorFacts.printable_ok in H1, H2.
    unfold Sample.main. cbv zeta.
    apply MFacts.bind_print_eq; [exact H1 |]. apply MFacts.bind_print_eq; [exact H2 |].
    unfold sample_spec, sample_generator.
    rewrite GeneratorFacts.sample_generate, GeneratorFacts.returned_ok. reflexivity. }
  assert (Hc : forall stdout p,
             forallb (printable stdout) comprehensive_progress = true ->
             Comprehensive.main stdout p = (Ok comprehensive_spec, comprehensive_progress)).
  { intros stdout p H. unfold comprehensive_progress in *. cbn [forallb] in H.
    apply andb_true_iff in H as [H1 H]. apply andb_true_iff in H as [H2 _].
    apply ValidatorFacts.printable_ok in H1, H2.
    unfold Comprehensive.main. cbv zeta.
    apply MFacts.bind_print_eq; [exact H1 |]. apply MFacts.bind_print_eq; [exact H2 |].
    unfold comprehensive_spec, comprehensive_generator.
    rewrite GeneratorFacts.comprehensive_generate, GeneratorFacts.returned_ok.
    reflexivity. }
  split; intros H1 H2.
  - rewrite (Hs _ _ H1), (Hs _ _ H2). auto.
  - rewrite (Hc _ _ H1), (Hc _ _ H2). auto.
Qed.

Lemma two_runs_agree_witness :
  Sample.main terminal {| hash_seed := 0; argv := ["generate_sample_openapi.py"] |}
  = Sample.main limited_terminal {| hash_seed := 4242; argv := [] |} /\
  Comprehensive.main terminal {| hash_seed := 0; argv := [] |}
  = Comprehensive.main limited_terminal {| hash_seed := 4242; argv := [] |}.
Proof.
  split.
  - symmetry.
    apply (proj1 (two_runs_agree terminal limited_terminal
                    {| hash_seed := 0; argv := ["generate_sample_openapi.py"] |}
                    {| hash_seed := 4242; argv := [] |})); reflexivity.
  - symmetry.
    apply (proj2 (two_runs_agree terminal limited_terminal
                    {| hash_seed := 0; argv := [] |}
                    {| hash_seed := 4242; argv := [] |})); reflexivity.
Defined.

(** C4: whatever its tables hold, each of the three generators returns a
    specification object in which [openapi] is [3.0.3], whose keys are
    [openapi], [info], [servers], [paths] and [components], in this order
    and no other, and whose [components] has the keys [schemas] and
    [securitySchemes] and no other. *)
Theorem generated_specification_keys :
  (forall self : Sample.MastodonDocsGenerator.t,
     exists spec components,
       Sample.generate_openapi_spec self = (Ok spec, []) /\
       document_form spec /\
       py_iter spec = Ok (map VStr ["openapi"; "info"; "servers"; "paths"; "components"]) /\
       getitem spec "components" = Ok components /\
       py_iter components = Ok (map VStr ["schemas"; "securitySchemes"])) /\
  (forall self : Comprehensive.ComprehensiveMastodonGenerator.t,
     exists spec components,
       Comprehensive.generate_openapi_spec self = (Ok spec, []) /\
       document_form spec /\
       py_iter spec = Ok (map VStr ["openapi"; "info"; "servers"; "paths"; "components"]) /\
       getitem spec "components" = Ok components /\
       py_iter components = Ok (map VStr ["schemas"; "securitySchemes"])) /\
  (forall self : Scraper.MastodonDocsParser.t,
     exists spec components,
       Scraper.generate_openapi_spec self = (Ok spec, []) /\
       document_form spec /\
       py_iter spec = Ok (map VStr ["openapi"; "info"; "servers"; "paths"; "components"]) /\
       getitem spec "components" = Ok components /\
       py_iter components = Ok (map VStr ["schemas"; "securitySchemes"])).
Proof.
  split; [| split]; intros self; eexists; eexists.
  - split; [apply GeneratorFacts.sample_generate |].
    split; [apply GeneratorFacts.shape_document_form |]. repeat split.
  - split; [apply GeneratorFacts.comprehensive_generate |].
    split; [apply GeneratorFacts.shape_document_form |]. repeat split.
  - split; [apply GeneratorFacts.scraper_generate |].
    split; [apply GeneratorFacts.shape_document_form |]. repeat split.
Qed.

(** C5: for every entity of the table of a generator and every property of
    the entity, the name of the property is in the list [required] of the
    emitted schema exactly when the property is flagged required, and the
    schema has the key [required] exactly when one of the properties is
    flagged: in the sample and in the comprehensive generator for their
    hard-coded tables, and in the scraping generator for the tables that
    [parse_all_entities] and [parse_all_methods] build, whatever the
    network answers. *)
Theorem required_lists_of_the_tables :
  (forall name entity,
     In (name, entity) (Sample.MastodonDocsGenerator.entities sample_generator) ->
     exists schema,
       emitted_schema sample_spec name = Ok schema /\
       required_matches PropertyInfo.name PropertyInfo.required
         (EntityInfo.properties entity) schema) /\
  (forall name entity,
     In (name, entity)
        (Comprehensive.ComprehensiveMastodonGenerator.entities comprehensive_generator) ->
     exists schema,
       emitted_schema comprehensive_spec name = Ok schema /\
       required_matches Comprehensive.PropertyInfo.name Comprehensive.PropertyInfo.required
         (EntityInfo.properties entity) schema) /\
  (forall (env : Scraper.Env) (self1 self2 : Scraper.MastodonDocsParser.t)
          (out1 out2 : list line),
     Scraper.parse_all_entities env Scraper.__init__ = (Ok self1, out1) ->
     Scraper.parse_all_methods env self1 = (Ok self2, out2) ->
     forall name entity,
       In (name, entity) (Scraper.MastodonDocsParser.entities self2) ->
       exists schema,
         emitted_schema (returned (Scraper.generate_openapi_spec self2)) name = Ok schema /\
         required_matches PropertyInfo.name PropertyInfo.required
           (Scraper.EntityInfo.properties entity) schema).
Proof.
  split; [| split].
  - intros name entity Hin. exists (sample_entity_schema entity). split.
    + apply GeneratorFacts.sample_emitted_schema; [| exact Hin].
      apply GeneratorFacts.distinct_NoDup. vm_compute. reflexivity.
    + apply GeneratorFacts.sample_schema_required, GeneratorFacts.distinct_consistent.
      assert (Hall : forallb
                       (fun item =>
                          distinct (map PropertyInfo.name (EntityInfo.properties (snd item))))
                       (Sample.MastodonDocsGenerator.entities sample_generator) = true)
        by (vm_compute; reflexivity).
      rewrite forallb_forall in Hall. exact (Hall _ Hin).
  - intros name entity Hin. exists (comprehensive_entity_schema entity). split.
    + apply GeneratorFacts.comprehensive_emitted_schema; [| exact Hin].
      apply GeneratorFacts.distinct_NoDup. vm_compute. reflexivity.
    + apply GeneratorFacts.comprehensive_schema_required,
        GeneratorFacts.distinct_consistent.
      assert (Hall : forallb
                       (fun item =>
                          distinct (map Comprehensive.PropertyInfo.name
                                      (EntityInfo.properties (snd item))))
                       (Comprehensive.ComprehensiveMastodonGenerator.entities
                          comprehensive_generator) = true)
        by (vm_compute; reflexivity).
      rewrite forallb_forall in Hall. exact (Hall _ Hin).
  - intros env self1 self2 out1 out2 H1 H2 name entity Hin.
    destruct (ScraperFacts.parse_all_entities_keeps _ _ _ _ H1) as [_ Hscraped].
    destruct (ScraperFacts.parse_all_methods_keeps _ _ _ _ H2) as [Hsame _].
    specialize (Hscraped ScraperFacts.scraped_entities_nil). rewrite <- Hsame in Hscraped.
    destruct Hscraped as [Hnd Hall]. destruct (Hall _ _ Hin) as [_ Hprops].
    exists (scraper_entity_schema entity).
    split; [apply GeneratorFacts.scraper_emitted_schema; assumption |].
    apply GeneratorFacts.scraper_schema_required.
    intros p q Hp Hq _. rewrite Forall_forall in Hprops.
    destruct (Hprops p Hp) as [-> _]. destruct (Hprops q Hq) as [-> _]. reflexivity.
Qed.

Lemma required_lists_of_the_tables_witness :
  (exists schema,
     emitted_schema sample_spec "Error" = Ok schema /\
     required_matches PropertyInfo.name PropertyInfo.required
       Sample.error_properties schema) /\
  (exists schema,
     emitted_schema
       (returned (Scraper.generate_openapi_spec ScraperSpec.account_parser))
       "Account" = Ok schema /\
     required_matches PropertyInfo.name PropertyInfo.required
       (map (Scraper.property_of ScraperSpec.account_docs)
          (Scraper.attr_matches ScraperSpec.account_docs ""))
       schema).
Proof.
  split.
  - apply (proj1 required_lists_of_the_tables "Error"
             (EntityInfo.mk "Error" "Represents an error." Sample.error_properties)).
    vm_compute. tauto.
  - apply (proj2 (proj2 required_lists_of_the_tables)
             ScraperSpec.account_docs ScraperSpec.account_entities
             ScraperSpec.account_parser
             [[FLit "Parsed entity: "; FLit "Account"]]
             [[FLit "Parsed endpoint: "; FLit "GET"; FLit " "; FLit "/api/v1/accounts"]]
             eq_refl eq_refl
             "Account"
             (Scraper.EntityInfo.mk "Account" (VStr "Represents a user.")
                (map (Scraper.property_of ScraperSpec.account_docs)
                   (Scraper.attr_matches ScraperSpec.account_docs "")))).
    left. reflexivity.
Defined.

End GeneratorClaims.

Section ScraperClaims.
Import Py Scraper ScraperSpec MFacts ScraperFacts.






End ScraperClaims.

(** * Further properties of the code *)

Section SpecificationObject.
Import Py GeneratorSpec GeneratorFacts.

(** X1: whatever its tables hold, each of the three generators returns a
    specification object, and in it [openapi] is [3.0.3], the keys
    [openapi], [info], [servers], [paths] and [components] are present, and
    [components] has the keys [schemas] and [securitySchemes]. *)
Theorem generate_document_form :
  (forall self : Sample.MastodonDocsGenerator.t,
     exists spec,
       Sample.generate_openapi_spec self = (Ok spec, []) /\ document_form spec) /\
  (forall self : Comprehensive.ComprehensiveMastodonGenerator.t,
     exists spec,
       Comprehensive.generate_openapi_spec self = (Ok spec, []) /\ document_form spec) /\
  (forall self : Scraper.MastodonDocsParser.t,
     exists spec,
       Scraper.generate_openapi_spec self = (Ok spec, []) /\ document_form spec).
Proof.
  split; [| split]; intros self; eexists.
  - split; [apply sample_generate | apply shape_document_form].
  - split; [apply comprehensive_generate | apply shape_document_form].
  - split; [apply scraper_generate | apply shape_document_form].
Qed.

End SpecificationObject.

Section RequiredLists.
Import Py GeneratorSpec GeneratorFacts.

(** X2: in the sample and in the comprehensive generator, for a table whose
    entity names differ and an entity whose property names differ, the
    schema emitted for the entity lists a property under [required] exactly
    when the property is flagged required, and has the key [required]
    exactly when some property is flagged. *)
Theorem required_list_matches_flags :
  (forall (self : Sample.MastodonDocsGenerator.t) name entity,
     distinct (map fst (Sample.MastodonDocsGenerator.entities self)) = true ->
     In (name, entity) (Sample.MastodonDocsGenerator.entities self) ->
     distinct (map PropertyInfo.name (EntityInfo.properties entity)) = true ->
     exists schema,
       emitted_schema (returned (Sample.generate_openapi_spec self)) name = Ok schema /\
       required_matches PropertyInfo.name PropertyInfo.required
         (EntityInfo.properties entity) schema) /\
  (forall (self : Comprehensive.ComprehensiveMastodonGenerator.t) name entity,
     distinct (map fst (Comprehensive.ComprehensiveMastodonGenerator.entities self)) = true ->
     In (name, entity) (Comprehensive.ComprehensiveMastodonGenerator.entities self) ->
     distinct (map Comprehensive.PropertyInfo.name (EntityInfo.properties entity)) = true ->
     exists schema,
       emitted_schema (returned (Comprehensive.generate_openapi_spec self)) name
         = Ok schema /\
       required_matches Comprehensive.PropertyInfo.name Comprehensive.PropertyInfo.required
         (EntityInfo.properties entity) schema).
Proof.
  split; intros self name entity Hkeys Hin Hnames.
  - exists (sample_entity_schema entity). split.
    + apply sample_emitted_schema; [apply distinct_NoDup; exact Hkeys | exact Hin].
    + apply sample_schema_required, distinct_consistent. exact Hnames.
  - exists (comprehensive_entity_schema entity). split.
    + apply comprehensive_emitted_schema; [apply distinct_NoDup; exact Hkeys | exact Hin].
    + apply comprehensive_schema_required, distinct_consistent. exact Hnames.
Qed.

Lemma required_list_matches_flags_witness :
  (exists schema,
     emitted_schema sample_spec "Error" = Ok schema /\
     required_matches PropertyInfo.name PropertyInfo.required
       Sample.error_properties schema) /\
  (exists schema,
     emitted_schema comprehensive_spec "Notification" = Ok schema /\
     required_matches Comprehensive.PropertyInfo.name Comprehensive.PropertyInfo.required
       Comprehensive.notification_properties schema).
Proof.
  split.
  - apply (proj1 required_list_matches_flags sample_generator "Error"
             (EntityInfo.mk "Error" "Represents an error." Sample.error_properties)).
    + vm_compute. reflexivity.
    + vm_compute. tauto.
    + vm_compute. reflexivity.
  - apply (proj2 required_list_matches_flags comprehensive_generator "Notification"
             (EntityInfo.mk "Notification"
                "Represents a notification of an event relevant to the user."
                Comprehensive.notification_properties)).
    + vm_compute. reflexivity.
    + vm_compute. tauto.
    + vm_compute. reflexivity.
Defined.

End RequiredLists.

Section GeneratedDocumentsValidate.
Import Py GeneratorSpec GeneratorFacts DictFacts Validator ValidatorSpec ValidatorFacts.

Lemma forallb_values_assign (p : value -> bool) (k : string) (v : value)
    (d : list (value * value)) :
  forallb p (map snd d) = true -> p v = true ->
  forallb p (map snd (assign k v d)) = true.
Proof.
  intros Hd Hv. induction d as [| [k' v'] d IH]; simpl in *.
  - rewrite Hv. reflexivity.
  - apply andb_true_iff in Hd as [Hv' Hd]. destruct (is_key k k'); simpl.
    + rewrite Hv, Hd. reflexivity.
    + rewrite Hv', (IH Hd). reflexivity.
Qed.

Lemma forallb_values_lookup (p : value -> bool) (k : string) (v : value)
    (d : list (value * value)) :
  forallb p (map snd d) = true -> lookup k d = Some v -> p v = true.
Proof.
  induction d as [| [k' v'] d IH]; simpl; intros Hd Hl; [discriminate |].
  apply andb_true_iff in Hd as [Hv' Hd]. destruct (is_key k k').
  - inversion Hl; subst. exact Hv'.
  - auto.
Qed.

Lemma strings_are_strings (l : list string) : forallb is_str (map VStr l) = true.
Proof. induction l as [| x l IH]; simpl; auto. Qed.

(** Storing an operation whose tags are strings keeps the path items in
    the form that the validator reads. *)
Lemma store_operation_ok (paths : list (value * value)) (path method : string)
    (operation : value) :
  forallb path_item_ok (map snd paths) = true ->
  operation_ok operation = true ->
  forallb path_item_ok (map snd (store_operation paths path method operation)) = true.
Proof.
  intros Hpaths Hop. unfold store_operation. apply forallb_values_assign; [exact Hpaths |].
  simpl. apply forallb_values_assign; [| exact Hop].
  unfold entries_at. destruct (lookup path paths) as [item |] eqn:Hl; [| reflexivity].
  pose proof (forallb_values_lookup _ _ _ _ Hpaths Hl) as Hitem.
  destruct item; try reflexivity. exact Hitem.
Qed.

Lemma store_operations_ok {X} (path method : X -> string) (operation : X -> value)
    (xs : list X) :
  (forall x, operation_ok (operation x) = true) ->
  forall paths,
    forallb path_item_ok (map snd paths) = true ->
    forallb path_item_ok
      (map snd (store_operations path method operation xs paths)) = true.
Proof.
  intros Hop. unfold store_operations.
  induction xs as [| x xs IH]; simpl; intros paths Hpaths; [exact Hpaths |].
  apply IH. apply store_operation_ok; [exact Hpaths | apply Hop].
Qed.

Lemma sample_operation_ok (endpoint : EndpointInfo.t) :
  operation_ok (Sample.operation_of endpoint) = true.
Proof.
  unfold Sample.operation_of.
  destruct (map Common.param_schema (EndpointInfo.parameters endpoint));
    destruct (Sample.needs_security endpoint); simpl; unfold tags_ok; simpl;
    apply strings_are_strings.
Qed.

Lemma comprehensive_operation_ok (endpoint : EndpointInfo.t) :
  operation_ok (Comprehensive.operation_of endpoint) = true.
Proof.
  unfold Comprehensive.operation_of.
  destruct (map Common.param_schema (EndpointInfo.parameters endpoint));
    destruct (Comprehensive.needs_security endpoint); simpl; unfold tags_ok; simpl;
    apply strings_are_strings.
Qed.

Lemma scraper_operation_ok (endpoint : Scraper.EndpointInfo.t) :
  operation_ok (Scraper.operation_of endpoint) = true.
Proof.
  unfold Scraper.operation_of. simpl. unfold tags_ok. simpl. apply strings_are_strings.
Qed.

(** A specification object in the form of [shape] whose info has a title
    and a version is accepted when its path items are in order. *)
Lemma shape_accepted (info : list (value * value)) (servers : value)
    (paths schemas : list (value * value)) (security : value) :
  ValidatorSpec.is_some (lookup "title" info) = true ->
  ValidatorSpec.is_some (lookup "version" info) = true ->
  forallb path_item_ok (map snd paths) = true ->
  has_required_items (shape (VDict info) servers paths schemas security) = true /\
  well_formed (shape (VDict info) servers paths schemas security) = true.
Proof.
  intros Htitle Hversion Hpaths. split.
  - unfold has_required_items, shape. simpl. rewrite Htitle, Hversion. reflexivity.
  - unfold well_formed, components_ok, shape. simpl. rewrite Hpaths. reflexivity.
Qed.

(** A document with the four items that is well formed is accepted
    exactly when its report can be printed. *)
Lemma accepted_when_printed (stdout : console) (f : file) (spec : value) :
  parsed_document f = Some spec ->
  has_required_items spec = true /\ well_formed spec = true ->
  fst (validate_openapi_spec stdout f) = Ok true <->
  forallb (printable stdout) (report_lines spec) = true.
Proof.
  intros Hdoc [Hitems Hwf]. split.
  - destruct (validate_openapi_spec stdout f) as [r out] eqn:Hv. simpl. intros ->.
    apply validate_true_inv in Hv as (spec' & Hdoc' & _ & _ & -> & Hprint).
    rewrite Hdoc in Hdoc'. inversion Hdoc'; subst spec'. exact Hprint.
  - intros Hprint. rewrite (validate_accepts _ _ _ Hdoc Hitems Hwf Hprint). reflexivity.
Qed.

Lemma sample_accepted (self : Sample.MastodonDocsGenerator.t) :
  has_required_items (returned (Sample.generate_openapi_spec self)) = true /\
  well_formed (returned (Sample.generate_openapi_spec self)) = true.
Proof.
  rewrite sample_generate, returned_ok.
  exact (shape_accepted
           (lit [ ("title", VStr "Mastodon API");
                  ("description", VStr "API for Mastodon, a decentralized social network");
                  ("version", VStr "4.3.0");
                  ("contact", Common.contact);
                  ("license", Common.license) ])
           Common.servers
           (store_operations sample_path EndpointInfo.method Sample.operation_of
              (Sample.MastodonDocsGenerator.endpoints self) [])
           (store_all fst (fun item => sample_entity_schema (snd item))
              (Sample.MastodonDocsGenerator.entities self) [])
           (security_of Sample.initial_spec) eq_refl eq_refl
           (store_operations_ok _ _ _ _ sample_operation_ok [] eq_refl)).
Qed.

Lemma comprehensive_accepted (self : Comprehensive.ComprehensiveMastodonGenerator.t) :
  has_required_items (returned (Comprehensive.generate_openapi_spec self)) = true /\
  well_formed (returned (Comprehensive.generate_openapi_spec self)) = true.
Proof.
  rewrite comprehensive_generate, returned_ok.
  exact (shape_accepted
           (lit [ ("title", VStr "Mastodon API");
                  ("description",
                   VStr "The Mastodon REST API. Please see https://docs.joinmastodon.org/api/ for more details.");
                  ("version", VStr "4.3.0");
                  ("contact", Common.contact);
                  ("license", Common.license) ])
           Common.servers
           (store_operations comprehensive_path EndpointInfo.method
              Comprehensive.operation_of
              (Comprehensive.ComprehensiveMastodonGenerator.endpoints self) [])
           (store_all fst (fun item => comprehensive_entity_schema (snd item))
              (Comprehensive.ComprehensiveMastodonGenerator.entities self) [])
           (security_of Comprehensive.initial_spec) eq_refl eq_refl
           (store_operations_ok _ _ _ _ comprehensive_operation_ok [] eq_refl)).
Qed.

Lemma scraper_accepted (self : Scraper.MastodonDocsParser.t) :
  has_required_items (returned (Scraper.generate_openapi_spec self)) = true /\
  well_formed (returned (Scraper.generate_openapi_spec self)) = true.
Proof.
  rewrite scraper_generate, returned_ok.
  exact (shape_accepted
           (lit [ ("title", VStr "Mastodon API");
                  ("description", VStr "API for Mastodon, a decentralized social network");
                  ("version", VStr "4.3.0");
                  ("contact", Common.contact);
                  ("license", Common.license) ])
           Common.servers
           (store_operations Scraper.EndpointInfo.path Scraper.EndpointInfo.method
              Scraper.operation_of (Scraper.MastodonDocsParser.endpoints self) [])
           (store_all fst (fun item => scraper_entity_schema (snd item))
              (Scraper.MastodonDocsParser.entities self) [])
           (security_of Scraper.initial_spec) eq_refl eq_refl
           (store_operations_ok _ _ _ _ scraper_operation_ok [] eq_refl)).
Qed.

(** X3: the validator accepts every specification object that a generator
    returns, whatever the tables of the generator hold: on a file whose
    parsed document is such an object it returns True, provided the seven
    calls of [print] of its report succeed (and only then). *)
Theorem generated_documents_validate (stdout : console) (f : file) :
  (forall self : Sample.MastodonDocsGenerator.t,
     parsed_document f = Some (returned (Sample.generate_openapi_spec self)) ->
     fst (validate_openapi_spec stdout f) = Ok true <->
     forallb (printable stdout)
       (report_lines (returned (Sample.generate_openapi_spec self))) = true) /\
  (forall self : Comprehensive.ComprehensiveMastodonGenerator.t,
     parsed_document f = Some (returned (Comprehensive.generate_openapi_spec self)) ->
     fst (validate_openapi_spec stdout f) = Ok true <->
     forallb (printable stdout)
       (report_lines (returned (Comprehensive.generate_openapi_spec self))) = true) /\
  (forall self : Scraper.MastodonDocsParser.t,
     parsed_document f = Some (returned (Scraper.generate_openapi_spec self)) ->
     fst (validate_openapi_spec stdout f) = Ok true <->
     forallb (printable stdout)
       (report_lines (returned (Scraper.generate_openapi_spec self))) = true).
Proof.
  split; [| split]; intros self Hdoc; apply (accepted_when_printed _ _ _ Hdoc).
  - apply sample_accepted.
  - apply comprehensive_accepted.
  - apply scraper_accepted.
Qed.

Lemma generated_documents_validate_witness :
  fst (validate_openapi_spec terminal (yaml_file sample_spec)) = Ok true.
Proof.
  apply (proj1 (generated_documents_validate terminal (yaml_file sample_spec))
           sample_generator eq_refl).
  vm_compute. reflexivity.
Defined.

End GeneratedDocumentsValidate.

Section LastEndpointWins.
Import Py GeneratorSpec GeneratorFacts DictFacts.

Lemma operation_at_store_same (paths : list (value * value)) (path method : string)
    (operation : value) :
  operation_at (store_operation paths path method operation) path method = Some operation.
Proof.
  unfold operation_at, store_operation. rewrite lookup_assign_same. apply lookup_assign_same.
Qed.

Lemma operation_at_store_other (paths : list (value * value))
    (path method path' method' : string) (operation : value) :
  ~ (path' = path /\ method' = method) ->
  operation_at (store_operation paths path method operation) path' method' =
  operation_at paths path' method'.
Proof.
  intros Hne. unfold operation_at, store_operation.
  destruct (string_dec path path') as [<- | Hpath].
  - rewrite lookup_assign_same.
    assert (Hm : method <> method') by (intros <-; apply Hne; auto).
    rewrite (lookup_assign_other _ _ _ _ Hm). unfold entries_at.
    destruct (lookup path paths) as [[| | | | | | entries] |]; reflexivity.
  - rewrite (lookup_assign_other _ _ _ _ Hpath). reflexivity.
Qed.

Lemma operation_at_store_operations {X} (path method : X -> string) (operation : X -> value)
    (p m : string) (xs : list X) :
  (forall x, In x xs -> ~ (p = path x /\ m = method x)) ->
  forall paths,
    operation_at (store_operations path method operation xs paths) p m =
    operation_at paths p m.
Proof.
  unfold store_operations. induction xs as [| x xs IH]; simpl; intros Hno paths.
  - reflexivity.
  - rewrite IH by (intros y Hy; apply Hno; auto).
    apply operation_at_store_other. apply Hno. auto.
Qed.

(** The operation of an endpoint that no later endpoint overrides. *)
Lemma operation_at_last {X} (path method : X -> string) (operation : X -> value)
    (before after : list X) (x : X) (paths : list (value * value)) :
  (forall y, In y after -> ~ (path x = path y /\ method x = method y)) ->
  operation_at (store_operations path method operation (before ++ x :: after) paths)
    (path x) (method x) = Some (operation x).
Proof.
  intros Hno. unfold store_operations. rewrite fold_left_app. simpl.
  fold (store_operations path method operation before paths).
  fold (store_operations path method operation after
          (store_operation (store_operations path method operation before paths)
             (path x) (method x) (operation x))).
  rewrite (operation_at_store_operations _ _ _ _ _ _ Hno).
  apply operation_at_store_same.
Qed.

Lemma emitted_operation_shape info servers paths schemas security
    (path method : string) (operation : value) :
  operation_at paths path method = Some operation ->
  emitted_operation (shape info servers paths schemas security) path method = Ok operation.
Proof.
  unfold operation_at, emitted_operation. rewrite paths_of_shape. simpl.
  destruct (lookup path paths) as [[| | | | | | entries] |]; try discriminate.
  simpl. intros ->. reflexivity.
Qed.

(** X4: in each generator the operation emitted at the path and method of
    an endpoint is the operation of that endpoint, unless a later endpoint
    has the same path and method: no endpoint is lost otherwise, and of
    two endpoints with the same path and method the later one stays. *)
Theorem last_endpoint_wins :
  (forall (self : Sample.MastodonDocsGenerator.t) before endpoint after,
     Sample.MastodonDocsGenerator.endpoints self = before ++ endpoint :: after ->
     (forall later, In later after ->
        ~ (sample_path endpoint = sample_path later /\
           EndpointInfo.method endpoint = EndpointInfo.method later)) ->
     emitted_operation (returned (Sample.generate_openapi_spec self))
       (sample_path endpoint) (EndpointInfo.method endpoint)
     = Ok (Sample.operation_of endpoint)) /\
  (forall (self : Comprehensive.ComprehensiveMastodonGenerator.t) before endpoint after,
     Comprehensive.ComprehensiveMastodonGenerator.endpoints self
       = before ++ endpoint :: after ->
     (forall later, In later after ->
        ~ (comprehensive_path endpoint = comprehensive_path later /\
           EndpointInfo.method endpoint = EndpointInfo.method later)) ->
     emitted_operation (returned (Comprehensive.generate_openapi_spec self))
       (comprehensive_path endpoint) (EndpointInfo.method endpoint)
     = Ok (Comprehensive.operation_of endpoint)) /\
  (forall (self : Scraper.MastodonDocsParser.t) before endpoint after,
     Scraper.MastodonDocsParser.endpoints self = before ++ endpoint :: after ->
     (forall later, In later after ->
        ~ (Scraper.EndpointInfo.path endpoint = Scraper.EndpointInfo.path later /\
           Scraper.EndpointInfo.method endpoint = Scraper.EndpointInfo.method later)) ->
     emitted_operation (returned (Scraper.generate_openapi_spec self))
       (Scraper.EndpointInfo.path endpoint) (Scraper.EndpointInfo.method endpoint)
     = Ok (Scraper.operation_of endpoint)).
Proof.
  split; [| split]; intros self before endpoint after Hsplit Hno.
  - rewrite sample_generate, returned_ok, Hsplit. apply emitted_operation_shape.
    apply (operation_at_last sample_path EndpointInfo.method Sample.operation_of).
    exact Hno.
  - rewrite comprehensive_generate, returned_ok, Hsplit. apply emitted_operation_shape.
    apply (operation_at_last comprehensive_path EndpointInfo.method
             Comprehensive.operation_of).
    exact Hno.
  - rewrite scraper_generate, returned_ok, Hsplit. apply emitted_operation_shape.
    apply (operation_at_last Scraper.EndpointInfo.path Scraper.EndpointInfo.method
             Scraper.operation_of).
    exact Hno.
Qed.

Lemma last_endpoint_wins_witness :
  emitted_operation
    (returned
       (Sample.generate_openapi_spec
          (Sample.MastodonDocsGenerator.mk []
             [ Sample.create_endpoint
                 ("statuses", "GET", "/api/v1/statuses/:id", "Get status", "Retrieve a status");
               Sample.create_endpoint
                 ("statuses", "GET", "/api/v1/statuses/{id}", "View status", "View a status");
               Sample.create_endpoint
                 ("statuses", "DELETE", "/api/v1/statuses/:id", "Delete status",
                  "Delete a status") ])))
    "/api/v1/statuses/{id}" "get"
  = Ok (Sample.operation_of
          (Sample.create_endpoint
             ("statuses", "GET", "/api/v1/statuses/{id}", "View status", "View a status"))).
Proof.
  apply (proj1 last_endpoint_wins
           (Sample.MastodonDocsGenerator.mk []
              [ Sample.create_endpoint
                  ("statuses", "GET", "/api/v1/statuses/:id", "Get status", "Retrieve a status");
                Sample.create_endpoint
                  ("statuses", "GET", "/api/v1/statuses/{id}", "View status", "View a status");
                Sample.create_endpoint
                  ("statuses", "DELETE", "/api/v1/statuses/:id", "Delete status",
                   "Delete a status") ])
           [ Sample.create_endpoint
               ("statuses", "GET", "/api/v1/statuses/:id", "Get status", "Retrieve a status") ]
           (Sample.create_endpoint
              ("statuses", "GET", "/api/v1/statuses/{id}", "View status", "View a status"))
           [ Sample.create_endpoint
               ("statuses", "DELETE", "/api/v1/statuses/:id", "Delete status",
                "Delete a status") ]).
  - reflexivity.
  - intros later [<- | []] [_ Hmethod]. vm_compute in Hmethod. discriminate.
Defined.

End LastEndpointWins.

Section SchemaOrder.
Import Py GeneratorSpec GeneratorFacts DictFacts.

Lemma assign_absent (k : string) (v : value) (d : list (value * value)) :
  lookup k d = None -> assign k v d = d ++ [(VStr k, v)].
Proof.
  induction d as [| [k' v'] d IH]; simpl; intros Hl; [reflexivity |].
  destruct (is_key k k'); [discriminate |]. rewrite (IH Hl). reflexivity.
Qed.

Lemma lookup_snoc_other (k k' : string) (v : value) (d : list (value * value)) :
  k <> k' -> lookup k' (d ++ [(VStr k, v)]) = lookup k' d.
Proof.
  intros Hne. induction d as [| [k0 v0] d IH]; simpl.
  - destruct (String.eqb k k') eqn:Hk; [apply String.eqb_eq in Hk; contradiction | reflexivity].
  - rewrite IH. reflexivity.
Qed.

Lemma store_all_appends {X} (key : X -> string) (val : X -> value) (xs : list X) :
  NoDup (map key xs) ->
  forall d,
    (forall x, In x xs -> lookup (key x) d = None) ->
    store_all key val xs d = d ++ map (fun x => (VStr (key x), val x)) xs.
Proof.
  unfold store_all. induction xs as [| x xs IH]; simpl; intros Hnd d Hfresh.
  - rewrite app_nil_r. reflexivity.
  - inversion Hnd as [| ? ? Hnotin Hnd']; subst.
    rewrite (assign_absent _ _ _ (Hfresh x (or_introl eq_refl))).
    rewrite (IH Hnd').
    + rewrite <- app_assoc. reflexivity.
    + intros y Hy. rewrite lookup_snoc_other.
      * apply Hfresh. auto.
      * intros Heq. apply Hnotin. rewrite Heq. apply in_map. exact Hy.
Qed.

Lemma emitted_schema_names_shape {X} info servers paths security
    (key : X -> string) (val : X -> value) (xs : list X) :
  distinct (map key xs) = true ->
  emitted_schema_names (shape info servers paths (store_all key val xs []) security) =
  Ok (map VStr (map key xs)).
Proof.
  intros Hd. unfold emitted_schema_names. simpl.
  rewrite (store_all_appends key val xs (distinct_NoDup _ Hd) [] (fun _ _ => eq_refl)).
  simpl. rewrite !map_map. reflexivity.
Qed.

(** X5: when the entity names of a table differ, the schemas of the
    specification object are keyed by the entity names, in the order of the
    table; so there are as many schemas as entities. *)
Theorem schemas_follow_the_table :
  (forall self : Sample.MastodonDocsGenerator.t,
     distinct (map fst (Sample.MastodonDocsGenerator.entities self)) = true ->
     emitted_schema_names (returned (Sample.generate_openapi_spec self)) =
     Ok (map VStr (map fst (Sample.MastodonDocsGenerator.entities self)))) /\
  (forall self : Comprehensive.ComprehensiveMastodonGenerator.t,
     distinct (map fst (Comprehensive.ComprehensiveMastodonGenerator.entities self)) = true ->
     emitted_schema_names (returned (Comprehensive.generate_openapi_spec self)) =
     Ok (map VStr (map fst (Comprehensive.ComprehensiveMastodonGenerator.entities self)))) /\
  (forall self : Scraper.MastodonDocsParser.t,
     distinct (map fst (Scraper.MastodonDocsParser.entities self)) = true ->
     emitted_schema_names (returned (Scraper.generate_openapi_spec self)) =
     Ok (map VStr (map fst (Scraper.MastodonDocsParser.entities self)))).
Proof.
  split; [| split]; intros self Hd.
  - rewrite sample_generate, returned_ok. apply emitted_schema_names_shape. exact Hd.
  - rewrite comprehensive_generate, returned_ok. apply emitted_schema_names_shape. exact Hd.
  - rewrite scraper_generate, returned_ok. apply emitted_schema_names_shape. exact Hd.
Qed.

Lemma schemas_follow_the_table_witness :
  emitted_schema_names comprehensive_spec =
  Ok (map VStr
        (map fst (Comprehensive.ComprehensiveMastodonGenerator.entities
                    comprehensive_generator))).
Proof.
  apply (proj1 (proj2 schemas_follow_the_table) comprehensive_generator).
  vm_compute. reflexivity.
Defined.

End SchemaOrder.

Section PathConversion.
Import Py GeneratorSpec.

Lemma prefix_cons (a b : ascii) (p s : string) :
  String.prefix (String a p) (String b s) = true <-> a = b /\ String.prefix p s = true.
Proof.
  simpl. destruct (ascii_dec a b) as [-> | Hne]; split; intros H;
    try tauto; try discriminate.
Qed.

Lemma prefix_drop (p s : string) :
  String.prefix p s = true -> (p ++ drop (String.length p) s)%string = s.
Proof.
  revert s. induction p as [| a p IH]; intros s H.
  - reflexivity.
  - destruct s as [| b s]; [discriminate |].
    apply prefix_cons in H as [-> H]. simpl. rewrite (IH s H). reflexivity.
Qed.

Lemma replace_fuel_same (old : string) (fuel : nat) :
  forall s, replace_fuel fuel s old old = s.
Proof.
  induction fuel as [| fuel IH]; intros s; simpl; [reflexivity |].
  destruct s as [| c s]; [reflexivity |].
  destruct (String.prefix old (String c s)) eqn:Hp.
  - rewrite IH. apply prefix_drop. exact Hp.
  - rewrite IH. reflexivity.
Qed.

(** X6: replacing a string by itself changes nothing, so the conversion of
    the comprehensive generator,
    [endpoint.path.replace("{", "{").replace("}", "}")], returns the path
    of the endpoint and the operations are stored at the paths of the
    table as they are. *)
Theorem comprehensive_path_unchanged :
  (forall s old, replace s old old = s) /\
  (forall endpoint, comprehensive_path endpoint = EndpointInfo.path endpoint).
Proof.
  assert (H : forall s old, replace s old old = s)
    by (intros s old; apply replace_fuel_same).
  split; [exact H |]. intros endpoint. unfold comprehensive_path. rewrite !H. reflexivity.
Qed.

Lemma replace_fuel_cons (fuel : nat) (c : ascii) (s old new : string) :
  replace_fuel (S fuel) (String c s) old new =
  if String.prefix old (String c s)
  then (new ++ replace_fuel fuel (drop (String.length old) (String c s)) old new)%string
  else String c (replace_fuel fuel s old new).
Proof. reflexivity. Qed.

Lemma contains_cons (c : ascii) (s sub : string) :
  contains (String c s) sub = String.prefix sub (String c s) || contains s sub.
Proof. reflexivity. Qed.

Lemma prefix_cons_false (a b : ascii) (p s : string) :
  a <> b -> String.prefix (String a p) (String b s) = false.
Proof.
  intros Hne. destruct (String.prefix (String a p) (String b s)) eqn:H; [| reflexivity].
  apply prefix_cons in H as [Heq _]. contradiction.
Qed.

Lemma starts_d (fuel : nat) (s : string) :
  String.prefix "d" (replace_fuel fuel s ":id" "{id}") = true -> String.prefix "d" s = true.
Proof.
  destruct fuel as [| fuel]; [auto |].
  destruct s as [| c s]; [auto |]. rewrite replace_fuel_cons.
  destruct (String.prefix ":id" (String c s)).
  - intros H. apply prefix_cons in H as [H _]. discriminate H.
  - intros H. apply prefix_cons in H as [<- _]. apply prefix_cons.
    split; [reflexivity | destruct s; reflexivity].
Qed.

Lemma starts_id (fuel : nat) (s : string) :
  String.prefix "id" (replace_fuel fuel s ":id" "{id}") = true -> String.prefix "id" s = true.
Proof.
  destruct fuel as [| fuel]; [auto |].
  destruct s as [| c s]; [auto |]. rewrite replace_fuel_cons.
  destruct (String.prefix ":id" (String c s)).
  - intros H. apply prefix_cons in H as [H _]. discriminate H.
  - intros H. apply prefix_cons in H as [<- H]. apply starts_d in H.
    apply prefix_cons. auto.
Qed.

Lemma length_drop (n : nat) (s : string) : String.length (drop n s) <= String.length s.
Proof.
  revert s. induction n as [| n IH]; intros s; simpl; [lia |].
  destruct s as [| c s]; simpl; [lia |]. specialize (IH s). lia.
Qed.

Lemma no_placeholder_fuel (fuel : nat) :
  forall s, String.length s <= fuel ->
            contains (replace_fuel fuel s ":id" "{id}") ":id" = false.
Proof.
  induction fuel as [| fuel IH]; intros s Hlen.
  - destruct s; [reflexivity | simpl in Hlen; lia].
  - destruct s as [| c s]; [reflexivity |]. simpl in Hlen.
    rewrite replace_fuel_cons. destruct (String.prefix ":id" (String c s)) eqn:Hp.
    + assert (Hrest : contains (replace_fuel fuel (drop 2 s) ":id" "{id}") ":id" = false).
      { apply IH. pose proof (length_drop 2 s). lia. }
      change (drop (String.length ":id") (String c s)) with (drop 2 s).
      change ("{id}" ++ replace_fuel fuel (drop 2 s) ":id" "{id}")%string
        with (String "{" (String "i" (String "d" (String "}"
                (replace_fuel fuel (drop 2 s) ":id" "{id}"))))).
      rewrite !contains_cons, Hrest.
      rewrite !prefix_cons_false by discriminate. reflexivity.
    + assert (Hrest : contains (replace_fuel fuel s ":id" "{id}") ":id" = false)
        by (apply IH; lia).
      rewrite contains_cons, Hrest, orb_false_r.
      destruct (String.prefix ":id" (String c (replace_fuel fuel s ":id" "{id}"))) eqn:Hq;
        [| reflexivity].
      apply prefix_cons in Hq as [<- Hq]. apply starts_id in Hq.
      assert (Hp' : String.prefix ":id" (String ":" s) = true)
        by (apply prefix_cons; auto).
      rewrite Hp' in Hp. discriminate.
Qed.

(** X7: the conversion of the sample generator,
    [endpoint.path.replace(":id", "{id}")], leaves no [:id] in a path. *)
Theorem sample_path_has_no_placeholder (endpoint : EndpointInfo.t) :
  contains (sample_path endpoint) ":id" = false.
Proof.
  unfold sample_path, replace. apply no_placeholder_fuel. lia.
Qed.

End PathConversion.

Section ValidatorReport.
Import Py Validator ValidatorSpec ValidatorFacts MFacts.

(** X8: the value that the validator returns and its calls of [print]
    agree.  When it returns False, the last call of [print] that it made
    printed a failure message, a text that starts with the cross mark (and
    that runs over several lines when the message of the exception does),
    and no call before it did; when it returns True or propagates an
    exception, no call printed a failure message. *)
Theorem validate_failure_indicator (stdout : console) (f : file) (r : result bool)
    (out : list line) :
  validate_openapi_spec stdout f = (r, out) ->
  (r = Ok false ->
   exists out' l, out = out' ++ [l] /\ failure_line l = true /\ no_failure out') /\
  (r <> Ok false -> no_failure out).
Proof. apply validate_indicates. Qed.

Lemma validate_failure_indicator_witness :
  (exists out' l,
     [[FLit "❌ Validation error: "; FExn TypeError]] = out' ++ [l] /\
     failure_line l = true /\ no_failure out') /\
  no_failure (snd (validate_openapi_spec terminal (yaml_file small_document))) /\
  no_failure (snd (validate_openapi_spec ascii_terminal malformed_yaml_file)).
Proof.
  split; [| split].
  - apply (proj1 (validate_failure_indicator terminal (yaml_file empty_paths_document)
                    (Ok false) _ eq_refl)).
    reflexivity.
  - apply (proj2 (validate_failure_indicator terminal (yaml_file small_document)
                    (Ok true) _ eq_refl)).
    discriminate.
  - apply (proj2 (validate_failure_indicator ascii_terminal malformed_yaml_file
                    (Raise UnicodeEncodeError) _ eq_refl)).
    discriminate.
Defined.

End ValidatorReport.

Section AnnouncedThenRejected.
Import Py Validator ValidatorSpec ValidatorFacts MFacts.

(** X9: a parsed document that has the four items, a mapping at [paths]
    and [components] in order, but a path item that is not a mapping or
    tags that are not strings, is first announced as valid, with the
    version, the title and the API version that it has at [openapi],
    [info.title] and [info.version] and with its counts, and then
    rejected: when these six calls of [print] and that of the failure
    message succeed, the validator returns False after a seventh call,
    which reports a validation error, a TypeError or an AttributeError. *)
Theorem validate_announces_then_rejects (stdout : console) (f : file)
    (d info paths : list (value * value)) (version title api_version : value) :
  parsed_document f = Some (VDict d) ->
  has_required_items (VDict d) = true ->
  lookup "openapi" d = Some version ->
  lookup "info" d = Some (VDict info) ->
  lookup "title" info = Some title ->
  lookup "version" info = Some api_version ->
  lookup "paths" d = Some (VDict paths) ->
  components_ok d = true ->
  forallb path_item_ok (map snd paths) = false ->
  forallb (printable stdout)
    (announcement version title api_version (List.length paths) (schemas_count d)) = true ->
  (forall e, stdout [FLit "❌ Validation error: "; FExn e] = Ok tt) ->
  exists e,
    (e = TypeError \/ e = AttributeError) /\
    validate_openapi_spec stdout f =
    (Ok false,
     announcement version title api_version (List.length paths) (schemas_count d)
     ++ [[FLit "❌ Validation error: "; FExn e]]).
Proof.
  intros Hdoc Hitems Hopenapi Hinfo Htitle Hversion Hpaths Hcomponents Hbad Hprint Hfail.
  destruct (parsed_document_body stdout _ _ Hdoc) as [Hex Hbody].
  rewrite (validate_loaded_accepts _ _ Hitems) in Hbody.
  rewrite (report_eq stdout d info paths version title api_version
             Hopenapi Hinfo Htitle Hversion Hpaths Hcomponents) in Hbody.
  destruct (tags_stage_fails stdout _ Hbad) as (e & He & Hstage).
  exists e. split; [exact He |].
  unfold announcement in *. cbn [forallb] in Hprint.
  repeat (apply andb_true_iff in Hprint as [?Hl Hprint]).
  apply printable_ok in Hl, Hl0, Hl1, Hl2, Hl3, Hl4.
  rewrite (bind_print_eq _ _ _ _ _ Hl
             (bind_print_eq _ _ _ _ _ Hl0
                (bind_print_eq _ _ _ _ _ Hl1
                   (bind_print_eq _ _ _ _ _ Hl2
                      (bind_print_eq _ _ _ _ _ Hl3
                         (bind_print_eq _ _ _ _ _ Hl4 Hstage)))))) in Hbody.
  destruct (validate_of_body stdout f Hex) as [_ Hraise].
  rewrite (Hraise _ _ Hbody).
  destruct He as [-> | ->]; cbn [handler_line]; rewrite Hfail; reflexivity.
Qed.

Lemma validate_announces_then_rejects_witness :
  exists e,
    (e = TypeError \/ e = AttributeError) /\
    validate_openapi_spec terminal (yaml_file numeric_tag_document) =
    (Ok false,
     announcement (VStr "3.0.3") (VStr "Mastodon API") (VStr "4.3.0") 1 0
     ++ [[FLit "❌ Validation error: "; FExn e]]).
Proof.
  exact (validate_announces_then_rejects terminal (yaml_file numeric_tag_document)
           _ _ _ _ _ _ eq_refl eq_refl eq_refl eq_refl eq_refl eq_refl eq_refl eq_refl
           eq_refl eq_refl (fun _ => eq_refl)).
Defined.

End AnnouncedThenRejected.

Section Fetching.
Import Py Scraper ScraperSpec MFacts ScraperFacts.



End Fetching.

Section FrontMatter.
Import Py Scraper ScraperSpec MFacts ScraperFacts.

(** X11: [parse_frontmatter_and_content] falls back to the empty mapping
    and the content as it is when the content does not start with [---];
    the front matter that it returns is the empty mapping or a value that
    is true, never None or another false value; it prints nothing, and the
    only exceptions that it lets through are those of the YAML loader that
    are not YAMLError. *)
Theorem frontmatter_fallback (env : Env) (content : string) :
  (startswith content "---" = false ->
   parse_frontmatter_and_content env content = (Ok (VDict [], content), [])) /\
  (forall frontmatter body out,
     parse_frontmatter_and_content env content = (Ok (frontmatter, body), out) ->
     out = [] /\ (frontmatter = VDict [] \/ py_truthy frontmatter = true)) /\
  (forall e out,
     parse_frontmatter_and_content env content = (Raise e, out) ->
     out = [] /\ e <> YAMLError /\ exists part, yaml_safe_load env part = Raise e).
Proof.
  unfold parse_frontmatter_and_content.
  destruct (startswith content "---"); simpl negb; cbv iota.
  - split; [discriminate |].
    destruct (split content "---" (Some 2)) as [| part0 [| part1 [| part2 parts]]];
      try (split; [intros fm body out H; inversion H; auto
                  | intros e out H; discriminate H]).
    destruct (yaml_safe_load env part1) as [loaded | e] eqn:Hload.
    + simpl. split.
      * intros fm body out H. inversion H; subst. split; [reflexivity |].
        destruct (py_truthy loaded) eqn:Ht; auto.
      * intros e out H. discriminate H.
    + destruct e; simpl; split;
        try (intros fm body out H; inversion H; auto);
        try (intros e' out H; inversion H; subst;
             split; [reflexivity | split; [discriminate | eauto]]);
        intros e' out H; discriminate H.
  - split; [reflexivity |]. split.
    + intros fm body out H. inversion H; auto.
    + intros e out H. discriminate H.
Qed.

Lemma frontmatter_fallback_witness :
  parse_frontmatter_and_content (offline terminal) "# Account"
    = (Ok (VDict [], "# Account"), []).
Proof.
  apply (proj1 (frontmatter_fallback (offline terminal) "# Account")). reflexivity.
Defined.

End FrontMatter.

Section ParsedEntities.
Import Py Scraper ScraperSpec MFacts ScraperFacts.

Lemma prefix_empty (s : string) : String.prefix "" s = true.
Proof. destruct s; reflexivity. Qed.

Lemma prefix_app (a b s : string) :
  String.prefix (a ++ b) s = true -> String.prefix a s = true.
Proof.
  revert s. induction a as [| c a IH]; intros s H.
  - apply prefix_empty.
  - destruct s as [| c' s]; [discriminate H |].
    change (String.prefix (String c (a ++ b)) (String c' s) = true) in H.
    apply prefix_cons in H as [-> H]. apply prefix_cons. split; [reflexivity | eauto].
Qed.

Lemma contains_app (s a b : string) :
  contains s (a ++ b) = true -> contains s a = true.
Proof.
  induction s as [| c s IH]; intros H.
  - change (String.prefix (a ++ b) "" || false = true) in H.
    change (String.prefix a "" || false = true).
    apply orb_true_iff in H as [H | H]; [| discriminate].
    rewrite (prefix_app _ _ _ H). reflexivity.
  - rewrite contains_cons in *. apply orb_true_iff in H as [H | H].
    + rewrite (prefix_app _ _ _ H). reflexivity.
    + rewrite (IH H). apply orb_true_r.
Qed.

(** X12: every property that the scraper builds from a match is flagged
    required, has one of the five types string, integer, boolean, array and
    object, and has a format only with the type string; it is nullable
    exactly when [null] occurs in its type text, whatever the case of the
    letters (the test for [nullable] adds nothing).  An entity that
    [parse_entity] returns is named after the stem of its file and has
    such properties only, and nothing is printed for it. *)
Theorem scraped_properties (env : Env) :
  (forall groups : string * string * string,
     scraped_property (property_of env groups) /\
     PropertyInfo.name (property_of env groups) = fst (fst groups) /\
     PropertyInfo.nullable (property_of env groups) =
       contains (str_lower env (str_strip env (snd groups))) "null") /\
  (forall entity_file entity out,
     parse_entity env entity_file = (Ok (Some entity), out) ->
     out = [] /\
     EntityInfo.name entity = path_stem env entity_file /\
     Forall scraped_property (EntityInfo.properties entity)).
Proof.
  split.
  - intros groups. split; [apply property_of_scraped |].
    destruct groups as [[attr_name group2] group3]. unfold property_of. simpl snd. simpl fst.
    assert (Hnull : contains (str_lower env (str_strip env group3)) "nullable"
                    || contains (str_lower env (str_strip env group3)) "null"
                    = contains (str_lower env (str_strip env group3)) "null").
    { destruct (contains (str_lower env (str_strip env group3)) "nullable") eqn:Hn; [| reflexivity].
      change "nullable" with ("null" ++ "able")%string in Hn.
      rewrite (contains_app _ _ _ Hn). reflexivity. }
    destruct (contains (str_strip env group3) "String");
      [ destruct (contains (str_strip env group3) "URL");
        [| destruct (contains (str_strip env group3) "Datetime")]
      | destruct (contains (str_strip env group3) "Integer");
        [| destruct (contains (str_strip env group3) "Boolean");
           [| destruct (contains (str_strip env group3) "Array");
              [| destruct (contains (str_strip env group3) "Hash")]]] ];
      simpl; auto.
  - intros entity_file entity out H.
    destruct (parse_entity_some _ _ _ _ H) as (-> & Hname & matches & Hprops).
    split; [reflexivity |]. split; [exact Hname |].
    rewrite Hprops. apply Forall_forall. intros prop Hin.
    apply in_map_iff in Hin as (groups & <- & _). apply property_of_scraped.
Qed.

Lemma scraped_properties_witness :
  Forall scraped_property
    (EntityInfo.properties
       (EntityInfo.mk "Account" (VStr "Represents a user.")
          (map (property_of (serving base64_entry account_text (Ok account_frontmatter)))
             (attr_matches (serving base64_entry account_text (Ok account_frontmatter)) "")))).
Proof.
  apply (proj2 (scraped_properties
                  (serving base64_entry account_text (Ok account_frontmatter)))
           "Account.md" _ []).
  reflexivity.
Defined.

End ParsedEntities.

Section ScrapedTables.
Import Py Scraper ScraperSpec MFacts ScraperFacts.

(** X13: [parse_all_entities] keeps the table of entities in order (the
    names differ, each entity is stored under its name, every property is
    flagged required and has one of the five types) and leaves the
    endpoints alone; [parse_all_methods] leaves the entities alone, and
    every endpoint that it adds has the single response 200, query
    parameters of the types string, integer and boolean that are not named
    [Name], and the path [/api/v1/] followed by its tag. *)
Theorem scraped_tables (env : Env) (self self' : MastodonDocsParser.t) (out : list line) :
  (parse_all_entities env self = (Ok self', out) ->
   MastodonDocsParser.endpoints self' = MastodonDocsParser.endpoints self /\
   (scraped_entities (MastodonDocsParser.entities self) ->
    scraped_entities (MastodonDocsParser.entities self'))) /\
  (parse_all_methods env self = (Ok self', out) ->
   MastodonDocsParser.entities self' = MastodonDocsParser.entities self /\
   exists added,
     MastodonDocsParser.endpoints self' = MastodonDocsParser.endpoints self ++ added /\
     Forall scraped_endpoint added).
Proof.
  split; [apply parse_all_entities_keeps | apply parse_all_methods_keeps].
Qed.

Lemma scraped_tables_witness :
  scraped_entities
    (MastodonDocsParser.entities
       (parser_of (parse_all_entities
                     (serving base64_entry account_text (Ok account_frontmatter))
                     __init__))) /\
  exists added,
    MastodonDocsParser.endpoints
      (parser_of (parse_all_methods
                    (serving base64_entry account_text (Ok account_frontmatter))
                    __init__)) = [] ++ added /\
    Forall scraped_endpoint added.
Proof.
  split.
  - apply (proj1 (scraped_tables
                    (serving base64_entry account_text (Ok account_frontmatter))
                    __init__ _ [[FLit "Parsed entity: "; FLit "Account"]]));
      [reflexivity | apply scraped_entities_nil].
  - apply (proj2 (scraped_tables
                    (serving base64_entry account_text (Ok account_frontmatter))
                    __init__ _
                    [[FLit "Parsed endpoint: "; FLit "GET"; FLit " ";
                      FLit "/api/v1/accounts"]])).
    reflexivity.
Defined.

(** X14: for the tables that [parse_all_entities] and [parse_all_methods]
    build from the empty parser, whatever the network answers, the schema
    emitted for an entity lists every property of the entity under
    [required], in their order, and has the key [required] exactly when
    the entity has a property. *)
Theorem scraped_schemas_require_everything (env : Env)
    (self1 self2 : MastodonDocsParser.t) (out1 out2 : list line) :
  parse_all_entities env __init__ = (Ok self1, out1) ->
  parse_all_methods env self1 = (Ok self2, out2) ->
  forall name entity,
    In (name, entity) (MastodonDocsParser.entities self2) ->
    exists schema,
      GeneratorSpec.emitted_schema
        (GeneratorSpec.returned (generate_openapi_spec self2)) name = Ok schema /\
      GeneratorSpec.required_names schema =
        map VStr (map PropertyInfo.name (EntityInfo.properties entity)) /\
      (py_in "required" schema = Ok true <-> EntityInfo.properties entity <> []).
Proof.
  intros H1 H2 name entity Hin.
  destruct (parse_all_entities_keeps _ _ _ _ H1) as [_ Hscraped].
  destruct (parse_all_methods_keeps _ _ _ _ H2) as [Hsame _].
  specialize (Hscraped scraped_entities_nil). rewrite <- Hsame in Hscraped.
  destruct Hscraped as [Hnd Hall]. destruct (Hall _ _ Hin) as [_ Hprops].
  exists (GeneratorSpec.scraper_entity_schema entity).
  split; [apply GeneratorFacts.scraper_emitted_schema; assumption |].
  unfold GeneratorSpec.scraper_entity_schema.
  pose proof (GeneratorFacts.scraper_required_props (EntityInfo.properties entity) [] [])
    as Hreq.
  destruct (fold_left add_property (EntityInfo.properties entity) ([], []))
    as [properties required_props].
  simpl in Hreq. subst required_props.
  rewrite (filter_all PropertyInfo.required (EntityInfo.properties entity)).
  - destruct (required_of_schema (EntityInfo.description entity) properties
                (map PropertyInfo.name (EntityInfo.properties entity))) as [Hnames Hkey].
    split; [exact Hnames |]. rewrite Hkey.
    destruct (EntityInfo.properties entity); simpl; split; congruence.
  - apply Forall_forall. intros prop Hp.
    rewrite Forall_forall in Hprops. apply (Hprops prop Hp).
Qed.

Lemma scraped_schemas_require_everything_witness :
  exists schema,
    GeneratorSpec.emitted_schema
      (GeneratorSpec.returned
         (generate_openapi_spec
            (parser_of (parse_all_methods
                          (serving base64_entry account_text (Ok account_frontmatter))
                          (parser_of (parse_all_entities
                                        (serving base64_entry account_text
                                           (Ok account_frontmatter))
                                        __init__))))))
      "Account" = Ok schema /\
    GeneratorSpec.required_names schema =
      map VStr ["id"; "url"; "moved"; "emojis"] /\
    (py_in "required" schema = Ok true <->
     map (property_of (serving base64_entry account_text (Ok account_frontmatter)))
       (attr_matches (serving base64_entry account_text (Ok account_frontmatter)) "")
     <> []).
Proof.
  apply (scraped_schemas_require_everything
           (serving base64_entry account_text (Ok account_frontmatter))
           (parser_of (parse_all_entities
                         (serving base64_entry account_text (Ok account_frontmatter))
                         __init__))
           (parser_of (parse_all_methods
                         (serving base64_entry account_text (Ok account_frontmatter))
                         (parser_of (parse_all_entities
                                       (serving base64_entry account_text
                                          (Ok account_frontmatter))
                                       __init__))))
           [[FLit "Parsed entity: "; FLit "Account"]]
           [[FLit "Parsed endpoint: "; FLit "GET"; FLit " "; FLit "/api/v1/accounts"]]
           eq_refl
           eq_refl
           "Account"
           (EntityInfo.mk "Account" (VStr "Represents a user.")
              (map (property_of (serving base64_entry account_text (Ok account_frontmatter)))
                 (attr_matches
                    (serving base64_entry account_text (Ok account_frontmatter)) "")))).
  left. reflexivity.
Defined.

End ScrapedTables.

Section OfflineRun.
Import Py Scraper ScraperSpec MFacts ScraperFacts.

(** X15: when the two listings of the scraping generator fail (the network
    is down), [main] prints the two errors between its progress messages,
    parses nothing, and returns the specification object that
    [generate_openapi_spec] starts from, which has no path and no schema,
    provided the six calls of [print] succeed. *)
Theorem offline_run_is_empty (env : Env) (p : process) (e1 e2 : exn) :
  answered env ENTITIES_PATH = Raise e1 ->
  answered env METHODS_PATH = Raise e2 ->
  forallb (printable (stdout env)) (offline_lines e1 e2) = true ->
  main env p = (Ok initial_spec, offline_lines e1 e2) /\
  getitem initial_spec "paths" = Ok (VDict []) /\
  GeneratorSpec.emitted_schema_names initial_spec = Ok [].
Proof.
  intros H1 H2 Hprint. split; [| split; reflexivity].
  unfold offline_lines in *. cbn [forallb] in Hprint.
  repeat (apply andb_true_iff in Hprint as [?Hl Hprint]).
  apply ValidatorFacts.printable_ok in Hl, Hl0, Hl1, Hl2, Hl3, Hl4.
  assert (Hentities : parse_all_entities env __init__
                      = (Ok __init__, [listing_error ENTITIES_PATH e1])).
  { unfold parse_all_entities. rewrite list_directory_eq, H1. unfold reported.
    rewrite Hl1. reflexivity. }
  assert (Hmethods : parse_all_methods env __init__
                     = (Ok __init__, [listing_error METHODS_PATH e2])).
  { unfold parse_all_methods. rewrite list_directory_eq, H2. unfold reported.
    rewrite Hl3. reflexivity. }
  unfold main. cbv zeta.
  apply bind_print_eq; [exact Hl |]. apply bind_print_eq; [exact Hl0 |].
  rewrite (bind_ok _ _ _ _ Hentities).
  rewrite (bind_print_eq _ _ _ _ _ Hl2
             (eq_trans (bind_ok _ _ _ _ Hmethods) eq_refl)).
  cbn [fst snd app].
  rewrite (bind_print_eq _ _ _ _ _ Hl4 (GeneratorFacts.scraper_generate __init__)).
  reflexivity.
Qed.

Lemma offline_run_is_empty_witness :
  main (offline terminal) {| hash_seed := 0; argv := [] |}
  = (Ok initial_spec, offline_lines RequestException RequestException).
Proof.
  apply (offline_run_is_empty (offline terminal) {| hash_seed := 0; argv := [] |}
           RequestException RequestException); reflexivity.
Defined.

End OfflineRun.

Section UnexpectedFrontMatter.
Import Py Scraper ScraperSpec MFacts ScraperFacts.

(** X16: front matter that the YAML loader reads as a value that is no
    mapping (and is true: a text, a number, a list) has no method [get];
    [parse_entity] raises AttributeError on it and nothing catches it, so
    that [parse_all_entities] raises it when the first entry of the listing
    names such a file. *)
Theorem unexpected_frontmatter_raises (env : Env) (name content body : string)
    (frontmatter : value) :
  fetch_file_content env (ENTITIES_PATH ++ "/" ++ name) = (Ok (Some content), []) ->
  content <> "" ->
  parse_frontmatter_and_content env content = (Ok (frontmatter, body), []) ->
  is_dict frontmatter = false ->
  parse_entity env name = (Raise AttributeError, []) /\
  forall (self : MastodonDocsParser.t) (entity : value) (rest : list value),
    answered env ENTITIES_PATH = Ok (VList (entity :: rest)) ->
    getitem entity "type" = Ok (VStr "file") ->
    getitem entity "name" = Ok (VStr name) ->
    endswith name ".md" = true ->
    parse_all_entities env self = (Raise AttributeError, []).
Proof.
  intros Hfetch Hcontent Hparse Hdict.
  assert (Hentity : parse_entity env name = (Raise AttributeError, [])).
  { unfold parse_entity. rewrite (bind_pure _ _ _ Hfetch).
    apply String.eqb_neq in Hcontent. rewrite Hcontent.
    rewrite (bind_pure _ _ _ Hparse).
    destruct frontmatter; try discriminate Hdict; reflexivity. }
  split; [exact Hentity |].
  intros self entity rest Hlisting Htype Hname Hmd.
  unfold parse_all_entities. rewrite list_directory_eq, Hlisting.
  rewrite (bind_pure _ _ _ eq_refl). cbn [py_iter].
  rewrite (bind_lift_ok _ _ _ eq_refl). cbn [foldM].
  unfold parse_listed_entity at 1.
  rewrite (bind_lift_ok _ _ _ Htype). cbn [eq_str is_key String.eqb Ascii.eqb Bool.eqb].
  rewrite (bind_lift_ok _ _ _ Hname). cbn [str_method].
  rewrite (bind_lift_ok _ _ _ eq_refl), Hmd, Hentity. reflexivity.
Qed.

Lemma unexpected_frontmatter_raises_witness :
  parse_all_entities (serving base64_entry account_text (Ok (VStr "text"))) __init__
  = (Raise AttributeError, []).
Proof.
  apply (proj2 (unexpected_frontmatter_raises
                  (serving base64_entry account_text (Ok (VStr "text")))
                  "Account.md" account_text "### `id`" (VStr "text")
                  eq_refl ltac:(discriminate) eq_refl eq_refl)
           __init__ (file_entry "Account.md") [dir_entry "admin"]);
    reflexivity.
Defined.

End UnexpectedFrontMatter.
